(** * I/O SAPIC driver (drivers/parisc/iosapic.c): routing-table lookup,
      pin translation, controller registration, redirection-entry encoding
      and the mask / unmask / retarget operations.

    The C code is embedded shallowly.  Fixed-width integers are [Z] with the
    wrap-around of every store written out ([u8], [u32], [s32], [ulong]);
    pointers into the interrupt routing table are offsets into the table;
    memory-mapped register accesses are commands of a small free monad
    ([mmio]) whose runs record the bus traffic; [BUG()], [panic()] and
    accesses the C code leaves undefined are the [Halt] outcomes. *)

From Stdlib Require Import ZArith Lia Bool.
From stdpp Require Import base numbers list relations.

Local Open Scope Z_scope.

(** ** Build configuration and header constants

    [iosapic_private.h], [asm/pdc.h], [linux/pci.h] and [asm/superio.h] are
    not in drivers/parisc/iosapic.c: what the driver takes from them is a
    parameter. *)

Class kconfig := {
  CONFIG_64BIT : bool;
  CONFIG_SUPERIO : bool;
}.

Class iosapic_private := {
  IRT_IOSAPIC_TYPE : Z;
  IRT_IOSAPIC_LENGTH : Z;
  IRT_VECTORED_INTR : Z;
  IRT_PO_MASK : Z;
  IRT_ACTIVE_LO : Z;
  IRT_EL_MASK : Z;
  IRT_EL_SHIFT : Z;
  IRT_LEVEL_TRIG : Z;
  IRT_DEV_SHIFT : Z;
  IRT_IRQ_DEVNO_MASK : Z;
  PDC_OK : Z;
  PCI_SLOT : Z -> Z;
  PCI_FUNC : Z -> Z;
  SUPERIO_USB_FN : Z;
}.

(** ** Integer stores *)

Definition u8 (x : Z) : Z := x mod 2 ^ 8.
Definition u32 (x : Z) : Z := x mod 2 ^ 32.

(** [int]: 32-bit two's complement. *)
Definition s32 (x : Z) : Z := (x + 2 ^ 31) mod 2 ^ 32 - 2 ^ 31.

Definition BITS_PER_LONG `{kconfig} : Z := if CONFIG_64BIT then 64 else 32.
Definition ulong `{kconfig} (x : Z) : Z := x mod 2 ^ BITS_PER_LONG.

(** ** Outcomes of calls that may stop the machine *)

Inductive halt_reason :=
| BUG          (* BUG() / BUG_ON(cond) with cond true *)
| PANIC        (* panic() *)
| UNDEFINED.   (* NULL dereference or access outside an array *)

Inductive outcome (A : Type) :=
| Returns (a : A)
| Halt (r : halt_reason).
Arguments Returns {A} a.
Arguments Halt {A} r.

#[global] Instance outcome_mret : MRet outcome := @Returns.
#[global] Instance outcome_mbind : MBind outcome := fun A B f m =>
  match m with
  | Returns a => f a
  | Halt r => Halt r
  end.

(** ** Memory-mapped I/O

    [writel], [readl] and [__raw_writel] are the only ways the driver talks
    to the controller.  A driver routine is a tree of such commands; the
    device decides what a read returns, and [Stop] ends the routine where
    the machine halts. *)

Inductive mmio (A : Type) : Type :=
| Ret (a : A)
| Stop (r : halt_reason)
| Writel (val addr : Z) (k : mmio A)
| Readl (addr : Z) (k : Z -> mmio A)
| RawWritel (val addr : Z) (k : mmio A).
Arguments Ret {A} a.
Arguments Stop {A} r.
Arguments Writel {A} val addr k.
Arguments Readl {A} addr k.
Arguments RawWritel {A} val addr k.

Fixpoint mmio_bind {A B} (f : A -> mmio B) (m : mmio A) : mmio B :=
  match m with
  | Ret a => f a
  | Stop r => Stop r
  | Writel v a k => Writel v a (mmio_bind f k)
  | Readl a k => Readl a (fun r => mmio_bind f (k r))
  | RawWritel v a k => RawWritel v a (mmio_bind f k)
  end.

#[global] Instance mmio_mret : MRet mmio := @Ret.
#[global] Instance mmio_mbind : MBind mmio := @mmio_bind.

Definition writel (val addr : Z) : mmio unit := Writel val addr (Ret tt).
Definition readl (addr : Z) : mmio Z := Readl addr Ret.
Definition __raw_writel (val addr : Z) : mmio unit := RawWritel val addr (Ret tt).

(** A pure step that may halt, run inside a register routine. *)
Definition lift {A} (o : outcome A) : mmio A :=
  match o with
  | Returns a => Ret a
  | Halt r => Stop r
  end.

Inductive mmio_event :=
| EvWritel (val addr : Z)
| EvReadl (addr result : Z)
| EvRawWritel (val addr : Z).

(** A device answers a read from the traffic it has seen so far; [readl]
    delivers 32 bits of the answer. *)
Definition device := list mmio_event -> Z -> Z.

Fixpoint run {A} (dev : device) (m : mmio A) (log : list mmio_event)
  : outcome A * list mmio_event :=
  match m with
  | Ret a => (Returns a, log)
  | Stop r => (Halt r, log)
  | Writel v a k => run dev k (log ++ [EvWritel v a])
  | Readl a k =>
      let r := u32 (dev log a) in run dev (k r) (log ++ [EvReadl a r])
  | RawWritel v a k => run dev k (log ++ [EvRawWritel v a])
  end.

(** The traffic a routine adds to the log. *)
Fixpoint trace {A} (dev : device) (m : mmio A) (log : list mmio_event)
  : list mmio_event :=
  match m with
  | Ret _ | Stop _ => []
  | Writel v a k => EvWritel v a :: trace dev k (log ++ [EvWritel v a])
  | Readl a k =>
      let r := u32 (dev log a) in
      EvReadl a r :: trace dev (k r) (log ++ [EvReadl a r])
  | RawWritel v a k => EvRawWritel v a :: trace dev k (log ++ [EvRawWritel v a])
  end.

(** ** Data model *)

Record irt_entry := {
  entry_type : Z;
  entry_length : Z;
  interrupt_type : Z;
  polarity_trigger : Z;
  src_bus_irq_devno : Z;
  src_bus_id : Z;
  src_seg_id : Z;
  dest_iosapic_intin : Z;
  dest_iosapic_addr : Z;
}.

(** [struct vector_info].  [iosapic] is the handle of the owning controller,
    [irte] the offset of the bound entry in the routing table ([None] is the
    NULL pointer). *)
Record vector_info := {
  iosapic : nat;
  irte : option nat;
  eoi_addr : Z;
  eoi_data : Z;
  txn_irq : Z;
  txn_addr : Z;
  txn_data : Z;
  status : Z;
  irqline : Z;
}.

Record iosapic_info := {
  addr : Z;
  isi_hpa : Z;
  isi_vector : list vector_info;
  isi_num_vectors : Z;
  isi_status : Z;
  isi_version : Z;
}.

(** [struct pci_bus]: the root bus has no parent; any other bus hangs off
    the bridge [self] that sits on its parent bus. *)
Inductive pci_bus :=
| RootBus
| ChildBus (self_devfn : Z) (parent : pci_bus).

(** [struct pci_dev], with the interrupt-pin byte of its configuration
    header and what the SuperIO driver knows about it. *)
Record pci_dev := {
  devfn : Z;
  bus : pci_bus;
  cfg_interrupt_pin : Z;
  irq : Z;
  is_superio_device : bool;
  superio_irq : Z;
}.

(** [struct irq_data], as far as the driver reads and writes it; [chip_data]
    points at a [vector_info]: controller handle and line. *)
Record irq_data := {
  d_irq : Z;
  affinity : Z;
  chip_data : nat * nat;
}.

(** The globals [irt_cell] and [irt_num_entry]; [irt_mem] is the memory
    [irt_cell] points to. *)
Record irt_globals := {
  irt_cell : Z;
  irt_num_entry : Z;
  irt_mem : list irt_entry;
}.

(** ** Firmware and kernel services the driver calls *)

Class pdc := {
  is_pdc_pat : bool;
  (* status, cell number *)
  pdc_pat_cell_get_number : Z * Z;
  (* cell -> status, num_entries after the call *)
  pdc_pat_get_irt_size : Z -> Z * Z;
  (* table, cell -> status, memory at table after the call *)
  pdc_pat_get_irt : Z -> Z -> Z * list irt_entry;
  (* hpa -> status, num_entries after the call *)
  pdc_pci_irt_size : Z -> Z * Z;
  (* num_entries, hpa, table -> status, memory at table after the call *)
  pdc_pci_irt : Z -> Z -> Z -> Z * list irt_entry;
}.

Class kernel := {
  txn_state : Type;
  txn_alloc_irq : txn_state -> Z -> Z * txn_state;
  txn_alloc_addr : txn_state -> Z -> Z * txn_state;
  txn_alloc_data : Z -> Z;
  txn_affinity_addr : Z -> Z -> Z;
  cpu_check_affinity : irq_data -> Z -> Z;
  cpumask_of : Z -> Z;
  cpu_to_le32 : Z -> Z;
  ioremap_nocache : Z -> Z -> Z;
  kmalloc : Z -> Z;
}.

(** Everything the driver owns or shares with the interrupt core: the
    routing table, the registered controllers (a handle is a position in
    [isis]), the allocator of processor interrupts and the interrupts
    claimed with [cpu_claim_irq]. *)
Record world `{kernel} := {
  irt : irt_globals;
  isis : list iosapic_info;
  txn : txn_state;
  claimed : list (Z * (nat * nat));
}.

(** ** The driver *)

Section Driver.
Context `{kconfig} `{iosapic_private} `{pdc} `{kernel}.

Definition COMPARE_IRTE_ADDR (irte : irt_entry) (hpa : Z) : bool :=
  if CONFIG_64BIT then dest_iosapic_addr irte =? hpa
  else dest_iosapic_addr irte =? Z.lor hpa 0xffffffff00000000.

Definition IOSAPIC_REG_SELECT : Z := 0x00.
Definition IOSAPIC_REG_WINDOW : Z := 0x10.
Definition IOSAPIC_REG_EOI : Z := 0x40.
Definition IOSAPIC_REG_VERSION : Z := 0x1.

Definition IOSAPIC_IRDT_ENTRY (idx : Z) : Z := 0x10 + idx * 2.
Definition IOSAPIC_IRDT_ENTRY_HI (idx : Z) : Z := 0x11 + idx * 2.

Definition iosapic_read (iosapic reg : Z) : mmio Z :=
  writel (u32 reg) (iosapic + IOSAPIC_REG_SELECT);;
  readl (iosapic + IOSAPIC_REG_WINDOW).

Definition iosapic_write (iosapic reg val : Z) : mmio unit :=
  writel (u32 reg) (iosapic + IOSAPIC_REG_SELECT);;
  writel val (iosapic + IOSAPIC_REG_WINDOW).

Definition IOSAPIC_MAX_ENTRY_MASK : Z := 0x00ff0000.
Definition IOSAPIC_MAX_ENTRY_SHIFT : Z := 0x10.
Definition IOSAPIC_IRDT_MAX_ENTRY (ver : Z) : Z :=
  s32 (Z.shiftr (Z.land ver IOSAPIC_MAX_ENTRY_MASK) IOSAPIC_MAX_ENTRY_SHIFT).

Definition IOSAPIC_IRDT_ENABLE : Z := 0x10000.
Definition IOSAPIC_IRDT_PO_LOW : Z := 0x02000.
Definition IOSAPIC_IRDT_LEVEL_TRIG : Z := 0x08000.

Definition iosapic_eoi (addr data : Z) : mmio unit := __raw_writel data addr.

(** The [irt_num_entry] entries that start at [irt_cell], as the loops of
    irt_find_irqline and iosapic_register walk them.  The loops themselves
    test neither [irt_cell] nor the size of the memory behind it: with a
    NULL [irt_cell] and a count that is not 0 they would read from address
    0, where this table is empty.  [iosapic_init] never leaves such
    globals (a NULL [irt_cell] goes with a zero count), so the two agree
    on everything the driver sets up. *)
Definition irt_table (g : irt_globals) : list irt_entry :=
  if irt_cell g =? 0 then []
  else take (Z.to_nat (irt_num_entry g)) (irt_mem g).

(** *** iosapic_load_irt, iosapic_init *)

Definition sizeof_irt_entry : Z := 16.

Definition iosapic_alloc_irt (num_entries : Z) : Z :=
  let a := kmalloc (ulong (ulong (sizeof_irt_entry * ulong num_entries) + 8)) in
  Z.land (ulong (a + 7)) (ulong (Z.lnot 7)).

(** Returns the count, the value of [*irt] and the memory behind it. *)
Definition iosapic_load_irt (g : irt_globals) (cell_num : Z)
  : outcome (Z * Z * list irt_entry) :=
  if is_pdc_pat then
    let '(status, num_entries) := pdc_pat_get_irt_size cell_num in
    if negb (status =? PDC_OK) then Halt BUG
    else if num_entries =? 0 then Halt BUG
    else
      let table := iosapic_alloc_irt (s32 num_entries) in
      if table =? 0 then Returns (0, irt_cell g, irt_mem g)
      else
        let '(status, mem) := pdc_pat_get_irt table cell_num in
        (* WARN_ON(status != PDC_OK) only logs *)
        Returns (s32 num_entries, table, mem)
  else
    if negb (irt_cell g =? 0) then Returns (0, irt_cell g, irt_mem g)
    else
      let '(status, num_entries) := pdc_pci_irt_size 0 in
      if negb (status =? PDC_OK) then Returns (0, irt_cell g, irt_mem g)
      else if num_entries =? 0 then Halt BUG
      else
        let table := iosapic_alloc_irt (s32 num_entries) in
        if table =? 0 then Returns (0, irt_cell g, irt_mem g)
        else
          let '(status, mem) := pdc_pci_irt num_entries 0 table in
          if negb (status =? PDC_OK) then Halt BUG
          else Returns (s32 num_entries, table, mem).

Definition iosapic_init (g : irt_globals) : outcome irt_globals :=
  let cell :=
    if CONFIG_64BIT && is_pdc_pat then
      let '(status, cell_num) := pdc_pat_cell_get_number in
      if s32 status =? PDC_OK then cell_num else 0
    else 0 in
  '(n, table, mem) ← iosapic_load_irt g cell;
  let g := {| irt_cell := table; irt_num_entry := ulong n; irt_mem := mem |} in
  mret (if irt_num_entry g =? 0
        then {| irt_cell := 0; irt_num_entry := irt_num_entry g;
                irt_mem := irt_mem g |}
        else g).

(** *** irt_find_irqline *)

Definition irq_devno (slot intr_pin : Z) : Z :=
  u8 (Z.lor (Z.shiftl slot IRT_DEV_SHIFT) (intr_pin - 1)).

(** The loop of irt_find_irqline from entry [cnt] on; [i] is the rest of
    the table. *)
Fixpoint irt_find_irqline_from (i : list irt_entry) (cnt : nat)
    (isi_hpa devno : Z) : option nat :=
  match i with
  | [] => None
  | e :: i' =>
      let continue := irt_find_irqline_from i' (S cnt) isi_hpa devno in
      if negb (entry_type e =? IRT_IOSAPIC_TYPE) then continue
      else if negb (entry_length e =? IRT_IOSAPIC_LENGTH) then continue
      else if negb (interrupt_type e =? IRT_VECTORED_INTR) then continue
      else if negb (COMPARE_IRTE_ADDR e isi_hpa) then continue
      else if negb (Z.land (src_bus_irq_devno e) IRT_IRQ_DEVNO_MASK =? devno)
      then continue
      else Some cnt
  end.

Definition irt_find_irqline (g : irt_globals) (isi : iosapic_info)
    (slot intr_pin : Z) : option nat :=
  irt_find_irqline_from (irt_table g) 0 (isi_hpa isi) (irq_devno slot intr_pin).

(** *** iosapic_xlate_pin *)

(** Modelled from the spec: pci_swizzle_interrupt_pin belongs to the PCI
    core and is not in drivers/parisc/iosapic.c.  Spec 4.2 gives the skew as
    effective_pin = (pin + device_number - 1) mod 4, and spec 8 maps the
    result back to 1..4 with +1. *)
Definition pci_swizzle_interrupt_pin (pcidev : pci_dev) (pin : Z) : Z :=
  u8 ((pin + PCI_SLOT (devfn pcidev) - 1) `rem` 4 + 1).

(** [while (p->parent->parent) p = p->parent;] started at a bus [p] with
    bridge [self] and parent bus [parent]; the result is [p->self->devfn]
    when the loop ends. *)
Fixpoint ppb_host_devfn (self : Z) (parent : pci_bus) : Z :=
  match parent with
  | RootBus => self
  | ChildBus self' parent' => ppb_host_devfn self' parent'
  end.

Definition iosapic_xlate_pin (g : irt_globals) (isi : iosapic_info)
    (pcidev : pci_dev) : option nat :=
  let intr_pin := u8 (cfg_interrupt_pin pcidev) in
  if intr_pin =? 0 then None
  else
    match bus pcidev with
    | ChildBus self parent =>
        let intr_pin := pci_swizzle_interrupt_pin pcidev intr_pin in
        let intr_slot := u8 (PCI_SLOT (ppb_host_devfn self parent)) in
        irt_find_irqline g isi intr_slot intr_pin
    | RootBus =>
        let intr_slot := u8 (PCI_SLOT (devfn pcidev)) in
        irt_find_irqline g isi intr_slot intr_pin
    end.

(** *** Pointers into the world *)

Definition deref_isi (w : world) (h : nat) : outcome iosapic_info :=
  match isis w !! h with
  | Some isi => Returns isi
  | None => Halt UNDEFINED
  end.

(** [isi->isi_vector + line], dereferenced.  The C code does not compare
    [line] with [isi_num_vectors]: an access past the array is undefined
    behaviour in C, and [Halt UNDEFINED] here.  What is stated about a
    call that gets to a line therefore either assumes that the line exists
    or that the routing table names only lines the controllers have. *)
Definition deref_vi (w : world) (vip : nat * nat) : outcome vector_info :=
  isi ← deref_isi w vip.1;
  match isi_vector isi !! vip.2 with
  | Some vi => Returns vi
  | None => Halt UNDEFINED
  end.

Definition deref_irte (g : irt_globals) (p : option nat) : outcome irt_entry :=
  match p ≫= (irt_table g !!.) with
  | Some e => Returns e
  | None => Halt UNDEFINED
  end.

Definition set_isi_vector (isi : iosapic_info) (v : list vector_info)
  : iosapic_info :=
  {| addr := addr isi; isi_hpa := isi_hpa isi; isi_vector := v;
     isi_num_vectors := isi_num_vectors isi; isi_status := isi_status isi;
     isi_version := isi_version isi |}.

Definition set_isis (w : world) (l : list iosapic_info) : world :=
  {| irt := irt w; isis := l; txn := txn w; claimed := claimed w |}.

(** [*vip = vi] *)
Definition store_vi (w : world) (vip : nat * nat) (vi : vector_info) : world :=
  match isis w !! vip.1 with
  | Some isi =>
      set_isis w (<[vip.1 := set_isi_vector isi (<[vip.2 := vi]> (isi_vector isi))]>
                    (isis w))
  | None => w
  end.

Definition set_txn_addr (vi : vector_info) (a : Z) : vector_info :=
  {| iosapic := iosapic vi; irte := irte vi; eoi_addr := eoi_addr vi;
     eoi_data := eoi_data vi; txn_irq := txn_irq vi; txn_addr := a;
     txn_data := txn_data vi; status := status vi; irqline := irqline vi |}.

Definition set_irq (pcidev : pci_dev) (n : Z) : pci_dev :=
  {| devfn := devfn pcidev; bus := bus pcidev;
     cfg_interrupt_pin := cfg_interrupt_pin pcidev; irq := n;
     is_superio_device := is_superio_device pcidev;
     superio_irq := superio_irq pcidev |}.

(** *** Redirection-table entries *)

Definition iosapic_rd_irt_entry (w : world) (vi : vector_info) : mmio (Z * Z) :=
  isp ← lift (deref_isi w (iosapic vi));
  let idx := irqline vi in
  dp0 ← iosapic_read (addr isp) (IOSAPIC_IRDT_ENTRY idx);
  dp1 ← iosapic_read (addr isp) (IOSAPIC_IRDT_ENTRY_HI idx);
  mret (dp0, dp1).

Definition iosapic_wr_irt_entry (w : world) (vi : vector_info) (dp0 dp1 : Z)
  : mmio unit :=
  isp ← lift (deref_isi w (iosapic vi));
  iosapic_write (addr isp) (IOSAPIC_IRDT_ENTRY (irqline vi)) dp0;;
  (* Read the window register to flush the writes down to HW *)
  dp0 ← readl (addr isp + IOSAPIC_REG_WINDOW);
  iosapic_write (addr isp) (IOSAPIC_IRDT_ENTRY_HI (irqline vi)) dp1;;
  (* Read the window register to flush the writes down to HW *)
  dp1 ← readl (addr isp + IOSAPIC_REG_WINDOW);
  mret tt.

Definition iosapic_set_irt_data (w : world) (vi : vector_info) : outcome (Z * Z) :=
  let mode := 0 in
  p ← deref_irte (irt w) (irte vi);
  let mode :=
    if Z.land (polarity_trigger p) IRT_PO_MASK =? IRT_ACTIVE_LO
    then Z.lor mode IOSAPIC_IRDT_PO_LOW else mode in
  let mode :=
    if Z.land (Z.shiftr (polarity_trigger p) IRT_EL_SHIFT) IRT_EL_MASK
       =? IRT_LEVEL_TRIG
    then Z.lor mode IOSAPIC_IRDT_LEVEL_TRIG else mode in
  let dp0 := Z.lor mode (u32 (txn_data vi)) in
  let dp1 :=
    if is_pdc_pat then u32 (txn_addr vi)
    else Z.lor (Z.shiftr (Z.land (u32 (txn_addr vi)) 0x0ff00000) 4)
               (u32 (Z.shiftl (Z.land (u32 (txn_addr vi)) 0x000ff000) 12)) in
  mret (dp0, dp1).

(** *** The irq_chip operations *)

Definition iosapic_mask_irq (w : world) (d : irq_data) : mmio unit :=
  vi ← lift (deref_vi w (chip_data d));
  '(d0, d1) ← iosapic_rd_irt_entry w vi;
  let d0 := Z.lor d0 IOSAPIC_IRDT_ENABLE in
  iosapic_wr_irt_entry w vi d0 d1.

Definition iosapic_unmask_irq (w : world) (d : irq_data) : mmio unit :=
  vi ← lift (deref_vi w (chip_data d));
  (* WARN_ON(vi->txn_irq == 0) only logs *)
  '(d0, d1) ← lift (iosapic_set_irt_data w vi);
  iosapic_wr_irt_entry w vi d0 d1;;
  iosapic_eoi (eoi_addr vi) (eoi_data vi).

(** [cpu_eoi_irq(d)], which follows, acts on the processor, not on the
    controller. *)
Definition iosapic_eoi_irq (w : world) (d : irq_data) : mmio unit :=
  vi ← lift (deref_vi w (chip_data d));
  iosapic_eoi (eoi_addr vi) (eoi_data vi).

Definition iosapic_set_affinity_irq (w : world) (d : irq_data) (dest : Z)
  : mmio (Z * irq_data * world) :=
  let dest_cpu := s32 (cpu_check_affinity d dest) in
  if dest_cpu <? 0 then mret (-1, d, w)
  else
    let d := {| d_irq := d_irq d; affinity := cpumask_of dest_cpu;
                chip_data := chip_data d |} in
    vi ← lift (deref_vi w (chip_data d));
    let vi := set_txn_addr vi (ulong (txn_affinity_addr (d_irq d) dest_cpu)) in
    let w := store_vi w (chip_data d) vi in
    (* d1 contains the destination CPU, so only want to set that entry *)
    '(d0, d1) ← iosapic_rd_irt_entry w vi;
    '(dummy_d0, d1) ← lift (iosapic_set_irt_data w vi);
    iosapic_wr_irt_entry w vi d0 d1;;
    mret (0, d, w).

(** *** iosapic_fixup_irq *)

Definition superio_fixup_irq (pcidev : pci_dev) : Z := superio_irq pcidev.

(** The body of [if (!vi->irte) { ... }]: bind line [vip] to entry [p]. *)
Definition bind_vector (w : world) (isi : iosapic_info) (vip : nat * nat)
    (vi : vector_info) (p : nat) : outcome (vector_info * world) :=
  let '(irq, t) := txn_alloc_irq (txn w) 8 in
  let irq := s32 irq in
  if irq <? 0 then Halt PANIC
  else
    let '(a, t) := txn_alloc_addr t irq in
    let data := u32 (txn_alloc_data irq) in
    let vi :=
      {| iosapic := iosapic vi; irte := Some p;
         eoi_addr := addr isi + IOSAPIC_REG_EOI;
         eoi_data := u32 (cpu_to_le32 data);
         txn_irq := irq; txn_addr := ulong a; txn_data := data;
         status := status vi; irqline := irqline vi |} in
    let w := store_vi w vip vi in
    mret (vi, {| irt := irt w; isis := isis w; txn := t;
                 claimed := (irq, vip) :: claimed w |}).

Definition iosapic_fixup_irq (w : world) (isi_obj : option nat)
    (pcidev : pci_dev) : outcome (Z * pci_dev * world) :=
  match isi_obj with
  | None => mret (-1, pcidev, w)
  | Some h =>
      let superio := CONFIG_SUPERIO && is_superio_device pcidev in
      let pcidev :=
        if superio then set_irq pcidev (u32 (superio_fixup_irq pcidev))
        else pcidev in
      if superio && negb (PCI_FUNC (devfn pcidev) =? SUPERIO_USB_FN)
      then mret (s32 (irq pcidev), pcidev, w)
      else
        isi ← deref_isi w h;
        (* lookup IRT entry for isi/slot/pin set *)
        match iosapic_xlate_pin (irt w) isi pcidev with
        | None => mret (-1, pcidev, w)
        | Some p =>
            irte_ ← deref_irte (irt w) (Some p);
            let isi_line := u8 (dest_iosapic_intin irte_) in
            (* get vector info for this input line *)
            let vip := (h, Z.to_nat isi_line) in
            vi ← deref_vi w vip;
            (* If this IRQ line has already been setup, skip it *)
            '(vi, w) ← match irte vi with
                        | Some _ => mret (vi, w)
                        | None => bind_vector w isi vip vi p
                        end;
            let pcidev := set_irq pcidev (u32 (txn_irq vi)) in
            mret (s32 (irq pcidev), pcidev, w)
        end
  end.

(** *** iosapic_register *)

(** The search loop: the offset at which it breaks, [None] when it runs
    to [cnt = irt_num_entry]. *)
Fixpoint iosapic_register_scan (irte : list irt_entry) (cnt : nat) (hpa : Z)
  : option nat :=
  match irte with
  | [] => None
  | e :: irte' =>
      (* WARN_ON(IRT_IOSAPIC_TYPE != irte->entry_type) only logs *)
      if COMPARE_IRTE_ADDR e hpa then Some cnt
      else iosapic_register_scan irte' (S cnt) hpa
  end.

(** A [vector_info] as [kcalloc] hands it out. *)
Definition zeroed_vector_info : vector_info :=
  {| iosapic := 0%nat; irte := None; eoi_addr := 0; eoi_data := 0;
     txn_irq := 0; txn_addr := 0; txn_data := 0; status := 0; irqline := 0 |}.

Definition init_vector (isi : nat) (cnt : nat) : vector_info :=
  {| iosapic := isi; irte := irte zeroed_vector_info;
     eoi_addr := 0; eoi_data := 0; txn_irq := 0; txn_addr := 0;
     txn_data := 0; status := 0; irqline := u8 (Z.of_nat cnt) |}.

(** [kzalloc_ok], [kcalloc_ok]: whether the two allocations succeed.  The
    new controller gets the next free handle. *)
Definition iosapic_register (w : world) (hpa : Z) (kzalloc_ok kcalloc_ok : bool)
  : mmio (option nat * world) :=
  match iosapic_register_scan (irt_table (irt w)) 0 hpa with
  | None => mret (None, w)
  | Some _ =>
      if negb kzalloc_ok then Stop BUG
      else
        let isi := length (isis w) in
        let addr_ := ioremap_nocache hpa 4096 in
        version ← iosapic_read addr_ IOSAPIC_REG_VERSION;
        let num_vectors := s32 (IOSAPIC_IRDT_MAX_ENTRY version + 1) in
        if negb kcalloc_ok then mret (None, w)
        else
          let vip := init_vector isi <$> seq 0 (Z.to_nat num_vectors) in
          mret (Some isi,
                set_isis w (isis w ++
                  [{| addr := addr_; isi_hpa := hpa; isi_vector := vip;
                      isi_num_vectors := num_vectors; isi_status := 0;
                      isi_version := version |}]))
  end.

(** *** The driver as a transition system

    The calls that change the world once the routing table is loaded:
    registration of a controller, binding of a device, retargeting of a
    line.  Mask, unmask and acknowledge only talk to the controller. *)

Inductive driver_step : world -> world -> Prop :=
| step_register dev log w hpa kzalloc_ok kcalloc_ok r w' log' :
    run dev (iosapic_register w hpa kzalloc_ok kcalloc_ok) log
    = (Returns (r, w'), log') ->
    driver_step w w'
| step_fixup_irq w isi_obj pcidev r pcidev' w' :
    iosapic_fixup_irq w isi_obj pcidev = Returns (r, pcidev', w') ->
    driver_step w w'
| step_set_affinity dev log w d dest r d' w' log' :
    run dev (iosapic_set_affinity_irq w d dest) log
    = (Returns (r, d', w'), log') ->
    driver_step w w'.

(** The routing entry and the input line a call of iosapic_fixup_irq for
    [pcidev] on controller [h] gets to: [None] when the call leaves through
    the SuperIO exit or finds no entry. *)
Definition resolves_to (w : world) (h : nat) (pcidev : pci_dev)
  : option (nat * nat) :=
  if CONFIG_SUPERIO && is_superio_device pcidev
     && negb (PCI_FUNC (devfn pcidev) =? SUPERIO_USB_FN)
  then None
  else
    isi ← isis w !! h;
    p ← iosapic_xlate_pin (irt w) isi pcidev;
    e ← irt_table (irt w) !! p;
    Some (p, Z.to_nat (u8 (dest_iosapic_intin e))).

(** *** Vocabulary of the statements about the lookup *)

(** Every write to the window register [win] is followed by a read of [win]
    before the next write of any kind is issued.  [pending]: a write to the
    window has not been flushed yet. *)
Fixpoint window_writes_flushed (win : Z) (pending : bool)
    (t : list mmio_event) : bool :=
  match t with
  | [] => negb pending
  | EvReadl a _ :: t' =>
      window_writes_flushed win (pending && negb (a =? win)) t'
  | EvWritel _ a :: t' | EvRawWritel _ a :: t' =>
      negb pending && window_writes_flushed win (a =? win) t'
  end.

(** No two writes to the window register [win] without a read of [win] in
    between. *)
Fixpoint window_writes_apart (win : Z) (pending : bool)
    (t : list mmio_event) : bool :=
  match t with
  | [] => true
  | EvReadl a _ :: t' =>
      window_writes_apart win (pending && negb (a =? win)) t'
  | EvWritel _ a :: t' | EvRawWritel _ a :: t' =>
      if a =? win then negb pending && window_writes_apart win true t'
      else window_writes_apart win pending t'
  end.

(** The bridges between a bus and the root bus, nearest first; the last one
    sits on the root bus, in a slot of the controller. *)
Fixpoint bridge_chain (b : pci_bus) : list Z :=
  match b with
  | RootBus => []
  | ChildBus self parent => self :: bridge_chain parent
  end.

(** The three tags of an entry equal the expected constants. *)
Definition irte_tags_ok (e : irt_entry) : bool :=
  (entry_type e =? IRT_IOSAPIC_TYPE)
  && (entry_length e =? IRT_IOSAPIC_LENGTH)
  && (interrupt_type e =? IRT_VECTORED_INTR).

(** An entry answers the lookup for controller [hpa], [slot] and [pin]. *)
Definition irte_matches (hpa slot pin : Z) (e : irt_entry) : bool :=
  irte_tags_ok e
  && COMPARE_IRTE_ADDR e hpa
  && (Z.land (src_bus_irq_devno e) IRT_IRQ_DEVNO_MASK =? irq_devno slot pin).
End Driver.

(** ** A platform to run the model on

    The constants have the values of the IA64 SAL 2.4 routing-table format
    the source refers to (entry type 139, 16-byte entries, vectored
    interrupts 0), PCI's devfn split, and a processor-interrupt allocator
    that hands out consecutive numbers. *)

Module Platform.
Definition cfg64 : kconfig :=
  {| CONFIG_64BIT := true; CONFIG_SUPERIO := false |}.
Definition cfg32 : kconfig :=
  {| CONFIG_64BIT := false; CONFIG_SUPERIO := false |}.

Definition hdr : iosapic_private :=
  {| IRT_IOSAPIC_TYPE := 139; IRT_IOSAPIC_LENGTH := 16;
     IRT_VECTORED_INTR := 0;
     IRT_PO_MASK := 0x3; IRT_ACTIVE_LO := 3;
     IRT_EL_MASK := 0x3; IRT_EL_SHIFT := 2; IRT_LEVEL_TRIG := 3;
     IRT_DEV_SHIFT := 2; IRT_IRQ_DEVNO_MASK := 0x7f;
     PDC_OK := 0;
     PCI_SLOT := fun devfn => Z.land (Z.shiftr devfn 3) 0x1f;
     PCI_FUNC := fun devfn => Z.land devfn 0x07;
     SUPERIO_USB_FN := 2 |}.

Definition krn : kernel :=
  {| txn_state := Z;
     txn_alloc_irq := fun next _ => (next, next + 1);
     txn_alloc_addr := fun t _ => (0xfffa0000, t);
     txn_alloc_data := fun virt_irq => virt_irq - 64;
     txn_affinity_addr := fun _ cpu => 0xfffa0000 + cpu * 0x2000;
     cpu_check_affinity := fun _ dest => dest;
     cpumask_of := fun cpu => Z.shiftl 1 cpu;
     cpu_to_le32 := fun x => x;
     ioremap_nocache := fun hpa _ => hpa;
     kmalloc := fun _ => 0x10000 |}.

(** An entry for controller [hpa], PCI slot [slot], pin INT A..D given as
    [pin] in 1..4, wired to input line [line]; active low, level. *)
Definition entry (hpa slot pin line : Z) : irt_entry :=
  {| entry_type := 139; entry_length := 16; interrupt_type := 0;
     polarity_trigger := 0xf;
     src_bus_irq_devno := Z.lor (Z.shiftl slot 2) (pin - 1);
     src_bus_id := 0; src_seg_id := 0;
     dest_iosapic_intin := line; dest_iosapic_addr := hpa |}.

Definition table (l : list irt_entry) : irt_globals :=
  {| irt_cell := 0x10000; irt_num_entry := Z.of_nat (length l); irt_mem := l |}.

Definition no_table : irt_globals :=
  {| irt_cell := 0; irt_num_entry := 0; irt_mem := [] |}.

Definition controller (hpa : Z) (v : list vector_info) : iosapic_info :=
  {| addr := hpa; isi_hpa := hpa; isi_vector := v;
     isi_num_vectors := Z.of_nat (length v); isi_status := 0;
     isi_version := 0 |}.

(** Firmware of either kind whose size query answers [size_status] and [n],
    and whose table query answers [fill_status] and leaves [mem] in the
    table. *)
Definition firmware (pat : bool) (size_status n fill_status : Z)
    (mem : list irt_entry) : pdc :=
  {| is_pdc_pat := pat;
     pdc_pat_cell_get_number := (0, 0);
     pdc_pat_get_irt_size := fun _ => (size_status, n);
     pdc_pat_get_irt := fun _ _ => (fill_status, mem);
     pdc_pci_irt_size := fun _ => (size_status, n);
     pdc_pci_irt := fun _ _ _ => (fill_status, mem) |}.

(** What [kmalloc] left in a table the firmware did not fill. *)
Definition stale : irt_entry :=
  {| entry_type := 0x5a; entry_length := 0x5a; interrupt_type := 0x5a;
     polarity_trigger := 0x5a; src_bus_irq_devno := 0x5a; src_bus_id := 0x5a;
     src_seg_id := 0x5a; dest_iosapic_intin := 0x5a;
     dest_iosapic_addr := 0x5a5a5a5a5a5a5a5a |}.

Definition world0 (g : irt_globals) (l : list iosapic_info) : @world krn :=
  @Build_world krn g l 64 [].

Definition legacy : pdc := firmware false 0 1 0 [].
Definition pat : pdc := firmware true 0 1 0 [].

(** Line 0 of the controller at 0x1000, bound to the first routing entry
    and to processor interrupt 65. *)
Definition bound_vi : vector_info :=
  {| iosapic := 0; irte := Some 0%nat; eoi_addr := 0x1040; eoi_data := 1;
     txn_irq := 65; txn_addr := 0xfffa0000; txn_data := 1; status := 0;
     irqline := 0 |}.

Definition world1 : @world krn :=
  world0 (table [entry 0x1000 3 2 0]) [controller 0x1000 [bound_vi]].

Definition irq65 : irq_data :=
  {| d_irq := 65; affinity := 1; chip_data := (0%nat, 0%nat) |}.

(** A device in slot 3 of the root bus that raises INT B, and a device
    behind a bridge in that slot, device 1 of the secondary bus raising
    INT A: both come out as slot 3, INT B. *)
Definition dev_a : pci_dev :=
  {| devfn := 0x18; bus := RootBus; cfg_interrupt_pin := 2; irq := 0;
     is_superio_device := false; superio_irq := 0 |}.
Definition dev_b : pci_dev :=
  {| devfn := 0x08; bus := ChildBus 0x18 RootBus; cfg_interrupt_pin := 1;
     irq := 0; is_superio_device := false; superio_irq := 0 |}.

(** One controller with one free line, and the same once [dev_a] is bound. *)
Definition world_free : @world krn :=
  world0 (table [entry 0x1000 3 2 0])
    [controller 0x1000 [init_vector 0 0]].

Definition world_bound : @world krn :=
  @Build_world krn (table [entry 0x1000 3 2 0])
    [controller 0x1000
       [{| iosapic := 0; irte := Some 0%nat; eoi_addr := 0x1040;
           eoi_data := 0; txn_irq := 64; txn_addr := 0xfffa0000;
           txn_data := 0; status := 0; irqline := 0 |}]]
    65 [(64, (0%nat, 0%nat))].

(** A controller that keeps what is written to the selected register. *)
Fixpoint regs (base : Z) (log : list mmio_event) (sel : Z) (r : Z -> Z)
  : Z * (Z -> Z) :=
  match log with
  | [] => (sel, r)
  | EvWritel v a :: log' =>
      if a =? base + 0x00 then regs base log' v r
      else if a =? base + 0x10
           then regs base log' sel (fun i => if i =? sel then v else r i)
           else regs base log' sel r
  | _ :: log' => regs base log' sel r
  end.

Definition regfile (base : Z) (init : Z -> Z) : device :=
  fun log a =>
    let '(sel, r) := regs base log 0 init in
    if a =? base + 0x10 then r sel else 0.
End Platform.

(** ** What the driver keeps true of its state

    The shape every world has that the driver built from an empty registry:
    used to state what the irq_chip operations can rely on. *)

Section Invariant.
Context `{kconfig} `{iosapic_private} `{pdc} `{kernel}.

(** Line [l] of controller [h]: it points back to its controller, carries
    its own index and, once bound, holds a routing entry of the table that
    names this controller and this line, a processor interrupt that is a
    non-negative [int] claimed for the line, and the controller's EOI
    register. *)
Definition vector_ok (w : world) (h : nat) (isi : iosapic_info) (l : nat)
    (vi : vector_info) : Prop :=
  iosapic vi = h /\ irqline vi = Z.of_nat l
  /\ match irte vi with
     | None => True
     | Some p =>
         exists e, irt_table (irt w) !! p = Some e
           /\ Z.to_nat (u8 (dest_iosapic_intin e)) = l
           /\ irte_tags_ok e = true
           /\ COMPARE_IRTE_ADDR e (isi_hpa isi) = true
           /\ 0 <= txn_irq vi < 2 ^ 31
           /\ eoi_addr vi = addr isi + IOSAPIC_REG_EOI
           /\ (txn_irq vi, (h, l)) ∈ claimed w
     end.

Definition controller_ok (w : world) (h : nat) (isi : iosapic_info) : Prop :=
  1 <= isi_num_vectors isi <= 256
  /\ length (isi_vector isi) = Z.to_nat (isi_num_vectors isi)
  /\ forall l vi, isi_vector isi !! l = Some vi -> vector_ok w h isi l vi.

Definition world_ok (w : world) : Prop :=
  (forall h isi, isis w !! h = Some isi -> controller_ok w h isi)
  /\ (forall q vip, (q, vip) ∈ claimed w ->
        exists vi, deref_vi w vip = Returns vi /\ is_Some (irte vi)
                   /\ txn_irq vi = q)
  /\ NoDup (claimed w).*2.

(** The world before any controller is registered. *)
Definition booted (w : world) : Prop := isis w = [] /\ claimed w = [].

(** The routing table names only lines the controllers have: every entry
    with valid tags that names a registered controller has its
    [dest_iosapic_intin] below the controller's [isi_num_vectors].  The
    driver never checks this; it is a property of the firmware's table and
    of the hardware. *)
Definition lines_in_range (w : world) : Prop :=
  forall h isi e,
    isis w !! h = Some isi -> e ∈ irt_table (irt w) ->
    irte_tags_ok e = true -> COMPARE_IRTE_ADDR e (isi_hpa isi) = true ->
    u8 (dest_iosapic_intin e) < isi_num_vectors isi.

(** What no driver operation takes back: the routing table, the registered
    controllers with their addresses, version and number of lines, and the
    processor interrupts already claimed. *)
Definition same_controller (isi isi' : iosapic_info) : Prop :=
  isi_hpa isi' = isi_hpa isi /\ addr isi' = addr isi
  /\ isi_version isi' = isi_version isi
  /\ isi_num_vectors isi' = isi_num_vectors isi
  /\ length (isi_vector isi') = length (isi_vector isi).

Definition grows_to (w w' : world) : Prop :=
  irt w' = irt w
  /\ (exists more, claimed w' = more ++ claimed w)
  /\ forall h isi, isis w !! h = Some isi ->
       exists isi', isis w' !! h = Some isi' /\ same_controller isi isi'.
End Invariant.

(** ** More of the example platform *)

Module Scenario.
(** A kernel out of memory, and one whose kmalloc hands out an address that
    is not a multiple of 8. *)
Definition krn_oom : kernel :=
  {| txn_state := Z;
     txn_alloc_irq := fun next _ => (next, next + 1);
     txn_alloc_addr := fun t _ => (0xfffa0000, t);
     txn_alloc_data := fun virt_irq => virt_irq - 64;
     txn_affinity_addr := fun _ cpu => 0xfffa0000 + cpu * 0x2000;
     cpu_check_affinity := fun _ dest => dest;
     cpumask_of := fun cpu => Z.shiftl 1 cpu;
     cpu_to_le32 := fun x => x;
     ioremap_nocache := fun hpa _ => hpa;
     kmalloc := fun _ => 0 |}.

Definition krn_odd : kernel :=
  {| txn_state := Z;
     txn_alloc_irq := fun next _ => (next, next + 1);
     txn_alloc_addr := fun t _ => (0xfffa0000, t);
     txn_alloc_data := fun virt_irq => virt_irq - 64;
     txn_affinity_addr := fun _ cpu => 0xfffa0000 + cpu * 0x2000;
     cpu_check_affinity := fun _ dest => dest;
     cpumask_of := fun cpu => Z.shiftl 1 cpu;
     cpu_to_le32 := fun x => x;
     ioremap_nocache := fun hpa _ => hpa;
     kmalloc := fun _ => 0x10003 |}.

Definition cfg_superio : kconfig :=
  {| CONFIG_64BIT := true; CONFIG_SUPERIO := true |}.

(** Function 1 of the SuperIO chip in slot 14, on SuperIO interrupt 3. *)
Definition dev_serial : pci_dev :=
  {| devfn := 0x71; bus := RootBus; cfg_interrupt_pin := 0; irq := 0;
     is_superio_device := true; superio_irq := 3 |}.

(** The driver after iosapic_init and before any controller registers. *)
Definition boot : @world Platform.krn :=
  Platform.world0 (Platform.table [Platform.entry 0x1000 3 2 0]) [].

(** The controller at 0x1000: every register reads 0 until written. *)
Definition chip : device := Platform.regfile 0x1000 (fun _ => 0).

(** Line 0 of that controller as [Platform.world_bound] has it, and the
    interrupt it is bound to. *)
Definition bound64 : vector_info :=
  {| iosapic := 0; irte := Some 0%nat; eoi_addr := 0x1040;
     eoi_data := 0; txn_irq := 64; txn_addr := 0xfffa0000;
     txn_data := 0; status := 0; irqline := 0 |}.

Definition irq64 : irq_data :=
  {| d_irq := 64; affinity := 1; chip_data := (0%nat, 0%nat) |}.
End Scenario.
(** ** Routing-table lookup *)

Section Lookup.
Context `{kconfig} `{iosapic_private}.

Lemma irt_find_irqline_from_step e i cnt hpa slot pin :
  irt_find_irqline_from (e :: i) cnt hpa (irq_devno slot pin) =
  if irte_matches hpa slot pin e then Some cnt
  else irt_find_irqline_from i (S cnt) hpa (irq_devno slot pin).
Proof.
  unfold irte_matches, irte_tags_ok; simpl.
  destruct (entry_type e =? _), (entry_length e =? _),
    (interrupt_type e =? _), (COMPARE_IRTE_ADDR e hpa),
    (Z.land _ _ =? _); reflexivity.
Qed.

Lemma irt_find_irqline_from_Some i : forall cnt hpa slot pin n,
  irt_find_irqline_from i cnt hpa (irq_devno slot pin) = Some n <->
  exists k e, n = (cnt + k)%nat /\ i !! k = Some e
    /\ irte_matches hpa slot pin e = true
    /\ forall j e', (j < k)%nat -> i !! j = Some e' ->
         irte_matches hpa slot pin e' = false.
Proof.
  induction i as [|e i IH]; intros cnt hpa slot pin n.
  - simpl. split; [discriminate|]. intros (k & e & _ & Hk & _). discriminate.
  - rewrite irt_find_irqline_from_step.
    destruct (irte_matches hpa slot pin e) eqn:He.
    + split.
      * intros [= <-]. exists 0%nat, e. repeat split; auto with lia.
      * intros (k & e' & -> & Hk & Hm & Hfirst).
        destruct k as [|k]; [f_equal; lia|].
        rewrite (Hfirst 0%nat e) in He; [discriminate|lia|reflexivity].
    + rewrite IH. split.
      * intros (k & e' & -> & Hk & Hm & Hfirst).
        exists (S k), e'. repeat split; auto with lia.
        intros [|j] e'' Hj Hl; simpl in Hl.
        -- congruence.
        -- apply (Hfirst j); [lia|done].
      * intros (k & e' & -> & Hk & Hm & Hfirst).
        destruct k as [|k]; simpl in Hk; [congruence|].
        exists k, e'. repeat split; auto with lia.
        intros j e'' Hj Hl. apply (Hfirst (S j)); [lia|done].
Qed.

Lemma irt_find_irqline_from_None i : forall cnt hpa slot pin,
  irt_find_irqline_from i cnt hpa (irq_devno slot pin) = None <->
  forall e, e ∈ i -> irte_matches hpa slot pin e = false.
Proof.
  induction i as [|e i IH]; intros cnt hpa slot pin.
  - simpl. split; [|done]. intros _ e He. by apply elem_of_nil in He.
  - rewrite irt_find_irqline_from_step.
    destruct (irte_matches hpa slot pin e) eqn:He.
    + split; [discriminate|]. intros Hall.
      rewrite Hall in He; [discriminate|apply list_elem_of_here].
    + rewrite IH. split.
      * intros Hall e' [->|Hin]%elem_of_cons; auto.
      * intros Hall e' Hin. apply Hall. by apply list_elem_of_further.
Qed.
End Lookup.

Section LookupMain.
Context `{kconfig} `{iosapic_private}.

Lemma irte_matches_true hpa slot pin e :
  irte_matches hpa slot pin e = true <->
  entry_type e = IRT_IOSAPIC_TYPE /\ entry_length e = IRT_IOSAPIC_LENGTH
  /\ interrupt_type e = IRT_VECTORED_INTR
  /\ COMPARE_IRTE_ADDR e hpa = true
  /\ Z.land (src_bus_irq_devno e) IRT_IRQ_DEVNO_MASK = irq_devno slot pin.
Proof.
  unfold irte_matches, irte_tags_ok.
  rewrite !andb_true_iff, !Z.eqb_eq. tauto.
Qed.

Lemma irte_matches_tags hpa slot pin e :
  irte_tags_ok e = false -> irte_matches hpa slot pin e = false.
Proof. unfold irte_matches. by intros ->. Qed.

Lemma irq_devno_fits slot pin :
  0 <= slot -> 1 <= pin ->
  Z.lor (Z.shiftl slot IRT_DEV_SHIFT) (pin - 1) < 2 ^ 8 ->
  irq_devno slot pin = Z.lor (Z.shiftl slot IRT_DEV_SHIFT) (pin - 1).
Proof.
  intros Hs Hp Hlt. unfold irq_devno, u8. apply Z.mod_small. split; [|done].
  apply Z.lor_nonneg. split; [|lia]. by apply Z.shiftl_nonneg.
Qed.

(** C2: for every loaded table and every lookup with pin >= 1,
    irt_find_irqline returns the first entry, in table order, whose three
    tags equal the expected constants, whose destination address equals
    the controller's under COMPARE_IRTE_ADDR and whose masked
    src_bus_irq_devno equals (slot << IRT_DEV_SHIFT) | (pin - 1) (the u8
    the code keeps it in, which is that value itself whenever it is below
    256); it returns NULL exactly when no entry of the table is such an
    entry; an entry that fails a tag check is never returned. *)
Theorem irt_find_irqline_first_match (g : irt_globals) (isi : iosapic_info)
    (slot pin : Z) :
  0 <= slot -> 1 <= pin ->
  let found := irt_find_irqline g isi slot pin in
  let ok := irte_matches (isi_hpa isi) slot pin in
  (forall n, found = Some n <->
     (exists e, irt_table g !! n = Some e /\ ok e = true)
     /\ forall j e', (j < n)%nat -> irt_table g !! j = Some e' -> ok e' = false)
  /\ (found = None <-> forall e, e ∈ irt_table g -> ok e = false)
  /\ (forall n e, irt_table g !! n = Some e -> irte_tags_ok e = false ->
        found <> Some n)
  /\ (forall e, ok e = true <->
        entry_type e = IRT_IOSAPIC_TYPE /\ entry_length e = IRT_IOSAPIC_LENGTH
        /\ interrupt_type e = IRT_VECTORED_INTR
        /\ COMPARE_IRTE_ADDR e (isi_hpa isi) = true
        /\ Z.land (src_bus_irq_devno e) IRT_IRQ_DEVNO_MASK = irq_devno slot pin)
  /\ (Z.lor (Z.shiftl slot IRT_DEV_SHIFT) (pin - 1) < 2 ^ 8 ->
        irq_devno slot pin = Z.lor (Z.shiftl slot IRT_DEV_SHIFT) (pin - 1)).
Proof.
  intros Hslot Hpin found ok.
  assert (Hsome : forall n, found = Some n <->
     (exists e, irt_table g !! n = Some e /\ ok e = true)
     /\ forall j e', (j < n)%nat -> irt_table g !! j = Some e' -> ok e' = false).
  { intros n. unfold found, irt_find_irqline.
    rewrite irt_find_irqline_from_Some. split.
    - intros (k & e & -> & Hk & Hm & Hfirst). eauto.
    - intros [(e & Hn & Hm) Hfirst]. exists n, e. eauto. }
  split; [exact Hsome|]. split; [|split; [|split]].
  - unfold found, irt_find_irqline. apply irt_find_irqline_from_None.
  - intros n e Hn Htag Hfound. apply Hsome in Hfound as [(e' & Hn' & Hm) _].
    assert (e' = e) as -> by congruence.
    unfold ok in Hm. rewrite irte_matches_tags in Hm; done.
  - intros e. apply irte_matches_true.
  - by apply irq_devno_fits.
Qed.
End LookupMain.

(** The scenario of the specification: one entry for controller 0x1000,
    slot 3, pin 2. *)
Lemma irt_find_irqline_first_match_witness :
  0 <= 3 /\ 1 <= 2 /\
  @irt_find_irqline Platform.cfg64 Platform.hdr
    (Platform.table [Platform.entry 0x1000 3 2 5])
    (Platform.controller 0x1000 []) 3 2 = Some 0%nat.
Proof.
  split; [lia|]. split; [lia|].
  apply (proj1 (@irt_find_irqline_first_match Platform.cfg64 Platform.hdr
                  (Platform.table [Platform.entry 0x1000 3 2 5])
                  (Platform.controller 0x1000 []) 3 2
                  ltac:(lia) ltac:(lia))).
  split.
  - exists (Platform.entry 0x1000 3 2 5). split; reflexivity.
  - intros j e' Hj. lia.
Defined.

Example irt_find_irqline_other_pin :
  @irt_find_irqline Platform.cfg64 Platform.hdr
    (Platform.table [Platform.entry 0x1000 3 2 5])
    (Platform.controller 0x1000 []) 3 1 = None.
Proof. reflexivity. Qed.

(** ** Running register routines *)

Lemma run_bind {A B} dev (m : mmio A) (f : A -> mmio B) log :
  run dev (m ≫= f) log =
  match run dev m log with
  | (Returns a, log') => run dev (f a) log'
  | (Halt r, log') => (Halt r, log')
  end.
Proof.
  revert log. induction m as [a|r|v a k IH|a k IH|v a k IH]; intros log; simpl; auto.
Qed.

Lemma trace_run {A} dev (m : mmio A) log :
  (run dev m log).2 = log ++ trace dev m log.
Proof.
  revert log. induction m as [a|r|v a k IH|a k IH|v a k IH]; intros log; simpl;
    rewrite ?app_nil_r, ?IH, <-?app_assoc; auto.
Qed.

(** ** Register traffic of the redirection-entry routines *)

Section Traffic.
Context `{kconfig} `{iosapic_private} `{pdc} `{kernel}.

Lemma run_lift {A} dev (o : outcome A) log : run dev (lift o) log = (o, log).
Proof. by destruct o. Qed.

Lemma run_iosapic_read dev a reg log :
  run dev (iosapic_read a reg) log =
  let sel := EvWritel (u32 reg) (a + IOSAPIC_REG_SELECT) in
  let r := u32 (dev (log ++ [sel]) (a + IOSAPIC_REG_WINDOW)) in
  (Returns r, log ++ [sel; EvReadl (a + IOSAPIC_REG_WINDOW) r]).
Proof. simpl. by rewrite <-app_assoc. Qed.

Lemma run_iosapic_write dev a reg val log :
  run dev (iosapic_write a reg val) log =
  (Returns tt, log ++ [EvWritel (u32 reg) (a + IOSAPIC_REG_SELECT);
                       EvWritel val (a + IOSAPIC_REG_WINDOW)]).
Proof. simpl. by rewrite <-app_assoc. Qed.

Lemma run_iosapic_wr_irt_entry dev log w vi isp dp0 dp1 :
  deref_isi w (iosapic vi) = Returns isp ->
  exists r0 r1,
    run dev (iosapic_wr_irt_entry w vi dp0 dp1) log =
    (Returns tt,
     log ++ [EvWritel (u32 (IOSAPIC_IRDT_ENTRY (irqline vi)))
                      (addr isp + IOSAPIC_REG_SELECT);
             EvWritel dp0 (addr isp + IOSAPIC_REG_WINDOW);
             EvReadl (addr isp + IOSAPIC_REG_WINDOW) r0;
             EvWritel (u32 (IOSAPIC_IRDT_ENTRY_HI (irqline vi)))
                      (addr isp + IOSAPIC_REG_SELECT);
             EvWritel dp1 (addr isp + IOSAPIC_REG_WINDOW);
             EvReadl (addr isp + IOSAPIC_REG_WINDOW) r1]).
Proof.
  intros Hisp. unfold iosapic_wr_irt_entry.
  rewrite run_bind, Hisp, run_lift. simpl.
  eexists _, _. rewrite <-!app_assoc. simpl. reflexivity.
Qed.

Lemma run_iosapic_rd_irt_entry dev log w vi isp :
  deref_isi w (iosapic vi) = Returns isp ->
  exists d0 d1,
    run dev (iosapic_rd_irt_entry w vi) log =
    (Returns (d0, d1),
     log ++ [EvWritel (u32 (IOSAPIC_IRDT_ENTRY (irqline vi)))
                      (addr isp + IOSAPIC_REG_SELECT);
             EvReadl (addr isp + IOSAPIC_REG_WINDOW) d0;
             EvWritel (u32 (IOSAPIC_IRDT_ENTRY_HI (irqline vi)))
                      (addr isp + IOSAPIC_REG_SELECT);
             EvReadl (addr isp + IOSAPIC_REG_WINDOW) d1]).
Proof.
  intros Hisp. unfold iosapic_rd_irt_entry.
  rewrite run_bind, Hisp, run_lift. simpl.
  eexists _, _. rewrite <-!app_assoc. simpl. reflexivity.
Qed.
End Traffic.

(** ** Controller registration *)

Section Register.
Context `{kconfig} `{iosapic_private} `{pdc} `{kernel}.

Lemma iosapic_register_scan_None t : forall cnt hpa,
  iosapic_register_scan t cnt hpa = None <->
  forall e, e ∈ t -> COMPARE_IRTE_ADDR e hpa = false.
Proof.
  induction t as [|e t IH]; intros cnt hpa; simpl.
  - split; [|done]. intros _ e He. by apply elem_of_nil in He.
  - destruct (COMPARE_IRTE_ADDR e hpa) eqn:He.
    + split; [discriminate|]. intros Hall.
      rewrite Hall in He; [discriminate|apply list_elem_of_here].
    + rewrite IH. split.
      * intros Hall e' [->|Hin]%elem_of_cons; auto.
      * intros Hall e' Hin. apply Hall. by apply list_elem_of_further.
Qed.

Lemma irt_table_empty g : irt_num_entry g = 0 -> irt_table g = [].
Proof. unfold irt_table. intros ->. by destruct (irt_cell g =? 0). Qed.

Lemma init_vectors_lookup isi n l vi :
  (init_vector isi <$> seq 0 n) !! l = Some vi ->
  irqline vi = u8 (Z.of_nat l) /\ iosapic vi = isi /\ irte vi = None.
Proof.
  rewrite list_lookup_fmap. intros Hl.
  destruct (seq 0 n !! l) as [k|] eqn:Hk; simpl in Hl; [|discriminate].
  apply lookup_seq in Hk as [-> _]. injection Hl as <-. done.
Qed.

(** C1 (amended): iosapic_register(hpa) returns NULL, without touching the
    controller, whenever no entry of the loaded routing table has hpa as its
    destination address, and so for every hpa when the table is empty; when
    some entry has, and both allocations succeed, it returns a new
    controller with isi_hpa = hpa, max-entry + 1 lines and every line
    initialised to its index, its owner and no routing entry.  A NULL
    return means that no entry matched or that the vector array could not
    be allocated. *)
Theorem iosapic_register_needs_irt_entry (dev : device) (log : list mmio_event)
    (w : world) (hpa : Z) (kzalloc_ok kcalloc_ok : bool) :
  let t := irt_table (irt w) in
  let r := run dev (iosapic_register w hpa kzalloc_ok kcalloc_ok) log in
  ((forall e, e ∈ t -> COMPARE_IRTE_ADDR e hpa = false) ->
     r = (Returns (None, w), log))
  /\ (irt_num_entry (irt w) = 0 -> r = (Returns (None, w), log))
  /\ ((exists e, e ∈ t /\ COMPARE_IRTE_ADDR e hpa = true) ->
      kzalloc_ok = true -> kcalloc_ok = true ->
      exists isi log',
        r = (Returns (Some (length (isis w)), set_isis w (isis w ++ [isi])), log')
        /\ isi_hpa isi = hpa
        /\ isi_num_vectors isi = s32 (IOSAPIC_IRDT_MAX_ENTRY (isi_version isi) + 1)
        /\ length (isi_vector isi) = Z.to_nat (isi_num_vectors isi)
        /\ forall l vi, isi_vector isi !! l = Some vi ->
             irqline vi = u8 (Z.of_nat l) /\ iosapic vi = length (isis w)
             /\ irte vi = None)
  /\ (forall w' log', r = (Returns (None, w'), log') ->
        (forall e, e ∈ t -> COMPARE_IRTE_ADDR e hpa = false) \/ kcalloc_ok = false).
Proof.
  intros t r.
  assert (Hnone : (forall e, e ∈ t -> COMPARE_IRTE_ADDR e hpa = false) ->
                  r = (Returns (None, w), log)).
  { intros Hall. unfold r, iosapic_register.
    apply (iosapic_register_scan_None t 0%nat) in Hall. fold t. by rewrite Hall. }
  split; [exact Hnone|]. split; [|split].
  - intros Hz. apply Hnone. unfold t. rewrite (irt_table_empty _ Hz).
    intros e He. by apply elem_of_nil in He.
  - intros (e & Hin & He) -> ->. unfold r, iosapic_register. fold t.
    destruct (iosapic_register_scan t 0 hpa) as [cnt|] eqn:Hscan.
    2:{ rewrite iosapic_register_scan_None in Hscan.
        rewrite (Hscan e Hin) in He. discriminate. }
    change (negb true) with false. cbv iota.
    rewrite run_bind, run_iosapic_read. cbv zeta. cbv iota.
    eexists _, _. split; [reflexivity|].
    cbn [isi_hpa isi_num_vectors isi_vector isi_version].
    split; [done|]. split; [done|]. split.
    + by rewrite length_fmap, length_seq.
    + intros l vi. apply init_vectors_lookup.
  - intros w' log' Hr.
    destruct (iosapic_register_scan t 0 hpa) as [cnt|] eqn:Hscan.
    2:{ left. by apply (iosapic_register_scan_None t 0%nat). }
    right. unfold r, iosapic_register in Hr. fold t in Hr. rewrite Hscan in Hr.
    destruct kzalloc_ok; [|discriminate].
    change (negb true) with false in Hr. cbv iota in Hr.
    rewrite run_bind, run_iosapic_read in Hr. cbv zeta iota in Hr.
    destruct kcalloc_ok; [discriminate|done].
Qed.
End Register.

(** C1, as stated, fails: with no routing table loaded, registration of a
    controller returns NULL, and does so before any allocation or register
    access. *)
Lemma iosapic_register_empty_table_fails :
  irt_num_entry (irt (Platform.world0 Platform.no_table [])) = 0
  /\ run (Platform.regfile 0x1000 (fun _ => 0))
       (@iosapic_register Platform.cfg64 Platform.krn
          (Platform.world0 Platform.no_table []) 0x1000 true true) []
     = (Returns (None, Platform.world0 Platform.no_table []), []).
Proof. split; reflexivity. Qed.

(** ** Loading the routing table *)

Section Load.
Context `{kconfig} `{iosapic_private} `{pdc} `{kernel}.

Lemma iosapic_init_of_load g :
  iosapic_init g =
  '(n, table, mem) ← iosapic_load_irt g
     (if CONFIG_64BIT && is_pdc_pat
      then if s32 pdc_pat_cell_get_number.1 =? PDC_OK
           then pdc_pat_cell_get_number.2 else 0
      else 0);
  mret (if ulong n =? 0
        then {| irt_cell := 0; irt_num_entry := ulong n; irt_mem := mem |}
        else {| irt_cell := table; irt_num_entry := ulong n; irt_mem := mem |}).
Proof.
  unfold iosapic_init. destruct pdc_pat_cell_get_number as [status cell_num].
  reflexivity.
Qed.

Lemma iosapic_init_returns_0 g table mem :
  (forall cell, iosapic_load_irt g cell = Returns (0, table, mem)) ->
  iosapic_init g = Returns {| irt_cell := 0; irt_num_entry := 0; irt_mem := mem |}.
Proof.
  intros Hload. rewrite iosapic_init_of_load, Hload. simpl.
  unfold ulong. rewrite Z.mod_0_l; [done|].
  unfold BITS_PER_LONG. destruct CONFIG_64BIT; lia.
Qed.

Lemma iosapic_init_halts g r :
  (forall cell, iosapic_load_irt g cell = Halt r) -> iosapic_init g = Halt r.
Proof. intros Hload. by rewrite iosapic_init_of_load, Hload. Qed.

Lemma iosapic_load_irt_table g cell n table mem :
  iosapic_load_irt g cell = Returns (n, table, mem) -> n = 0 \/ table <> 0.
Proof.
  unfold iosapic_load_irt. destruct is_pdc_pat.
  - destruct (pdc_pat_get_irt_size cell) as [status num].
    destruct (negb (status =? PDC_OK)); [discriminate|].
    destruct (num =? 0); [discriminate|].
    destruct (iosapic_alloc_irt (s32 num) =? 0) eqn:Ha.
    + intros [= <- _ _]. by left.
    + destruct (pdc_pat_get_irt _ cell). intros [= _ <- _]. right.
      by apply Z.eqb_neq.
  - destruct (negb (irt_cell g =? 0)); [intros [= <- _ _]; by left|].
    destruct (pdc_pci_irt_size 0) as [status num].
    destruct (negb (status =? PDC_OK)); [intros [= <- _ _]; by left|].
    destruct (num =? 0); [discriminate|].
    destruct (iosapic_alloc_irt (s32 num) =? 0) eqn:Ha.
    + intros [= <- _ _]. by left.
    + destruct (pdc_pci_irt num 0 _) as [status' mem'].
      destruct (negb (status' =? PDC_OK)); [discriminate|].
      intros [= _ <- _]. right. by apply Z.eqb_neq.
Qed.

(** After iosapic_init a NULL [irt_cell] goes with a zero count, and a
    zero count with a NULL [irt_cell]. *)
Lemma iosapic_init_consistent g g' :
  iosapic_init g = Returns g' -> irt_cell g' = 0 <-> irt_num_entry g' = 0.
Proof.
  rewrite iosapic_init_of_load.
  destruct (iosapic_load_irt g _) as [[[n table] mem]|] eqn:Hload; [|discriminate].
  cbn [mbind outcome_mbind mret outcome_mret].
  destruct (ulong n =? 0) eqn:Hn; intros [= <-]; cbn [irt_cell irt_num_entry].
  - apply Z.eqb_eq in Hn. done.
  - apply Z.eqb_neq in Hn. apply iosapic_load_irt_table in Hload as [->|Hne].
    + unfold ulong in Hn. rewrite Z.mod_0_l in Hn; [done|].
      unfold BITS_PER_LONG. destruct CONFIG_64BIT; lia.
    + done.
Qed.

(** C3 (amended): iosapic_load_irt returns 0, and iosapic_init leaves
    irt_cell NULL with irt_num_entry 0, when the firmware is of the legacy
    kind and its size query reports a status other than PDC_OK.  Under PAT
    firmware a size query that does not report PDC_OK trips BUG_ON, and so
    does, under either firmware, a size query that reports PDC_OK and zero
    entries: the startup path halts. *)
Theorem iosapic_load_irt_soft_failure (g : irt_globals) (cell : Z) :
  (is_pdc_pat = false -> (pdc_pci_irt_size 0).1 <> PDC_OK ->
     iosapic_load_irt g cell = Returns (0, irt_cell g, irt_mem g)
     /\ iosapic_init g =
        Returns {| irt_cell := 0; irt_num_entry := 0; irt_mem := irt_mem g |})
  /\ (is_pdc_pat = true -> (pdc_pat_get_irt_size cell).1 <> PDC_OK ->
        iosapic_load_irt g cell = Halt BUG)
  /\ (is_pdc_pat = true -> (forall c, (pdc_pat_get_irt_size c).1 <> PDC_OK) ->
        iosapic_init g = Halt BUG)
  /\ (is_pdc_pat = true -> (forall c, pdc_pat_get_irt_size c = (PDC_OK, 0)) ->
        iosapic_load_irt g cell = Halt BUG /\ iosapic_init g = Halt BUG)
  /\ (is_pdc_pat = false -> irt_cell g = 0 -> pdc_pci_irt_size 0 = (PDC_OK, 0) ->
        iosapic_load_irt g cell = Halt BUG /\ iosapic_init g = Halt BUG).
Proof.
  assert (Hpat : forall c, is_pdc_pat = true ->
            (pdc_pat_get_irt_size c).1 <> PDC_OK ->
            iosapic_load_irt g c = Halt BUG).
  { intros c Hp Hs. unfold iosapic_load_irt. rewrite Hp.
    destruct (pdc_pat_get_irt_size c) as [status n]; simpl in *.
    apply Z.eqb_neq in Hs. by rewrite Hs. }
  assert (Hpat0 : forall c, is_pdc_pat = true ->
            pdc_pat_get_irt_size c = (PDC_OK, 0) ->
            iosapic_load_irt g c = Halt BUG).
  { intros c Hp Hs. unfold iosapic_load_irt. rewrite Hp, Hs.
    by rewrite Z.eqb_refl. }
  assert (Hleg : forall c, is_pdc_pat = false ->
            (pdc_pci_irt_size 0).1 <> PDC_OK ->
            iosapic_load_irt g c = Returns (0, irt_cell g, irt_mem g)).
  { intros c Hp Hs. unfold iosapic_load_irt. rewrite Hp.
    destruct (irt_cell g =? 0); [|done].
    destruct (pdc_pci_irt_size 0) as [status n]; simpl in *.
    apply Z.eqb_neq in Hs. by rewrite Hs. }
  assert (Hleg0 : forall c, is_pdc_pat = false -> irt_cell g = 0 ->
            pdc_pci_irt_size 0 = (PDC_OK, 0) ->
            iosapic_load_irt g c = Halt BUG).
  { intros c Hp Hg Hs. unfold iosapic_load_irt. rewrite Hp, Hg, Hs.
    cbn [negb Z.eqb]. by rewrite Z.eqb_refl. }
  split; [|split; [|split; [|split]]].
  - intros Hp Hs. split; [by apply Hleg|].
    apply (iosapic_init_returns_0 g (irt_cell g)). intros c. by apply Hleg.
  - by apply Hpat.
  - intros Hp Hs. apply iosapic_init_halts. intros c. by apply Hpat.
  - intros Hp Hs. split; [by apply Hpat0|].
    apply iosapic_init_halts. intros c. by apply Hpat0.
  - intros Hp Hg Hs. split; [by apply Hleg0|].
    apply iosapic_init_halts. intros c. by apply Hleg0.
Qed.

(** C4 (what the code does): under PAT firmware, once the size query has
    reported PDC_OK and a non-zero count and the table has been allocated,
    the outcome of pdc_pat_get_irt does not matter: iosapic_load_irt
    returns the count and hands out the table, filled or not.  Under legacy
    firmware the same failure of pdc_pci_irt halts. *)
Theorem iosapic_load_irt_fill_failure (g : irt_globals) (cell n : Z) :
  n <> 0 -> iosapic_alloc_irt (s32 n) <> 0 ->
  (is_pdc_pat = true -> pdc_pat_get_irt_size cell = (PDC_OK, n) ->
     iosapic_load_irt g cell =
     Returns (s32 n, iosapic_alloc_irt (s32 n),
              (pdc_pat_get_irt (iosapic_alloc_irt (s32 n)) cell).2))
  /\ (is_pdc_pat = false -> irt_cell g = 0 -> pdc_pci_irt_size 0 = (PDC_OK, n) ->
      (pdc_pci_irt n 0 (iosapic_alloc_irt (s32 n))).1 <> PDC_OK ->
      iosapic_load_irt g cell = Halt BUG).
Proof.
  intros Hn Ha. apply Z.eqb_neq in Hn, Ha. split.
  - intros Hp Hs. unfold iosapic_load_irt. rewrite Hp, Hs, Z.eqb_refl, Hn, Ha.
    cbn [negb]. by destruct (pdc_pat_get_irt _ cell).
  - intros Hp Hg Hs Hf. unfold iosapic_load_irt.
    rewrite Hp, Hg, Hs. cbn [negb Z.eqb]. rewrite Z.eqb_refl, Hn, Ha.
    cbn [negb]. destruct (pdc_pci_irt n 0 _) as [status mem]; cbn [fst] in Hf.
    apply Z.eqb_neq in Hf. by rewrite Hf.
Qed.
End Load.

(** C3, as stated, fails: PAT firmware that does not support the size
    query halts the startup path, and so does legacy firmware that reports
    an empty table. *)
Lemma iosapic_load_irt_halts_on_unsupported :
  @iosapic_init Platform.cfg64 Platform.hdr
    (Platform.firmware true (-2) 0 0 []) Platform.krn Platform.no_table
  = Halt BUG
  /\ @iosapic_load_irt Platform.cfg64 Platform.hdr
       (Platform.firmware true (-2) 0 0 []) Platform.krn Platform.no_table 0
     = Halt BUG
  /\ @iosapic_init Platform.cfg32 Platform.hdr
       (Platform.firmware false 0 0 0 []) Platform.krn Platform.no_table
     = Halt BUG.
Proof. repeat split; reflexivity. Qed.

Lemma iosapic_load_irt_soft_failure_witness :
  @iosapic_init Platform.cfg32 Platform.hdr
    (Platform.firmware false (-2) 0 0 []) Platform.krn Platform.no_table
  = Returns Platform.no_table.
Proof.
  apply (proj1 (@iosapic_load_irt_soft_failure Platform.cfg32 Platform.hdr
                  (Platform.firmware false (-2) 0 0 []) Platform.krn
                  Platform.no_table 0));
    [reflexivity | simpl; lia].
Defined.

(** PAT firmware reports two entries and then fails to deliver them: the
    driver goes on with a table of two entries it never received. *)
Lemma iosapic_load_irt_fill_failure_witness :
  2 <> 0
  /\ @iosapic_init Platform.cfg64 Platform.hdr
       (Platform.firmware true 0 2 (-3) [Platform.stale; Platform.stale])
       Platform.krn Platform.no_table
     = Returns {| irt_cell := 0x10000; irt_num_entry := 2;
                  irt_mem := [Platform.stale; Platform.stale] |}
  /\ @iosapic_load_irt Platform.cfg64 Platform.hdr
       (Platform.firmware true 0 2 (-3) [Platform.stale; Platform.stale])
       Platform.krn Platform.no_table 0
     = Returns (2, 0x10000, [Platform.stale; Platform.stale]).
Proof.
  split; [lia|]. split; [reflexivity|].
  apply (proj1 (@iosapic_load_irt_fill_failure Platform.cfg64 Platform.hdr
                  (Platform.firmware true 0 2 (-3) [Platform.stale; Platform.stale])
                  Platform.krn Platform.no_table 0 2
                  ltac:(lia) ltac:(vm_compute; discriminate)));
    reflexivity.
Defined.

(** ** Pin translation *)

Section Xlate.
Context `{kconfig} `{iosapic_private}.

Lemma u8_small x : 0 <= x < 256 -> u8 x = x.
Proof. intros Hx. unfold u8. by apply Z.mod_small. Qed.

Lemma u8_range x : 0 <= u8 x < 256.
Proof. unfold u8. apply (Z.mod_pos_bound x (2 ^ 8)). lia. Qed.

Lemma ppb_host_devfn_last parent : forall self,
  last (bridge_chain (ChildBus self parent)) = Some (ppb_host_devfn self parent).
Proof.
  induction parent as [|self' parent IH]; intros self; [done|].
  simpl in *. by rewrite <-IH.
Qed.

Lemma pci_swizzle_interrupt_pin_skew pcidev pin :
  1 <= pin -> 0 <= PCI_SLOT (devfn pcidev) ->
  pci_swizzle_interrupt_pin pcidev pin - 1
  = (pin + PCI_SLOT (devfn pcidev) - 1) mod 4
  /\ 1 <= pci_swizzle_interrupt_pin pcidev pin <= 4.
Proof.
  intros Hp Hs. unfold pci_swizzle_interrupt_pin.
  rewrite Z.rem_mod_nonneg by lia.
  pose proof (Z.mod_pos_bound (pin + PCI_SLOT (devfn pcidev) - 1) 4 ltac:(lia)).
  rewrite u8_small by lia. lia.
Qed.

(** C7: iosapic_xlate_pin returns NULL when the interrupt-pin byte of the
    device reads 0.  For a device on the root bus the lookup uses the
    device's own slot and its pin as read.  For a device behind bridges the
    lookup uses the slot of the last bridge of the chain, the one that sits
    on the root bus, however long the chain is, and a pin skewed once, by
    the device's own device number: the looked-up pin less one is
    (pin + device_number - 1) mod 4. *)
Theorem iosapic_xlate_pin_skew (g : irt_globals) (isi : iosapic_info)
    (pcidev : pci_dev) :
  let pin := u8 (cfg_interrupt_pin pcidev) in
  let devnum := PCI_SLOT (devfn pcidev) in
  (pin = 0 -> iosapic_xlate_pin g isi pcidev = None)
  /\ (pin <> 0 -> bus pcidev = RootBus ->
        iosapic_xlate_pin g isi pcidev = irt_find_irqline g isi (u8 devnum) pin)
  /\ (pin <> 0 -> 0 <= devnum ->
      forall top, last (bridge_chain (bus pcidev)) = Some top ->
      exists effective_pin,
        iosapic_xlate_pin g isi pcidev
        = irt_find_irqline g isi (u8 (PCI_SLOT top)) effective_pin
        /\ effective_pin - 1 = (pin + devnum - 1) mod 4
        /\ 1 <= effective_pin <= 4).
Proof.
  intros pin devnum. unfold iosapic_xlate_pin. fold pin. split; [|split].
  - intros ->. reflexivity.
  - intros Hp ->. apply Z.eqb_neq in Hp. by rewrite Hp.
  - intros Hp Hd top Htop.
    assert (1 <= pin).
    { pose proof (u8_range (cfg_interrupt_pin pcidev)). unfold pin in *. lia. }
    apply Z.eqb_neq in Hp. rewrite Hp.
    destruct (bus pcidev) as [|self parent]; [discriminate|].
    rewrite ppb_host_devfn_last in Htop. injection Htop as <-.
    exists (pci_swizzle_interrupt_pin pcidev pin). split; [done|].
    by apply pci_swizzle_interrupt_pin_skew.
Qed.
End Xlate.

(** Function 0 of device 3 behind two bridges, the upper one in slot 5 of
    the root bus, raising INT D: the lookup is for slot 5 and INT C. *)
Lemma iosapic_xlate_pin_skew_witness :
  @iosapic_xlate_pin Platform.cfg64 Platform.hdr
    (Platform.table [Platform.entry 0x1000 5 3 7])
    (Platform.controller 0x1000 [])
    {| devfn := 0x18; bus := ChildBus 0x08 (ChildBus 0x28 RootBus);
       cfg_interrupt_pin := 4; irq := 0; is_superio_device := false;
       superio_irq := 0 |}
  = Some 0%nat.
Proof.
  destruct (proj2 (proj2 (@iosapic_xlate_pin_skew Platform.cfg64 Platform.hdr
    (Platform.table [Platform.entry 0x1000 5 3 7])
    (Platform.controller 0x1000 [])
    {| devfn := 0x18; bus := ChildBus 0x08 (ChildBus 0x28 RootBus);
       cfg_interrupt_pin := 4; irq := 0; is_superio_device := false;
       superio_irq := 0 |}))
    ltac:(vm_compute; discriminate) ltac:(vm_compute; discriminate) 0x28
    eq_refl) as (eff & -> & Heff & _).
  assert (eff = 3) as -> by (apply (Z.sub_cancel_r _ _ 1); exact Heff).
  reflexivity.
Defined.

Section Flush.
Context `{kconfig} `{iosapic_private} `{pdc} `{kernel}.

(** C10: the register traffic of iosapic_wr_irt_entry is select, window
    write, window read, select, window write, window read: each write to
    the window is followed by a read of the window before the next write
    goes out, and the two data writes never follow one another without
    that read in between. *)
Theorem iosapic_wr_irt_entry_flushes (dev : device) (log : list mmio_event)
    (w : world) (vi : vector_info) (isp : iosapic_info) (dp0 dp1 : Z) :
  deref_isi w (iosapic vi) = Returns isp ->
  let win := addr isp + IOSAPIC_REG_WINDOW in
  let sel := addr isp + IOSAPIC_REG_SELECT in
  let t := trace dev (iosapic_wr_irt_entry w vi dp0 dp1) log in
  (exists r0 r1,
     t = [EvWritel (u32 (IOSAPIC_IRDT_ENTRY (irqline vi))) sel;
          EvWritel dp0 win; EvReadl win r0;
          EvWritel (u32 (IOSAPIC_IRDT_ENTRY_HI (irqline vi))) sel;
          EvWritel dp1 win; EvReadl win r1])
  /\ window_writes_flushed win false t = true
  /\ window_writes_apart win false t = true.
Proof.
  intros Hisp win sel t.
  destruct (run_iosapic_wr_irt_entry dev log w vi isp dp0 dp1 Hisp)
    as (r0 & r1 & Hrun).
  pose proof (trace_run dev (iosapic_wr_irt_entry w vi dp0 dp1) log) as Ht.
  rewrite Hrun in Ht. simpl in Ht. apply app_inv_head in Ht. fold t in Ht.
  assert (Hsw : (sel =? win) = false).
  { apply Z.eqb_neq. unfold sel, win, IOSAPIC_REG_SELECT, IOSAPIC_REG_WINDOW. lia. }
  split; [by exists r0, r1|].
  rewrite <-Ht. fold win sel. simpl. rewrite Hsw, !Z.eqb_refl. done.
Qed.
End Flush.

Lemma iosapic_wr_irt_entry_flushes_witness :
  trace (Platform.regfile 0x1000 (fun _ => 0))
    (@iosapic_wr_irt_entry Platform.krn
       (Platform.world0 Platform.no_table [Platform.controller 0x1000 []])
       {| iosapic := 0; irte := None; eoi_addr := 0x1040; eoi_data := 0;
          txn_irq := 0; txn_addr := 0; txn_data := 0; status := 0;
          irqline := 5 |} 0xa001 0xa0ff0000) []
  = [EvWritel 0x1a 0x1000; EvWritel 0xa001 0x1010; EvReadl 0x1010 0xa001;
     EvWritel 0x1b 0x1000; EvWritel 0xa0ff0000 0x1010;
     EvReadl 0x1010 0xa0ff0000].
Proof.
  destruct (proj1 (@iosapic_wr_irt_entry_flushes Platform.krn
    (Platform.regfile 0x1000 (fun _ => 0)) []
    (Platform.world0 Platform.no_table [Platform.controller 0x1000 []])
    {| iosapic := 0; irte := None; eoi_addr := 0x1040; eoi_data := 0;
       txn_irq := 0; txn_addr := 0; txn_data := 0; status := 0;
       irqline := 5 |} (Platform.controller 0x1000 []) 0xa001 0xa0ff0000
    eq_refl)) as (r0 & r1 & _).
  reflexivity.
Defined.

(** ** Encoding of a redirection entry *)

Lemma u32_small x : 0 <= x < 2 ^ 32 -> u32 x = x.
Proof. intros Hx. unfold u32. by apply Z.mod_small. Qed.

Lemma land_u32 x m : Z.land (Z.ones 32) m = m -> Z.land (u32 x) m = Z.land x m.
Proof.
  intros Hm. unfold u32. rewrite <-Z.land_ones by lia.
  by rewrite <-Z.land_assoc, Hm.
Qed.

(** The bits of [x] under a mask of [len] ones at [lo]. *)
Lemma land_field x lo len :
  0 <= lo -> 0 <= len ->
  Z.land x (Z.shiftl (Z.ones len) lo) = (x / 2 ^ lo) mod 2 ^ len * 2 ^ lo.
Proof.
  intros Hlo Hlen.
  rewrite <-Z.shiftr_div_pow2, <-Z.land_ones, <-Z.shiftl_mul_pow2 by lia.
  apply Z.bits_inj'. intros n Hn.
  rewrite Z.land_spec, !Z.shiftl_spec, Z.land_spec by lia.
  destruct (Z.lt_ge_cases n lo) as [Hlt|Hge].
  - rewrite !(Z.testbit_neg_r _ (n - lo)) by lia. by rewrite andb_false_r.
  - rewrite Z.shiftr_spec by lia. by replace (n - lo + lo) with n by lia.
Qed.

Section Encoding.
Context `{kconfig} `{iosapic_private} `{pdc} `{kernel}.

Lemma eid_field x : Z.shiftr (Z.land x 0x0ff00000) 4 = (x / 2 ^ 20) mod 2 ^ 8 * 2 ^ 16.
Proof.
  change 0x0ff00000 with (Z.shiftl (Z.ones 8) 20).
  rewrite land_field, Z.shiftr_div_pow2 by lia.
  pose proof (Z.mod_pos_bound (x / 2 ^ 20) (2 ^ 8) ltac:(lia)).
  change (2 ^ 20) with (2 ^ 16 * 2 ^ 4). rewrite Z.mul_assoc.
  by rewrite Z.div_mul by lia.
Qed.

Lemma id_field x : Z.shiftl (Z.land x 0x000ff000) 12 = (x / 2 ^ 12) mod 2 ^ 8 * 2 ^ 24.
Proof.
  change 0x000ff000 with (Z.shiftl (Z.ones 8) 12).
  rewrite land_field, Z.shiftl_mul_pow2 by lia.
  change (2 ^ 24) with (2 ^ 12 * 2 ^ 12). lia.
Qed.

Lemma legacy_id_eid x :
  Z.lor (Z.shiftr (Z.land (u32 x) 0x0ff00000) 4)
        (u32 (Z.shiftl (Z.land (u32 x) 0x000ff000) 12))
  = Z.lor (Z.shiftr (Z.land x 0x0ff00000) 4) (Z.shiftl (Z.land x 0x000ff000) 12).
Proof.
  rewrite !land_u32 by reflexivity. f_equal.
  apply u32_small. rewrite id_field.
  pose proof (Z.mod_pos_bound (x / 2 ^ 12) (2 ^ 8) ltac:(lia)). lia.
Qed.

Lemma iosapic_set_irt_data_Returns w vi p :
  deref_irte (irt w) (irte vi) = Returns p ->
  exists dp0 dp1, iosapic_set_irt_data w vi = Returns (dp0, dp1).
Proof.
  intros Hp. unfold iosapic_set_irt_data. rewrite Hp.
  cbn [mbind outcome_mbind mret outcome_mret]. eauto.
Qed.

(** C5: for a bound line, iosapic_set_irt_data gives as low word the
    allocator's message data or-ed with 0x2000 (bit 13) exactly when the
    polarity field of the routing entry is IRT_ACTIVE_LO and with 0x8000
    (bit 15) exactly when its trigger field is IRT_LEVEL_TRIG; the enable
    bit used by mask is 0x10000 (bit 16).  The high word is the 32 bits of
    the allocator's target address as they are under PAT firmware, and
    ((txn_addr & 0x0ff00000) >> 4) | ((txn_addr & 0x000ff000) << 12) under
    legacy firmware. *)
Theorem iosapic_set_irt_data_encoding (w : world) (vi : vector_info)
    (p : irt_entry) :
  deref_irte (irt w) (irte vi) = Returns p ->
  let active_low := Z.land (polarity_trigger p) IRT_PO_MASK =? IRT_ACTIVE_LO in
  let level := Z.land (Z.shiftr (polarity_trigger p) IRT_EL_SHIFT) IRT_EL_MASK
               =? IRT_LEVEL_TRIG in
  exists dp0 dp1,
    iosapic_set_irt_data w vi = Returns (dp0, dp1)
    /\ dp0 = Z.lor (u32 (txn_data vi))
               (Z.lor (if active_low then 0x2000 else 0)
                      (if level then 0x8000 else 0))
    /\ Z.testbit dp0 13 = active_low || Z.testbit (u32 (txn_data vi)) 13
    /\ Z.testbit dp0 15 = level || Z.testbit (u32 (txn_data vi)) 15
    /\ (0 <= txn_data vi < 2 ^ 32 -> u32 (txn_data vi) = txn_data vi)
    /\ IOSAPIC_IRDT_ENABLE = 2 ^ 16
    /\ (is_pdc_pat = true ->
          dp1 = u32 (txn_addr vi)
          /\ (0 <= txn_addr vi < 2 ^ 32 -> dp1 = txn_addr vi))
    /\ (is_pdc_pat = false ->
          dp1 = Z.lor (Z.shiftr (Z.land (txn_addr vi) 0x0ff00000) 4)
                      (Z.shiftl (Z.land (txn_addr vi) 0x000ff000) 12)).
Proof.
  intros Hp active_low level. unfold iosapic_set_irt_data. rewrite Hp.
  cbn [mbind outcome_mbind mret outcome_mret]. cbv zeta.
  fold active_low level. eexists _, _. split; [reflexivity|].
  unfold IOSAPIC_IRDT_PO_LOW, IOSAPIC_IRDT_LEVEL_TRIG.
  split; [|split; [|split; [|split; [|split; [|split]]]]].
  - rewrite (Z.lor_comm (u32 _)). by destruct active_low, level.
  - rewrite Z.lor_spec. by destruct active_low, level.
  - rewrite Z.lor_spec. by destruct active_low, level.
  - apply u32_small.
  - reflexivity.
  - intros ->. split; [done|]. intros Hr. by apply u32_small.
  - intros ->. apply legacy_id_eid.
Qed.
End Encoding.

(** The example of the source: under legacy firmware the target address
    0xfffa0000 is packed as 0xa0ff0000. *)
Lemma iosapic_set_irt_data_encoding_witness :
  @iosapic_set_irt_data Platform.hdr (Platform.firmware false 0 1 0 [])
    Platform.krn
    (Platform.world0 (Platform.table [Platform.entry 0x1000 3 2 5]) [])
    {| iosapic := 0; irte := Some 0%nat; eoi_addr := 0x1040; eoi_data := 1;
       txn_irq := 65; txn_addr := 0xfffa0000; txn_data := 1; status := 0;
       irqline := 5 |}
  = Returns (0xa001, 0xa0ff0000).
Proof.
  destruct (@iosapic_set_irt_data_encoding Platform.hdr
    (Platform.firmware false 0 1 0 []) Platform.krn
    (Platform.world0 (Platform.table [Platform.entry 0x1000 3 2 5]) [])
    {| iosapic := 0; irte := Some 0%nat; eoi_addr := 0x1040; eoi_data := 1;
       txn_irq := 65; txn_addr := 0xfffa0000; txn_data := 1; status := 0;
       irqline := 5 |} (Platform.entry 0x1000 3 2 5) eq_refl)
    as (dp0 & dp1 & -> & -> & _ & _ & _ & _ & _ & Hleg).
  rewrite (Hleg eq_refl). reflexivity.
Defined.

(** ** Unmask, acknowledge, retarget *)

Section Operations.
Context `{kconfig} `{iosapic_private} `{pdc} `{kernel}.

Lemma deref_isi_Returns w h isi :
  deref_isi w h = Returns isi <-> isis w !! h = Some isi.
Proof. unfold deref_isi. destruct (isis w !! h); split; congruence. Qed.

Lemma deref_vi_Returns w vip vi :
  deref_vi w vip = Returns vi <->
  exists isi, isis w !! vip.1 = Some isi /\ isi_vector isi !! vip.2 = Some vi.
Proof.
  unfold deref_vi, deref_isi. destruct (isis w !! vip.1) as [isi|]; simpl.
  - destruct (isi_vector isi !! vip.2) eqn:Hvi; split.
    + intros [= ->]. eauto.
    + intros (isi' & [= <-] & Hvi'). congruence.
    + discriminate.
    + intros (isi' & [= <-] & Hvi'). congruence.
  - split; [discriminate|]. by intros (isi' & ? & _).
Qed.

Lemma irt_store_vi w vip vi : irt (store_vi w vip vi) = irt w.
Proof. unfold store_vi. by destruct (isis w !! vip.1). Qed.

Lemma deref_isi_store_vi w vip vi h isp :
  deref_isi w h = Returns isp ->
  exists isp', deref_isi (store_vi w vip vi) h = Returns isp'
               /\ addr isp' = addr isp /\ isi_hpa isp' = isi_hpa isp.
Proof.
  rewrite deref_isi_Returns. intros Hh. unfold store_vi.
  destruct (isis w !! vip.1) as [isi|] eqn:Hisi.
  - destruct (decide (vip.1 = h)) as [<-|Hne].
    + assert (isi = isp) as -> by congruence.
      exists (set_isi_vector isp (<[vip.2:=vi]> (isi_vector isp))).
      rewrite deref_isi_Returns. split; [|done]. cbn [isis set_isis].
      apply list_lookup_insert_eq. by eapply lookup_lt_Some.
    + exists isp. rewrite deref_isi_Returns. cbn [isis set_isis].
      by rewrite list_lookup_insert_ne.
  - exists isp. by rewrite deref_isi_Returns.
Qed.

Lemma iosapic_set_irt_data_store_vi w vip vi' vi :
  iosapic_set_irt_data (store_vi w vip vi') vi = iosapic_set_irt_data w vi.
Proof. unfold iosapic_set_irt_data. by rewrite irt_store_vi. Qed.

(** Mask reads the entry, sets IOSAPIC_IRDT_ENABLE in the low word and
    writes both words back. *)
Lemma iosapic_mask_irq_sets_enable dev log w d vi isp :
  deref_vi w (chip_data d) = Returns vi ->
  deref_isi w (iosapic vi) = Returns isp ->
  let win := addr isp + IOSAPIC_REG_WINDOW in
  let sel := addr isp + IOSAPIC_REG_SELECT in
  let lo := u32 (IOSAPIC_IRDT_ENTRY (irqline vi)) in
  let hi := u32 (IOSAPIC_IRDT_ENTRY_HI (irqline vi)) in
  exists d0 d1 r0 r1,
    run dev (iosapic_mask_irq w d) log
    = (Returns tt,
       log ++ [EvWritel lo sel; EvReadl win d0;
               EvWritel hi sel; EvReadl win d1;
               EvWritel lo sel; EvWritel (Z.lor d0 0x10000) win; EvReadl win r0;
               EvWritel hi sel; EvWritel d1 win; EvReadl win r1]).
Proof.
  intros Hvi Hisp win sel lo hi.
  destruct (run_iosapic_rd_irt_entry dev log w vi isp Hisp) as (d0 & d1 & Hrd).
  destruct (run_iosapic_wr_irt_entry dev
              (log ++ [EvWritel lo sel; EvReadl win d0;
                       EvWritel hi sel; EvReadl win d1])
              w vi isp (Z.lor d0 IOSAPIC_IRDT_ENABLE) d1 Hisp) as (r0 & r1 & Hwr).
  exists d0, d1, r0, r1. unfold iosapic_mask_irq.
  rewrite run_bind, Hvi, run_lift, run_bind, Hrd. fold win sel lo hi in Hwr |- *.
  rewrite Hwr, <-app_assoc. reflexivity.
Qed.

(** C8: unmask on a bound line computes both words with
    iosapic_set_irt_data, from the polarity and trigger bits of the stored
    routing entry and the target address the line has now, writes them to
    the line's redirection entry and then writes the stored acknowledge
    data to the stored acknowledge address.  That write, like the one of
    the acknowledge callback, follows no read and no test: whatever the
    controller holds, unmask followed by acknowledge is the entry traffic
    and two writes of eoi_data to eoi_addr. *)
Theorem iosapic_unmask_irq_then_eoi (dev : device) (log : list mmio_event)
    (w : world) (d : irq_data) (vi : vector_info) (isp : iosapic_info)
    (d0 d1 : Z) :
  deref_vi w (chip_data d) = Returns vi ->
  deref_isi w (iosapic vi) = Returns isp ->
  iosapic_set_irt_data w vi = Returns (d0, d1) ->
  let win := addr isp + IOSAPIC_REG_WINDOW in
  let sel := addr isp + IOSAPIC_REG_SELECT in
  let entry r0 r1 :=
    [EvWritel (u32 (IOSAPIC_IRDT_ENTRY (irqline vi))) sel;
     EvWritel d0 win; EvReadl win r0;
     EvWritel (u32 (IOSAPIC_IRDT_ENTRY_HI (irqline vi))) sel;
     EvWritel d1 win; EvReadl win r1] in
  let ack := EvRawWritel (eoi_data vi) (eoi_addr vi) in
  (forall log', run dev (iosapic_eoi_irq w d) log' = (Returns tt, log' ++ [ack]))
  /\ exists r0 r1,
       run dev (iosapic_unmask_irq w d) log
       = (Returns tt, log ++ entry r0 r1 ++ [ack])
       /\ run dev (iosapic_unmask_irq w d;; iosapic_eoi_irq w d) log
          = (Returns tt, log ++ entry r0 r1 ++ [ack; ack]).
Proof.
  intros Hvi Hisp Hdata win sel entry ack.
  assert (Heoi : forall log',
            run dev (iosapic_eoi_irq w d) log' = (Returns tt, log' ++ [ack])).
  { intros log'. unfold iosapic_eoi_irq. by rewrite run_bind, Hvi, run_lift. }
  split; [exact Heoi|].
  destruct (run_iosapic_wr_irt_entry dev log w vi isp d0 d1 Hisp)
    as (r0 & r1 & Hwr).
  assert (Hun : run dev (iosapic_unmask_irq w d) log
                = (Returns tt, log ++ entry r0 r1 ++ [ack])).
  { unfold iosapic_unmask_irq.
    rewrite run_bind, Hvi, run_lift, run_bind, Hdata, run_lift.
    rewrite run_bind, Hwr. simpl. by rewrite <-app_assoc. }
  exists r0, r1. split; [exact Hun|].
  rewrite run_bind, Hun, Heoi. by rewrite <-!app_assoc.
Qed.

(** C9: when cpu_check_affinity finds a processor, the retarget operation
    reads both words of the line's redirection entry and writes the entry
    back with the low word it has just read and with the high word
    iosapic_set_irt_data computes for the new target address: enable,
    polarity and trigger bits go back as they came. *)
Theorem iosapic_set_affinity_irq_keeps_low_word (dev : device)
    (log : list mmio_event) (w : world) (d : irq_data) (dest : Z)
    (vi : vector_info) (isp : iosapic_info) (p : irt_entry) :
  0 <= s32 (cpu_check_affinity d dest) ->
  deref_vi w (chip_data d) = Returns vi ->
  deref_isi w (iosapic vi) = Returns isp ->
  deref_irte (irt w) (irte vi) = Returns p ->
  let win := addr isp + IOSAPIC_REG_WINDOW in
  let sel := addr isp + IOSAPIC_REG_SELECT in
  let lo := u32 (IOSAPIC_IRDT_ENTRY (irqline vi)) in
  let hi := u32 (IOSAPIC_IRDT_ENTRY_HI (irqline vi)) in
  let dest_cpu := s32 (cpu_check_affinity d dest) in
  let vi' := set_txn_addr vi (ulong (txn_affinity_addr (d_irq d) dest_cpu)) in
  exists d0 d1 dummy_d0 d1' r0 r1 d',
    run dev (iosapic_set_affinity_irq w d dest) log
    = (Returns (0, d', store_vi w (chip_data d) vi'),
       log ++ [EvWritel lo sel; EvReadl win d0;
               EvWritel hi sel; EvReadl win d1;
               EvWritel lo sel; EvWritel d0 win; EvReadl win r0;
               EvWritel hi sel; EvWritel d1' win; EvReadl win r1])
    /\ iosapic_set_irt_data w vi' = Returns (dummy_d0, d1')
    /\ chip_data d' = chip_data d.
Proof.
  intros Hcpu Hvi Hisp Hp win sel lo hi dest_cpu vi'.
  set (w' := store_vi w (chip_data d) vi').
  destruct (deref_isi_store_vi w (chip_data d) vi' _ isp Hisp)
    as (isp' & Hisp' & Haddr & _). fold w' in Hisp'.
  assert (Hisp'' : deref_isi w' (iosapic vi') = Returns isp') by done.
  destruct (iosapic_set_irt_data_Returns w vi' p Hp)
    as (dummy_d0 & d1' & Hdata).
  destruct (run_iosapic_rd_irt_entry dev log w' vi' isp' Hisp'')
    as (d0 & d1 & Hrd).
  destruct (run_iosapic_wr_irt_entry dev
              (log ++ [EvWritel lo sel; EvReadl win d0;
                       EvWritel hi sel; EvReadl win d1])
              w' vi' isp' d0 d1' Hisp'') as (r0 & r1 & Hwr).
  rewrite Haddr in Hrd, Hwr. fold win sel in Hrd, Hwr.
  change (irqline vi') with (irqline vi) in Hrd, Hwr. fold lo hi in Hrd, Hwr.
  eexists d0, d1, dummy_d0, d1', r0, r1, _.
  split; [|split; [exact Hdata|]].
  - unfold iosapic_set_affinity_irq. fold dest_cpu.
    destruct (dest_cpu <? 0) eqn:Hneg; [apply Z.ltb_lt in Hneg; lia|].
    cbn [chip_data d_irq]. rewrite run_bind, Hvi, run_lift.
    fold vi' w'. rewrite run_bind, Hrd, run_bind.
    assert (Hdata' : iosapic_set_irt_data w' vi' = Returns (dummy_d0, d1')).
    { unfold w'. by rewrite iosapic_set_irt_data_store_vi. }
    rewrite Hdata', run_lift, run_bind, Hwr.
    cbn [run mret mmio_mret]. rewrite <-app_assoc. reflexivity.
  - reflexivity.
Qed.
End Operations.

Lemma iosapic_unmask_irq_then_eoi_witness :
  run (Platform.regfile 0x1000 (fun _ => 0))
    (@iosapic_unmask_irq Platform.hdr Platform.legacy Platform.krn
       Platform.world1 Platform.irq65) []
  = (Returns tt,
     [EvWritel 0x10 0x1000; EvWritel 0xa001 0x1010; EvReadl 0x1010 0xa001;
      EvWritel 0x11 0x1000; EvWritel 0xa0ff0000 0x1010;
      EvReadl 0x1010 0xa0ff0000; EvRawWritel 1 0x1040]).
Proof.
  destruct (proj2 (@iosapic_unmask_irq_then_eoi Platform.hdr Platform.legacy
    Platform.krn (Platform.regfile 0x1000 (fun _ => 0)) [] Platform.world1
    Platform.irq65 Platform.bound_vi (Platform.controller 0x1000 [Platform.bound_vi])
    0xa001 0xa0ff0000 eq_refl eq_refl eq_refl)) as (r0 & r1 & _ & _).
  reflexivity.
Defined.

(** Retargeting to processor 1 a line whose entry holds a set enable bit:
    the low word 0x1a001 goes back as it was read. *)
Lemma iosapic_set_affinity_irq_keeps_low_word_witness :
  (run (Platform.regfile 0x1000 (fun i => if i =? 0x10 then 0x1a001 else 0))
     (@iosapic_set_affinity_irq Platform.cfg64 Platform.hdr Platform.legacy
        Platform.krn Platform.world1 Platform.irq65 1) []).2
  = [EvWritel 0x10 0x1000; EvReadl 0x1010 0x1a001;
     EvWritel 0x11 0x1000; EvReadl 0x1010 0;
     EvWritel 0x10 0x1000; EvWritel 0x1a001 0x1010; EvReadl 0x1010 0x1a001;
     EvWritel 0x11 0x1000; EvWritel 0xa2ff0000 0x1010;
     EvReadl 0x1010 0xa2ff0000].
Proof.
  destruct (@iosapic_set_affinity_irq_keeps_low_word Platform.cfg64
    Platform.hdr Platform.legacy Platform.krn
    (Platform.regfile 0x1000 (fun i => if i =? 0x10 then 0x1a001 else 0)) []
    Platform.world1 Platform.irq65 1 Platform.bound_vi
    (Platform.controller 0x1000 [Platform.bound_vi])
    (Platform.entry 0x1000 3 2 0) ltac:(vm_compute; discriminate)
    eq_refl eq_refl eq_refl) as (d0 & d1 & dummy & d1' & r0 & r1 & d' & _).
  vm_compute. reflexivity.
Defined.

(** ** Binding devices to lines *)

Section Binding.
Context `{kconfig} `{iosapic_private} `{pdc} `{kernel}.

Lemma deref_vi_store_vi_eq w vip vi0 v :
  deref_vi w vip = Returns vi0 -> deref_vi (store_vi w vip v) vip = Returns v.
Proof.
  rewrite !deref_vi_Returns. intros (isi & Hisi & Hvi). unfold store_vi.
  rewrite Hisi. cbn [isis set_isis]. eexists. split.
  - apply list_lookup_insert_eq. by eapply lookup_lt_Some.
  - cbn [isi_vector set_isi_vector].
    apply list_lookup_insert_eq. by eapply lookup_lt_Some.
Qed.

Lemma deref_vi_store_vi_ne w vip vip' v :
  vip <> vip' -> deref_vi (store_vi w vip v) vip' = deref_vi w vip'.
Proof.
  intros Hne. unfold store_vi.
  destruct (isis w !! vip.1) as [isi|] eqn:Hisi; [|done].
  unfold deref_vi, deref_isi. cbn [isis set_isis].
  destruct (decide (vip.1 = vip'.1)) as [Heq|Hne1].
  - rewrite <-Heq, Hisi.
    rewrite list_lookup_insert_eq by (by eapply lookup_lt_Some).
    cbn [mbind outcome_mbind isi_vector set_isi_vector].
    rewrite list_lookup_insert_ne; [done|].
    intros Heq2. apply Hne. destruct vip, vip'; simpl in *; congruence.
  - by rewrite list_lookup_insert_ne.
Qed.

Lemma isis_store_vi_hpa w vip v h isi :
  isis w !! h = Some isi ->
  exists isi', isis (store_vi w vip v) !! h = Some isi'
               /\ isi_hpa isi' = isi_hpa isi /\ addr isi' = addr isi.
Proof.
  intros Hh. apply deref_isi_Returns in Hh.
  destruct (deref_isi_store_vi w vip v h isi Hh) as (isi' & Hd & Ha & Hhpa).
  exists isi'. by rewrite <-deref_isi_Returns.
Qed.

(** What bind_vector leaves behind. *)
Lemma bind_vector_Returns w isi vip vi p vi' w' :
  bind_vector w isi vip vi p = Returns (vi', w') ->
  irte vi' = Some p /\ 0 <= txn_irq vi'
  /\ irqline vi' = irqline vi /\ iosapic vi' = iosapic vi
  /\ (txn_data vi' = u32 (txn_alloc_data (txn_irq vi'))
      /\ eoi_addr vi' = addr isi + IOSAPIC_REG_EOI
      /\ eoi_data vi' = u32 (cpu_to_le32 (txn_data vi')))
  /\ irt w' = irt w
  /\ isis w' = isis (store_vi w vip vi')
  /\ claimed w' = (txn_irq vi', vip) :: claimed w.
Proof.
  unfold bind_vector.
  destruct (txn_alloc_irq (txn w) 8) as [irq_ t].
  destruct (s32 irq_ <? 0) eqn:Hneg; [discriminate|].
  destruct (txn_alloc_addr t (s32 irq_)) as [a t'].
  cbn [mret outcome_mret]. intros [= <- <-]. cbn [irte txn_irq irqline iosapic
    eoi_addr eoi_data txn_data irt isis claimed]. rewrite irt_store_vi.
  apply Z.ltb_ge in Hneg.
  repeat split; try done.
  unfold store_vi. by destruct (isis w !! vip.1).
Qed.

Lemma iosapic_xlate_pin_set_irq g isi pcidev n :
  iosapic_xlate_pin g isi (set_irq pcidev n) = iosapic_xlate_pin g isi pcidev.
Proof. reflexivity. Qed.

(** iosapic_fixup_irq once the device is known to get to entry [p] and
    line [l], and when it does not. *)
Lemma iosapic_fixup_irq_cases w h pcidev :
  match resolves_to w h pcidev with
  | Some (p, l) =>
      exists isi, isis w !! h = Some isi /\
        iosapic_fixup_irq w (Some h) pcidev =
        vi ← deref_vi w (h, l);
        '(vi', w') ← match irte vi with
                     | Some _ => mret (vi, w)
                     | None => bind_vector w isi (h, l) vi p
                     end;
        mret (s32 (u32 (txn_irq vi')), set_irq pcidev (u32 (txn_irq vi')), w')
  | None =>
      forall r pcidev' w',
        iosapic_fixup_irq w (Some h) pcidev = Returns (r, pcidev', w') -> w' = w
  end.
Proof.
  unfold resolves_to, iosapic_fixup_irq.
  set (superio := CONFIG_SUPERIO && is_superio_device pcidev).
  set (pcidev1 := if superio then set_irq pcidev (u32 (superio_fixup_irq pcidev))
                  else pcidev).
  assert (Hdevfn : devfn pcidev1 = devfn pcidev) by (unfold pcidev1; by destruct superio).
  assert (Hxl : forall isi, iosapic_xlate_pin (irt w) isi pcidev1
                            = iosapic_xlate_pin (irt w) isi pcidev)
    by (unfold pcidev1; by destruct superio).
  assert (Hset : forall n, set_irq pcidev1 n = set_irq pcidev n)
    by (unfold pcidev1; by destruct superio).
  rewrite Hdevfn.
  destruct (superio && negb (PCI_FUNC (devfn pcidev) =? SUPERIO_USB_FN)).
  { cbn [mret outcome_mret]. by intros r pcidev' w' [= _ _ <-]. }
  unfold deref_isi.
  destruct (isis w !! h) as [isi|] eqn:Hisi; cbn [mbind option_bind outcome_mbind];
    [|done].
  rewrite Hxl.
  destruct (iosapic_xlate_pin (irt w) isi pcidev) as [p|] eqn:Hp;
    cbn [mbind option_bind].
  2:{ cbn [mret outcome_mret]. by intros r pcidev' w' [= _ _ <-]. }
  unfold deref_irte. cbn [mbind option_bind].
  destruct (irt_table (irt w) !! p) as [e|] eqn:He;
    cbn [mbind option_bind outcome_mbind]; [|done].
  exists isi. split; [done|].
  destruct (deref_vi w (h, Z.to_nat (u8 (dest_iosapic_intin e)))) as [vi|];
    cbn [mbind outcome_mbind]; [|done].
  destruct (match irte vi with
            | Some _ => mret (vi, w)
            | None => bind_vector w isi (h, Z.to_nat (u8 (dest_iosapic_intin e))) vi p
            end) as [[vi' w']|]; cbn [mbind outcome_mbind]; [|done].
  cbn [mret outcome_mret]. by rewrite Hset.
Qed.

(** A call for a device that gets to a bound line changes nothing and
    returns the interrupt the line is bound to. *)
Lemma iosapic_fixup_irq_bound w h pcidev p l vi q :
  resolves_to w h pcidev = Some (p, l) ->
  deref_vi w (h, l) = Returns vi -> irte vi = Some q ->
  iosapic_fixup_irq w (Some h) pcidev
  = Returns (s32 (u32 (txn_irq vi)), set_irq pcidev (u32 (txn_irq vi)), w).
Proof.
  intros Hres Hvi Hq. pose proof (iosapic_fixup_irq_cases w h pcidev) as Hc.
  rewrite Hres in Hc. destruct Hc as (isi & _ & ->).
  rewrite Hvi. cbn [mbind outcome_mbind]. by rewrite Hq.
Qed.

(** A call that returns leaves the line it gets to bound, to the entry it
    found if the line was free, and reports the interrupt of that line. *)
Lemma iosapic_fixup_irq_binds w h pcidev p l r pcidev' w' :
  resolves_to w h pcidev = Some (p, l) ->
  iosapic_fixup_irq w (Some h) pcidev = Returns (r, pcidev', w') ->
  exists vi vi',
    deref_vi w (h, l) = Returns vi
    /\ deref_vi w' (h, l) = Returns vi'
    /\ is_Some (irte vi')
    /\ r = s32 (u32 (txn_irq vi'))
    /\ pcidev' = set_irq pcidev (u32 (txn_irq vi'))
    /\ (is_Some (irte vi) -> vi' = vi /\ w' = w)
    /\ (irte vi = None ->
         irte vi' = Some p /\ 0 <= txn_irq vi'
         /\ claimed w' = (txn_irq vi', (h, l)) :: claimed w
         /\ irt w' = irt w
         /\ isis w' = isis (store_vi w (h, l) vi')
         /\ txn_data vi' = u32 (txn_alloc_data (txn_irq vi'))
         /\ eoi_data vi' = u32 (cpu_to_le32 (txn_data vi'))).
Proof.
  intros Hres Hret. pose proof (iosapic_fixup_irq_cases w h pcidev) as Hc.
  rewrite Hres in Hc. destruct Hc as (isi & Hisi & Hfix). rewrite Hfix in Hret.
  destruct (deref_vi w (h, l)) as [vi|] eqn:Hvi; [|discriminate].
  cbn [mbind outcome_mbind] in Hret.
  destruct (irte vi) as [q|] eqn:Hq.
  - cbn [mbind outcome_mbind mret outcome_mret] in Hret.
    injection Hret as <- <- <-. exists vi, vi. rewrite Hq.
    split_and!; eauto; discriminate.
  - destruct (bind_vector w isi (h, l) vi p) as [[vi' w'']|] eqn:Hb;
      [|discriminate].
    cbn [mbind outcome_mbind mret outcome_mret] in Hret.
    injection Hret as <- <- <-.
    destruct (bind_vector_Returns _ _ _ _ _ _ _ Hb)
      as (Hirte & Hirq & _ & _ & (Hdata & _ & Heoi) & Hirt & Hisis & Hcl).
    exists vi, vi'. rewrite Hirte. split_and!; eauto.
    + pose proof (deref_vi_store_vi_eq w (h, l) vi vi' Hvi) as Hst.
      unfold deref_vi, deref_isi in *. by rewrite Hisis.
    + rewrite Hq. by intros [? [=]].
    + intros _. by split_and!.
Qed.

(** From a run that returned a value and a world, the world. *)
Ltac returned_world H :=
  apply (f_equal (fun x => match x.1 with
                           | Returns a => Some a.2
                           | Halt _ => None
                           end)) in H;
  cbv beta iota delta [fst snd] in H;
  apply (inj Some) in H.

Lemma deref_vi_isis w1 w2 vip : isis w1 = isis w2 -> deref_vi w1 vip = deref_vi w2 vip.
Proof. intros Heq. unfold deref_vi, deref_isi. by rewrite Heq. Qed.

Lemma iosapic_register_world dev log w hpa kz kc r w' log' :
  run dev (iosapic_register w hpa kz kc) log = (Returns (r, w'), log') ->
  w' = w \/ exists isi, w' = set_isis w (isis w ++ [isi]).
Proof.
  unfold iosapic_register.
  destruct (iosapic_register_scan _ _ _); [|intros [= _ <- _]; by left].
  destruct kz; [|discriminate]. change (negb true) with false. cbv iota.
  rewrite run_bind, run_iosapic_read. cbv zeta iota.
  destruct kc; cbn [negb run mret mmio_mret]; intros Hrun; returned_world Hrun.
  - right. eauto.
  - by left.
Qed.

Lemma iosapic_set_affinity_irq_world dev log w d dest r d' w' log' :
  run dev (iosapic_set_affinity_irq w d dest) log = (Returns (r, d', w'), log') ->
  w' = w \/ exists vi a,
    deref_vi w (chip_data d) = Returns vi
    /\ w' = store_vi w (chip_data d) (set_txn_addr vi a).
Proof.
  unfold iosapic_set_affinity_irq.
  destruct (s32 (cpu_check_affinity d dest) <? 0); [intros [= _ _ <- _]; by left|].
  cbn [chip_data d_irq]. rewrite run_bind, run_lift.
  destruct (deref_vi w (chip_data d)) as [vi|]; [|discriminate].
  rewrite run_bind.
  destruct (run dev (iosapic_rd_irt_entry _ _) log) as [[[d0 d1]|] log1];
    [|discriminate].
  rewrite run_bind, run_lift.
  destruct (iosapic_set_irt_data _ _) as [[dummy d1']|]; [|discriminate].
  rewrite run_bind.
  destruct (run dev (iosapic_wr_irt_entry _ _ _ _) log1) as [[[]|] log2];
    [|discriminate].
  cbn [run mret mmio_mret]. intros Hrun. returned_world Hrun. right. eauto.
Qed.

Lemma driver_step_keeps_binding w w' h l vi p :
  driver_step w w' ->
  deref_vi w (h, l) = Returns vi -> irte vi = Some p ->
  exists vi', deref_vi w' (h, l) = Returns vi'
              /\ irte vi' = Some p /\ txn_irq vi' = txn_irq vi.
Proof.
  intros Hstep Hvi Hp. destruct Hstep as
    [dev log w hpa kz kc r w' log' Hrun
    |w isi_obj pcidev r pcidev' w' Hfix
    |dev log w d dest r d' w' log' Hrun].
  - apply iosapic_register_world in Hrun as [->|[isi ->]]; [eauto|].
    exists vi. split; [|done]. apply deref_vi_Returns in Hvi as (isi0 & Hh & Hl).
    apply deref_vi_Returns. exists isi0. split; [|done]. cbn [isis set_isis].
    rewrite lookup_app_l; [done|]. by eapply lookup_lt_Some.
  - destruct isi_obj as [h'|]; [|injection Hfix as _ _ <-; eauto].
    pose proof (iosapic_fixup_irq_cases w h' pcidev) as Hc.
    destruct (resolves_to w h' pcidev) as [[p' l']|] eqn:Hres.
    2:{ rewrite (Hc _ _ _ Hfix). eauto. }
    destruct (iosapic_fixup_irq_binds _ _ _ _ _ _ _ _ Hres Hfix)
      as (vi0 & vi0' & Hvi0 & _ & _ & _ & _ & Hbound & Hfree).
    destruct (irte vi0) as [q|] eqn:Hq.
    { destruct Hbound as [_ ->]; eauto. }
    destruct (Hfree eq_refl) as (_ & _ & _ & _ & Hisis & _).
    assert ((h', l') <> (h, l)) as Hne by (intros [= -> ->]; congruence).
    exists vi. split; [|done].
    by rewrite (deref_vi_isis _ _ _ Hisis), deref_vi_store_vi_ne.
  - apply iosapic_set_affinity_irq_world in Hrun
      as [->|(vi0 & a & Hvi0 & ->)]; [eauto|].
    destruct (decide (chip_data d = (h, l))) as [Heq|Hne].
    + rewrite Heq in *. assert (vi0 = vi) as -> by congruence.
      exists (set_txn_addr vi a). split; [|done].
      by eapply deref_vi_store_vi_eq.
    + exists vi. split; [|done]. by rewrite deref_vi_store_vi_ne.
Qed.

Lemma driver_step_keeps_controller w w' :
  driver_step w w' ->
  irt w' = irt w
  /\ forall h isi, isis w !! h = Some isi ->
       exists isi', isis w' !! h = Some isi' /\ isi_hpa isi' = isi_hpa isi.
Proof.
  intros Hstep. destruct Hstep as
    [dev log w hpa kz kc r w' log' Hrun
    |w isi_obj pcidev r pcidev' w' Hfix
    |dev log w d dest r d' w' log' Hrun].
  - apply iosapic_register_world in Hrun as [->|[isi ->]]; [eauto|].
    split; [done|]. intros h isi0 Hh. exists isi0. split; [|done].
    cbn [isis set_isis]. rewrite lookup_app_l; [done|]. by eapply lookup_lt_Some.
  - destruct isi_obj as [h'|]; [|injection Hfix as _ _ <-; eauto].
    pose proof (iosapic_fixup_irq_cases w h' pcidev) as Hc.
    destruct (resolves_to w h' pcidev) as [[p' l']|] eqn:Hres.
    2:{ rewrite (Hc _ _ _ Hfix). eauto. }
    destruct (iosapic_fixup_irq_binds _ _ _ _ _ _ _ _ Hres Hfix)
      as (vi0 & vi0' & Hvi0 & _ & _ & _ & _ & Hbound & Hfree).
    destruct (irte vi0) as [q|] eqn:Hq.
    { destruct Hbound as [_ ->]; eauto. }
    destruct (Hfree eq_refl) as (_ & _ & _ & Hirt & Hisis & _).
    split; [done|]. intros h isi Hh. rewrite Hisis.
    destruct (isis_store_vi_hpa w (h', l') vi0' h isi Hh) as (isi' & ? & ? & _).
    eauto.
  - apply iosapic_set_affinity_irq_world in Hrun
      as [->|(vi0 & a & Hvi0 & ->)]; [eauto|].
    split; [apply irt_store_vi|]. intros h isi Hh.
    destruct (isis_store_vi_hpa w (chip_data d) (set_txn_addr vi0 a) h isi Hh)
      as (isi' & ? & ? & _).
    eauto.
Qed.

Lemma driver_steps_keep_binding w w' h l vi p :
  rtc driver_step w w' ->
  deref_vi w (h, l) = Returns vi -> irte vi = Some p ->
  exists vi', deref_vi w' (h, l) = Returns vi'
              /\ irte vi' = Some p /\ txn_irq vi' = txn_irq vi.
Proof.
  intros Hsteps. revert vi. induction Hsteps as [w|w w1 w' Hstep _ IH];
    intros vi Hvi Hp; [eauto|].
  destruct (driver_step_keeps_binding _ _ _ _ _ _ Hstep Hvi Hp)
    as (vi1 & Hvi1 & Hp1 & Hirq1).
  destruct (IH vi1 Hvi1 Hp1) as (vi' & ? & ? & ?).
  exists vi'. split_and!; [done..|congruence].
Qed.

Lemma resolves_to_hpa w w' h pcidev :
  irt w' = irt w ->
  (forall isi, isis w !! h = Some isi ->
     exists isi', isis w' !! h = Some isi' /\ isi_hpa isi' = isi_hpa isi) ->
  forall x, resolves_to w h pcidev = Some x -> resolves_to w' h pcidev = Some x.
Proof.
  intros Hirt Hisis x. unfold resolves_to. rewrite Hirt.
  destruct (CONFIG_SUPERIO && _ && _); [done|].
  destruct (isis w !! h) as [isi|] eqn:Hisi; [|done].
  destruct (Hisis isi eq_refl) as (isi' & -> & Hhpa).
  cbn [mbind option_bind].
  assert (iosapic_xlate_pin (irt w) isi' pcidev
          = iosapic_xlate_pin (irt w) isi pcidev) as ->; [|done].
  unfold iosapic_xlate_pin, irt_find_irqline. by rewrite Hhpa.
Qed.

Lemma driver_steps_keep_resolution w w' h pcidev x :
  rtc driver_step w w' ->
  resolves_to w h pcidev = Some x -> resolves_to w' h pcidev = Some x.
Proof.
  intros Hsteps. induction Hsteps as [w|w w1 w' Hstep _ IH]; [done|].
  intros Hres. apply IH.
  destruct (driver_step_keeps_controller _ _ Hstep) as [Hirt Hisis].
  eapply resolves_to_hpa; eauto.
Qed.

End Binding.

(** * Further properties of the driver *)

(** ** Allocation and loading of the routing table *)

Lemma land_align8 x k :
  0 <= k -> 0 <= x < 2 ^ (k + 3) ->
  Z.land x (2 ^ (k + 3) - 8) = 8 * (x / 8).
Proof.
  intros Hk Hx.
  assert (2 ^ (k + 3) - 8 = Z.shiftl (Z.ones k) 3) as ->.
  { rewrite Z.shiftl_mul_pow2, Z.ones_equiv, Z.pow_add_r by lia.
    change (2 ^ 3) with 8. lia. }
  rewrite land_field by lia. change (2 ^ 3) with 8.
  rewrite Z.mod_small; [lia|]. split; [apply Z.div_pos; lia|].
  apply Z.div_lt_upper_bound; [lia|]. rewrite Z.pow_add_r in Hx by lia.
  change (2 ^ 3) with 8 in Hx. lia.
Qed.

Section Alloc.
Context `{kconfig} `{iosapic_private} `{pdc} `{kernel}.

Lemma ulong_small x : 0 <= x < 2 ^ BITS_PER_LONG -> ulong x = x.
Proof. intros Hx. unfold ulong. by apply Z.mod_small. Qed.

Lemma BITS_PER_LONG_cases : BITS_PER_LONG = 64 \/ BITS_PER_LONG = 32.
Proof. unfold BITS_PER_LONG. destruct CONFIG_64BIT; auto. Qed.

Lemma ulong_lnot_7 : ulong (Z.lnot 7) = 2 ^ BITS_PER_LONG - 8.
Proof. unfold ulong. by destruct BITS_PER_LONG_cases as [-> | ->]. Qed.

(** X1: iosapic_alloc_irt rounds the address kmalloc returns up to the
    next multiple of 8 and stays within the 8 spare bytes it asked for; a
    failed kmalloc (NULL) stays NULL and a successful one never becomes
    NULL. *)
Theorem iosapic_alloc_irt_aligned (num_entries : Z) :
  let a := kmalloc (ulong (ulong (sizeof_irt_entry * ulong num_entries) + 8)) in
  0 <= a -> a + 7 < 2 ^ BITS_PER_LONG ->
  iosapic_alloc_irt num_entries mod 8 = 0
  /\ a <= iosapic_alloc_irt num_entries < a + 8
  /\ (iosapic_alloc_irt num_entries = 0 <-> a = 0).
Proof.
  intros a Ha Hov. unfold iosapic_alloc_irt. fold a.
  rewrite ulong_lnot_7, ulong_small by lia.
  assert (Z.land (a + 7) (2 ^ BITS_PER_LONG - 8) = 8 * ((a + 7) / 8)) as ->.
  { destruct BITS_PER_LONG_cases as [Hb | Hb]; rewrite Hb in *.
    - apply (land_align8 _ 61); lia.
    - apply (land_align8 _ 29); lia. }
  pose proof (Z.div_mod (a + 7) 8 ltac:(lia)).
  pose proof (Z.mod_pos_bound (a + 7) 8 ltac:(lia)).
  split; [by rewrite Z.mul_comm, Z.mod_mul by lia|]. lia.
Qed.

Lemma s32_small x : - 2 ^ 31 <= x < 2 ^ 31 -> s32 x = x.
Proof. intros Hx. unfold s32. rewrite Z.mod_small; lia. Qed.

Lemma s32_range x : - 2 ^ 31 <= s32 x < 2 ^ 31.
Proof.
  unfold s32. pose proof (Z.mod_pos_bound (x + 2 ^ 31) (2 ^ 32) ltac:(lia)). lia.
Qed.

Lemma ulong_int n : 0 <= n < 2 ^ 31 -> ulong n = n.
Proof.
  intros Hn. apply ulong_small.
  destruct BITS_PER_LONG_cases as [-> | ->]; lia.
Qed.

Lemma iosapic_alloc_irt_NULL num_entries :
  kmalloc (ulong (ulong (sizeof_irt_entry * ulong num_entries) + 8)) = 0 ->
  iosapic_alloc_irt num_entries = 0.
Proof.
  intros Hk. unfold iosapic_alloc_irt. rewrite Hk, ulong_lnot_7.
  unfold ulong. by destruct BITS_PER_LONG_cases as [-> | ->].
Qed.

(** X2: whatever the firmware answers, a call of iosapic_init that returns
    leaves either no table at all (NULL irt_cell, zero irt_num_entry,
    nothing to search) or a table pointer that is not NULL with a count that
    is not zero. *)
Theorem iosapic_init_table_or_nothing (g g' : irt_globals) :
  iosapic_init g = Returns g' ->
  (irt_cell g' = 0 /\ irt_num_entry g' = 0 /\ irt_table g' = [])
  \/ (irt_cell g' <> 0 /\ irt_num_entry g' <> 0).
Proof.
  intros Hinit. pose proof (iosapic_init_consistent g g' Hinit) as Hc.
  destruct (decide (irt_cell g' = 0)) as [Hz|Hnz].
  - left. split; [done|]. split; [by apply Hc|].
    unfold irt_table. by rewrite Hz.
  - right. split; [done|]. intros Hn. by apply Hnz, Hc.
Qed.

(** X3: when the firmware reports n entries (0 < n < 2^31) and delivers
    them, and the allocation succeeds, iosapic_init publishes the aligned
    allocation as irt_cell, n as irt_num_entry, and the table the lookups
    search is the first n entries the firmware wrote: under PAT firmware
    whatever the fill call's status, under legacy firmware when it reports
    PDC_OK and no table was loaded before. *)
Theorem iosapic_init_loads_table (g : irt_globals) (n : Z) :
  0 < n < 2 ^ 31 -> iosapic_alloc_irt n <> 0 ->
  let table := iosapic_alloc_irt n in
  (is_pdc_pat = true -> (forall c, pdc_pat_get_irt_size c = (PDC_OK, n)) ->
     exists g' cell,
       iosapic_init g = Returns g'
       /\ irt_cell g' = table /\ irt_num_entry g' = n
       /\ irt_mem g' = (pdc_pat_get_irt table cell).2
       /\ irt_table g' = take (Z.to_nat n) (pdc_pat_get_irt table cell).2)
  /\ (is_pdc_pat = false -> irt_cell g = 0 ->
      pdc_pci_irt_size 0 = (PDC_OK, n) -> (pdc_pci_irt n 0 table).1 = PDC_OK ->
      exists g',
        iosapic_init g = Returns g'
        /\ irt_cell g' = table /\ irt_num_entry g' = n
        /\ irt_mem g' = (pdc_pci_irt n 0 table).2
        /\ irt_table g' = take (Z.to_nat n) (pdc_pci_irt n 0 table).2).
Proof.
  intros Hn Ha table.
  assert (Hs : s32 n = n) by (apply s32_small; lia).
  assert (Hu : ulong n = n) by (apply ulong_int; lia).
  assert (Hu0 : (n =? 0) = false) by (apply Z.eqb_neq; lia).
  assert (Ht0 : (table =? 0) = false) by (by apply Z.eqb_neq).
  split.
  - intros Hp Hsize.
    set (cell := if CONFIG_64BIT && is_pdc_pat
                 then if s32 pdc_pat_cell_get_number.1 =? PDC_OK
                      then pdc_pat_cell_get_number.2 else 0
                 else 0).
    destruct (pdc_pat_get_irt table cell) as [status mem] eqn:Hfill.
    eexists _, cell. rewrite iosapic_init_of_load. fold cell.
    unfold iosapic_load_irt. rewrite Hp, Hsize, Z.eqb_refl, Hu0, Hs.
    fold table. rewrite Ht0, Hfill. cbn [negb].
    cbn [mbind outcome_mbind mret outcome_mret snd]. rewrite Hu, Hu0.
    split; [reflexivity|]. cbn [irt_cell irt_num_entry irt_mem].
    split_and!; try done. unfold irt_table. cbn [irt_cell irt_num_entry irt_mem].
    by rewrite Ht0.
  - intros Hp Hg Hsize Hfill.
    destruct (pdc_pci_irt n 0 table) as [status mem] eqn:Hf.
    cbn [fst] in Hfill.
    eexists. rewrite iosapic_init_of_load.
    unfold iosapic_load_irt. rewrite Hp, Hg, Hsize. cbn [negb Z.eqb].
    rewrite Z.eqb_refl, Hu0, Hs. fold table. rewrite Ht0, Hf. cbn [negb].
    rewrite Hfill, Z.eqb_refl. cbn [negb].
    cbn [mbind outcome_mbind mret outcome_mret snd]. rewrite Hu, Hu0.
    split; [reflexivity|]. cbn [irt_cell irt_num_entry irt_mem].
    split_and!; try done. unfold irt_table. cbn [irt_cell irt_num_entry irt_mem].
    by rewrite Ht0.
Qed.

(** X4: when the size query succeeds with a non-zero count but kmalloc
    fails, iosapic_load_irt returns 0 before the table query is made and
    leaves *irt as it was, under either firmware; and iosapic_init then
    leaves no table (NULL irt_cell, zero count). *)
Theorem iosapic_load_irt_alloc_failure (g : irt_globals) (cell n : Z) :
  n <> 0 ->
  kmalloc (ulong (ulong (sizeof_irt_entry * ulong (s32 n)) + 8)) = 0 ->
  (is_pdc_pat = true -> (forall c, pdc_pat_get_irt_size c = (PDC_OK, n)) ->
     iosapic_load_irt g cell = Returns (0, irt_cell g, irt_mem g)
     /\ iosapic_init g =
        Returns {| irt_cell := 0; irt_num_entry := 0; irt_mem := irt_mem g |})
  /\ (is_pdc_pat = false -> pdc_pci_irt_size 0 = (PDC_OK, n) ->
      iosapic_load_irt g cell = Returns (0, irt_cell g, irt_mem g)
      /\ iosapic_init g =
         Returns {| irt_cell := 0; irt_num_entry := 0; irt_mem := irt_mem g |}).
Proof.
  intros Hn Hk. apply iosapic_alloc_irt_NULL in Hk. apply Z.eqb_neq in Hn.
  assert (Hpat : forall c, is_pdc_pat = true ->
            (forall c, pdc_pat_get_irt_size c = (PDC_OK, n)) ->
            iosapic_load_irt g c = Returns (0, irt_cell g, irt_mem g)).
  { intros c Hp Hsize. unfold iosapic_load_irt.
    rewrite Hp, Hsize, Z.eqb_refl, Hn, Hk. reflexivity. }
  assert (Hleg : forall c, is_pdc_pat = false ->
            pdc_pci_irt_size 0 = (PDC_OK, n) ->
            iosapic_load_irt g c = Returns (0, irt_cell g, irt_mem g)).
  { intros c Hp Hsize. unfold iosapic_load_irt. rewrite Hp.
    destruct (negb (irt_cell g =? 0)); [done|].
    rewrite Hsize, Z.eqb_refl, Hn, Hk. reflexivity. }
  split.
  - intros Hp Hsize. split; [by apply Hpat|].
    apply (iosapic_init_returns_0 g (irt_cell g)). intros c. by apply Hpat.
  - intros Hp Hsize. split; [by apply Hleg|].
    apply (iosapic_init_returns_0 g (irt_cell g)). intros c. by apply Hleg.
Qed.
End Alloc.

(** ** Lookups *)

Lemma lor_high32_inj h1 h2 :
  0 <= h1 < 2 ^ 32 -> 0 <= h2 < 2 ^ 32 ->
  Z.lor h1 0xffffffff00000000 = Z.lor h2 0xffffffff00000000 -> h1 = h2.
Proof.
  intros H1 H2 Heq.
  assert (Hlow : forall h, 0 <= h < 2 ^ 32 ->
            Z.land (Z.lor h 0xffffffff00000000) (Z.ones 32) = h).
  { intros h Hh. rewrite Z.land_lor_distr_l.
    change (Z.land 0xffffffff00000000 (Z.ones 32)) with 0.
    rewrite Z.lor_0_r, Z.land_ones by lia. by apply Z.mod_small. }
  rewrite <-(Hlow h1 H1), <-(Hlow h2 H2). by rewrite Heq.
Qed.

Section LookupMore.
Context `{kconfig} `{iosapic_private}.

Lemma COMPARE_IRTE_ADDR_inj e hpa1 hpa2 :
  0 <= hpa1 < 2 ^ BITS_PER_LONG -> 0 <= hpa2 < 2 ^ BITS_PER_LONG ->
  COMPARE_IRTE_ADDR e hpa1 = true -> COMPARE_IRTE_ADDR e hpa2 = true ->
  hpa1 = hpa2.
Proof.
  unfold COMPARE_IRTE_ADDR, BITS_PER_LONG. destruct CONFIG_64BIT.
  - intros _ _ H1%Z.eqb_eq H2%Z.eqb_eq. congruence.
  - intros Hr1 Hr2 H1%Z.eqb_eq H2%Z.eqb_eq.
    apply lor_high32_inj; [done..|congruence].
Qed.

Lemma irt_find_irqline_entry g isi slot pin n :
  irt_find_irqline g isi slot pin = Some n ->
  exists e, irt_table g !! n = Some e
            /\ irte_matches (isi_hpa isi) slot pin e = true.
Proof.
  unfold irt_find_irqline. rewrite irt_find_irqline_from_Some.
  intros (k & e & -> & Hk & Hm & _). eauto.
Qed.

(** X5: a routing entry is never found for two controllers: when lookups
    for two controllers (with addresses that fit an unsigned long) return
    the same entry, the two controllers have the same address, on 64-bit
    and on 32-bit kernels alike. *)
Theorem irt_find_irqline_one_controller (g : irt_globals)
    (isi1 isi2 : iosapic_info) (slot1 pin1 slot2 pin2 : Z) (n : nat) :
  0 <= isi_hpa isi1 < 2 ^ BITS_PER_LONG ->
  0 <= isi_hpa isi2 < 2 ^ BITS_PER_LONG ->
  irt_find_irqline g isi1 slot1 pin1 = Some n ->
  irt_find_irqline g isi2 slot2 pin2 = Some n ->
  isi_hpa isi1 = isi_hpa isi2.
Proof.
  intros Hr1 Hr2 (e1 & He1 & Hm1)%irt_find_irqline_entry
    (e2 & He2 & Hm2)%irt_find_irqline_entry.
  assert (e2 = e1) as -> by congruence.
  apply irte_matches_true in Hm1 as (_ & _ & _ & Hc1 & _).
  apply irte_matches_true in Hm2 as (_ & _ & _ & Hc2 & _).
  by eapply COMPARE_IRTE_ADDR_inj.
Qed.

End LookupMore.

(** ** Registration *)

Section RegisterMore.
Context `{kconfig} `{iosapic_private} `{pdc} `{kernel}.

Lemma IOSAPIC_IRDT_MAX_ENTRY_range ver : 0 <= IOSAPIC_IRDT_MAX_ENTRY ver <= 255.
Proof.
  unfold IOSAPIC_IRDT_MAX_ENTRY, IOSAPIC_MAX_ENTRY_MASK, IOSAPIC_MAX_ENTRY_SHIFT.
  change 0x00ff0000 with (Z.shiftl (Z.ones 8) 16). change 0x10 with 16.
  rewrite land_field, Z.shiftr_div_pow2, Z.div_mul by lia.
  pose proof (Z.mod_pos_bound (ver / 2 ^ 16) (2 ^ 8) ltac:(lia)).
  rewrite s32_small; lia.
Qed.

Lemma iosapic_register_scan_Some t : forall cnt hpa n,
  iosapic_register_scan t cnt hpa = Some n ->
  exists e, e ∈ t /\ COMPARE_IRTE_ADDR e hpa = true.
Proof.
  induction t as [|e t IH]; intros cnt hpa n; simpl; [done|].
  destruct (COMPARE_IRTE_ADDR e hpa) eqn:He.
  - intros _. exists e. split; [apply list_elem_of_here|done].
  - intros (e' & Hin & He')%IH. exists e'. split; [by apply list_elem_of_further|done].
Qed.

(** The controller iosapic_register builds from what it read. *)
Lemma iosapic_register_run dev log w hpa kz kc :
  let addr_ := ioremap_nocache hpa 4096 in
  let sel := EvWritel (u32 IOSAPIC_REG_VERSION) (addr_ + IOSAPIC_REG_SELECT) in
  let version := u32 (dev (log ++ [sel]) (addr_ + IOSAPIC_REG_WINDOW)) in
  let num_vectors := s32 (IOSAPIC_IRDT_MAX_ENTRY version + 1) in
  let isi :=
    {| addr := addr_; isi_hpa := hpa;
       isi_vector := init_vector (length (isis w)) <$> seq 0 (Z.to_nat num_vectors);
       isi_num_vectors := num_vectors; isi_status := 0;
       isi_version := version |} in
  let log' := log ++ [sel; EvReadl (addr_ + IOSAPIC_REG_WINDOW) version] in
  run dev (iosapic_register w hpa kz kc) log =
  match iosapic_register_scan (irt_table (irt w)) 0 hpa with
  | None => (Returns (None, w), log)
  | Some _ =>
      if kz
      then if kc
           then (Returns (Some (length (isis w)), set_isis w (isis w ++ [isi])),
                 log')
           else (Returns (None, w), log')
      else (Halt BUG, log)
  end.
Proof.
  intros addr_ sel version num_vectors isi log'. unfold iosapic_register.
  destruct (iosapic_register_scan _ _ _); [|done].
  destruct kz; [|done]. change (negb true) with false. cbv iota.
  rewrite run_bind, run_iosapic_read. cbv zeta iota.
  by destruct kc.
Qed.

(** What a registration that returns a controller has done. *)
Lemma iosapic_register_inv (dev : device) (log log' : list mmio_event)
    (w w' : world) (hpa : Z) (kzalloc_ok kcalloc_ok : bool) (h : nat) :
  run dev (iosapic_register w hpa kzalloc_ok kcalloc_ok) log
  = (Returns (Some h, w'), log') ->
  exists isi,
    h = length (isis w)
    /\ isis w' = isis w ++ [isi]
    /\ irt w' = irt w /\ txn w' = txn w /\ claimed w' = claimed w
    /\ isi_hpa isi = hpa /\ addr isi = ioremap_nocache hpa 4096
    /\ 1 <= isi_num_vectors isi <= 256
    /\ length (isi_vector isi) = Z.to_nat (isi_num_vectors isi)
    /\ (forall l vi, isi_vector isi !! l = Some vi ->
          irqline vi = Z.of_nat l /\ iosapic vi = h /\ irte vi = None)
    /\ log' = log ++ [EvWritel 1 (addr isi + IOSAPIC_REG_SELECT);
                      EvReadl (addr isi + IOSAPIC_REG_WINDOW) (isi_version isi)]
    /\ exists e, e ∈ irt_table (irt w) /\ COMPARE_IRTE_ADDR e hpa = true.
Proof.
  rewrite iosapic_register_run.
  destruct (iosapic_register_scan _ _ _) as [n|] eqn:Hscan; [|discriminate].
  destruct kzalloc_ok; [|discriminate]. destruct kcalloc_ok; [|discriminate].
  cbv zeta.
  remember (u32 (dev _ _)) as version eqn:Hver.
  pose proof (IOSAPIC_IRDT_MAX_ENTRY_range version) as Hmax.
  assert (Hnum : s32 (IOSAPIC_IRDT_MAX_ENTRY version + 1)
                 = IOSAPIC_IRDT_MAX_ENTRY version + 1) by (apply s32_small; lia).
  remember (init_vector (length (isis w)) <$> _) as vip eqn:Hvip.
  remember {| addr := _ |} as isi eqn:Hisi.
  intros [= <- <- <-]. exists isi. subst isi.
  cbn [isis set_isis irt txn claimed isi_hpa addr isi_num_vectors isi_vector
       isi_version].
  split_and!; try done.
  - lia.
  - lia.
  - subst vip. by rewrite length_fmap, length_seq.
  - intros l vi Hl. subst vip.
    assert (l < Z.to_nat (s32 (IOSAPIC_IRDT_MAX_ENTRY version + 1)))%nat.
    { apply lookup_lt_Some in Hl. by rewrite length_fmap, length_seq in Hl. }
    destruct (init_vectors_lookup _ _ _ _ Hl) as (-> & ? & ?).
    split; [|done]. apply u8_small. lia.
  - by eapply iosapic_register_scan_Some.
Qed.

(** X7: a registration that returns a controller appends it to the
    registry under the next free handle and changes nothing else (routing
    table, allocator, claimed interrupts, the controllers already there).
    The controller has between 1 and 256 lines, as many vector_info as
    lines, and line l carries exactly l as its irqline (the cast to
    unsigned char never truncates), its owner's handle and no routing entry.
    The only register traffic is the select of the version register and one
    read of the window, and some entry of the routing table names hpa. *)
Theorem iosapic_register_new_controller (dev : device) (log log' : list mmio_event)
    (w w' : world) (hpa : Z) (kzalloc_ok kcalloc_ok : bool) (h : nat) :
  run dev (iosapic_register w hpa kzalloc_ok kcalloc_ok) log
  = (Returns (Some h, w'), log') ->
  exists isi,
    h = length (isis w)
    /\ isis w' = isis w ++ [isi]
    /\ irt w' = irt w /\ txn w' = txn w /\ claimed w' = claimed w
    /\ isi_hpa isi = hpa /\ addr isi = ioremap_nocache hpa 4096
    /\ 1 <= isi_num_vectors isi <= 256
    /\ length (isi_vector isi) = Z.to_nat (isi_num_vectors isi)
    /\ (forall l vi, isi_vector isi !! l = Some vi ->
          irqline vi = Z.of_nat l /\ iosapic vi = h /\ irte vi = None)
    /\ log' = log ++ [EvWritel 1 (addr isi + IOSAPIC_REG_SELECT);
                      EvReadl (addr isi + IOSAPIC_REG_WINDOW) (isi_version isi)]
    /\ exists e, e ∈ irt_table (irt w) /\ COMPARE_IRTE_ADDR e hpa = true.
Proof. apply iosapic_register_inv. Qed.

(** X8: a registration that returns NULL leaves the world as it was; it
    has either touched no register (no entry of the routing table names
    hpa) or read the version register once and then failed to allocate the
    vector array.  The only way registration halts is BUG() on a failed
    kzalloc, before any register access. *)
Theorem iosapic_register_failure (dev : device) (log : list mmio_event)
    (w : world) (hpa : Z) (kzalloc_ok kcalloc_ok : bool) :
  let r := run dev (iosapic_register w hpa kzalloc_ok kcalloc_ok) log in
  (forall w' log', r = (Returns (None, w'), log') ->
     w' = w
     /\ ((log' = log
          /\ forall e, e ∈ irt_table (irt w) -> COMPARE_IRTE_ADDR e hpa = false)
         \/ (kcalloc_ok = false
             /\ exists ver,
                  log' = log ++
                    [EvWritel 1 (ioremap_nocache hpa 4096 + IOSAPIC_REG_SELECT);
                     EvReadl (ioremap_nocache hpa 4096 + IOSAPIC_REG_WINDOW) ver])))
  /\ (forall reason log', r = (Halt reason, log') ->
        reason = BUG /\ kzalloc_ok = false /\ log' = log).
Proof.
  intros r. unfold r. rewrite iosapic_register_run.
  destruct (iosapic_register_scan _ _ _) as [n|] eqn:Hscan.
  - destruct kzalloc_ok, kcalloc_ok; cbv zeta; (split; [|intros ? ? [=]; done]).
    + discriminate.
    + intros w' log' [= <- <-]. split; [done|]. right. split; [done|]. eauto.
    + discriminate.
    + discriminate.
  - split; [|discriminate]. intros w' log' [= <- <-]. split; [done|]. left.
    split; [done|]. by apply (iosapic_register_scan_None _ 0%nat).
Qed.
End RegisterMore.

(** ** The two words of a redirection entry *)

Lemma u32_range x : 0 <= u32 x < 2 ^ 32.
Proof. unfold u32. apply Z.mod_pos_bound. lia. Qed.

Lemma u32_lor a b : u32 (Z.lor a b) = Z.lor (u32 a) (u32 b).
Proof. unfold u32. rewrite <-!Z.land_ones by lia. apply Z.land_lor_distr_l. Qed.

Lemma lor_range32 a b :
  0 <= a < 2 ^ 32 -> 0 <= b < 2 ^ 32 -> 0 <= Z.lor a b < 2 ^ 32.
Proof.
  intros Ha Hb. rewrite <-(u32_small a Ha), <-(u32_small b Hb), <-u32_lor.
  apply u32_range.
Qed.

(** Below 2^k and a multiple of 2^k: no common bit. *)
Lemma lor_disjoint x y k :
  0 <= k -> 0 <= x < 2 ^ k -> Z.lor x (y * 2 ^ k) = x + y * 2 ^ k.
Proof.
  intros Hk Hx. symmetry. apply Z.add_nocarry_lor.
  apply Z.bits_inj'. intros n Hn. rewrite Z.land_spec, Z.bits_0.
  destruct (Z.lt_ge_cases n k).
  - by rewrite Z.mul_pow2_bits_low, andb_false_r by lia.
  - rewrite <-(Z.mod_small x (2 ^ k)) by lia.
    by rewrite Z.mod_pow2_bits_high by lia.
Qed.

(** The re-packing of the legacy branch in terms of the two byte fields. *)
Lemma legacy_word_fields a :
  let eid := (a / 2 ^ 20) mod 2 ^ 8 in
  let id := (a / 2 ^ 12) mod 2 ^ 8 in
  Z.lor (Z.shiftr (Z.land a 0x0ff00000) 4) (Z.shiftl (Z.land a 0x000ff000) 12)
  = eid * 2 ^ 16 + id * 2 ^ 24
  /\ Z.land a 0x0ffff000 = id * 2 ^ 12 + eid * 2 ^ 20.
Proof.
  intros eid id.
  pose proof (Z.mod_pos_bound (a / 2 ^ 20) (2 ^ 8) ltac:(lia)) as He.
  pose proof (Z.mod_pos_bound (a / 2 ^ 12) (2 ^ 8) ltac:(lia)) as Hi.
  fold eid in He. fold id in Hi. split.
  - rewrite eid_field, id_field. fold eid id. apply lor_disjoint; lia.
  - change 0x0ffff000 with (Z.shiftl (Z.ones 16) 12). rewrite land_field by lia.
    change (2 ^ 16) with (2 ^ 8 * 2 ^ 8).
    rewrite Z.rem_mul_r, Z.div_div by lia. change (2 ^ 12 * 2 ^ 8) with (2 ^ 20).
    fold eid id. lia.
Qed.

Section Words.
Context `{kconfig} `{iosapic_private} `{pdc} `{kernel}.

Lemma iosapic_set_irt_data_inv w vi dp0 dp1 :
  iosapic_set_irt_data w vi = Returns (dp0, dp1) ->
  exists p mode,
    deref_irte (irt w) (irte vi) = Returns p
    /\ (mode = 0 \/ mode = 0x2000 \/ mode = 0x8000 \/ mode = 0xa000)
    /\ dp0 = Z.lor mode (u32 (txn_data vi))
    /\ dp1 = if is_pdc_pat then u32 (txn_addr vi)
             else Z.lor (Z.shiftr (Z.land (txn_addr vi) 0x0ff00000) 4)
                        (Z.shiftl (Z.land (txn_addr vi) 0x000ff000) 12).
Proof.
  unfold iosapic_set_irt_data.
  destruct (deref_irte (irt w) (irte vi)) as [p|]; [|discriminate].
  cbn [mbind outcome_mbind mret outcome_mret]. cbv zeta.
  unfold IOSAPIC_IRDT_PO_LOW, IOSAPIC_IRDT_LEVEL_TRIG.
  intros Heq. exists p.
  exists (if Z.land (Z.shiftr (polarity_trigger p) IRT_EL_SHIFT) IRT_EL_MASK
             =? IRT_LEVEL_TRIG
          then Z.lor (if Z.land (polarity_trigger p) IRT_PO_MASK =? IRT_ACTIVE_LO
                      then Z.lor 0 0x2000 else 0) 0x8000
          else if Z.land (polarity_trigger p) IRT_PO_MASK =? IRT_ACTIVE_LO
               then Z.lor 0 0x2000 else 0).
  split; [done|]. split.
  { destruct (_ =? IRT_LEVEL_TRIG), (_ =? IRT_ACTIVE_LO); auto. }
  assert (Hd0 := f_equal (fun x => match x with Returns a => a.1 | _ => 0 end) Heq).
  assert (Hd1 := f_equal (fun x => match x with Returns a => a.2 | _ => 0 end) Heq).
  cbv beta iota delta [fst snd] in Hd0, Hd1. split; [done|].
  rewrite <-Hd1. destruct is_pdc_pat; [done|]. apply legacy_id_eid.
Qed.

(** X9: both words iosapic_set_irt_data computes fit the 32-bit registers,
    and the low word differs from the allocator's message data only in bit
    13 and bit 15: in particular the enable bit (bit 16) of the word unmask
    writes is the one of the message data, never one left by mask. *)
Theorem iosapic_set_irt_data_words (w : world) (vi : vector_info) (dp0 dp1 : Z) :
  iosapic_set_irt_data w vi = Returns (dp0, dp1) ->
  0 <= dp0 < 2 ^ 32 /\ 0 <= dp1 < 2 ^ 32
  /\ (forall n, n <> 13 -> n <> 15 ->
        Z.testbit dp0 n = Z.testbit (u32 (txn_data vi)) n)
  /\ Z.testbit dp0 16 = Z.testbit (u32 (txn_data vi)) 16.
Proof.
  intros (p & mode & _ & Hmode & -> & ->)%iosapic_set_irt_data_inv.
  assert (Hbits : forall n, n <> 13 -> n <> 15 ->
            Z.testbit (Z.lor mode (u32 (txn_data vi))) n
            = Z.testbit (u32 (txn_data vi)) n).
  { intros n H13 H15. rewrite Z.lor_spec.
    destruct (Z.lt_ge_cases n 0); [by rewrite !Z.testbit_neg_r by lia|].
    assert (Z.testbit mode n = false) as ->; [|done].
    destruct Hmode as [-> | [-> | [-> | ->]]].
    - apply Z.bits_0.
    - change 0x2000 with (2 ^ 13). rewrite Z.pow2_bits_eqb by lia.
      apply Z.eqb_neq. lia.
    - change 0x8000 with (2 ^ 15). rewrite Z.pow2_bits_eqb by lia.
      apply Z.eqb_neq. lia.
    - change 0xa000 with (Z.lor (2 ^ 13) (2 ^ 15)).
      rewrite Z.lor_spec, !Z.pow2_bits_eqb by lia.
      apply orb_false_iff. split; apply Z.eqb_neq; lia. }
  split; [|split; [|split]].
  - apply lor_range32; [|apply u32_range].
    destruct Hmode as [-> | [-> | [-> | ->]]]; lia.
  - destruct is_pdc_pat; [apply u32_range|].
    destruct (legacy_word_fields (txn_addr vi)) as [-> _].
    pose proof (Z.mod_pos_bound (txn_addr vi / 2 ^ 20) (2 ^ 8) ltac:(lia)).
    pose proof (Z.mod_pos_bound (txn_addr vi / 2 ^ 12) (2 ^ 8) ltac:(lia)).
    lia.
  - exact Hbits.
  - apply Hbits; lia.
Qed.

(** X10: under legacy firmware the high word carries bits 0x0ff00000 of the
    target address in its bits 0x00ff0000 and bits 0x000ff000 in its bits
    0xff000000, and nothing in its low 16 bits; moving the two fields back
    gives bits 0x0ffff000 of the address, so two target addresses get the
    same high word exactly when they agree on those bits. *)
Theorem iosapic_set_irt_data_legacy_fields (w : world) (vi : vector_info)
    (dp0 dp1 : Z) :
  is_pdc_pat = false ->
  iosapic_set_irt_data w vi = Returns (dp0, dp1) ->
  Z.land dp1 0x00ff0000 = Z.shiftr (Z.land (txn_addr vi) 0x0ff00000) 4
  /\ Z.land dp1 0xff000000 = Z.shiftl (Z.land (txn_addr vi) 0x000ff000) 12
  /\ Z.land dp1 0xffff = 0
  /\ Z.lor (Z.shiftl (Z.land dp1 0x00ff0000) 4)
           (Z.shiftr (Z.land dp1 0xff000000) 12)
     = Z.land (txn_addr vi) 0x0ffff000.
Proof.
  intros Hpat (p & mode & _ & _ & _ & ->)%iosapic_set_irt_data_inv.
  rewrite Hpat.
  destruct (legacy_word_fields (txn_addr vi)) as [-> ->].
  rewrite eid_field, id_field.
  set (eid := (txn_addr vi / 2 ^ 20) mod 2 ^ 8).
  set (id := (txn_addr vi / 2 ^ 12) mod 2 ^ 8).
  pose proof (Z.mod_pos_bound (txn_addr vi / 2 ^ 20) (2 ^ 8) ltac:(lia)) as He.
  pose proof (Z.mod_pos_bound (txn_addr vi / 2 ^ 12) (2 ^ 8) ltac:(lia)) as Hi.
  fold eid in He. fold id in Hi.
  assert (Hf1 : Z.land (eid * 2 ^ 16 + id * 2 ^ 24) 0x00ff0000 = eid * 2 ^ 16).
  { change 0x00ff0000 with (Z.shiftl (Z.ones 8) 16). rewrite land_field by lia.
    f_equal. replace (eid * 2 ^ 16 + id * 2 ^ 24)
      with ((eid + id * 2 ^ 8) * 2 ^ 16) by lia.
    rewrite Z.div_mul by lia.
    rewrite <-(Z.mod_unique (eid + id * 2 ^ 8) (2 ^ 8) id eid); lia. }
  assert (Hf2 : Z.land (eid * 2 ^ 16 + id * 2 ^ 24) 0xff000000 = id * 2 ^ 24).
  { change 0xff000000 with (Z.shiftl (Z.ones 8) 24). rewrite land_field by lia.
    f_equal.
    rewrite <-(Z.div_unique (eid * 2 ^ 16 + id * 2 ^ 24) (2 ^ 24) id (eid * 2 ^ 16))
      by lia.
    apply Z.mod_small. lia. }
  assert (Hf3 : Z.land (eid * 2 ^ 16 + id * 2 ^ 24) 0xffff = 0).
  { change 0xffff with (Z.shiftl (Z.ones 16) 0). rewrite land_field by lia.
    change (2 ^ 0) with 1. rewrite Z.div_1_r, Z.mul_1_r.
    replace (eid * 2 ^ 16 + id * 2 ^ 24)
      with ((eid + id * 2 ^ 8) * 2 ^ 16) by lia.
    apply Z.mod_mul. lia. }
  rewrite Hf1, Hf2, Hf3. split_and!; try done.
  rewrite Z.shiftl_mul_pow2, Z.shiftr_div_pow2 by lia.
  replace (id * 2 ^ 24) with (id * 2 ^ 12 * 2 ^ 12) by lia.
  rewrite Z.div_mul by lia.
  replace (eid * 2 ^ 16 * 2 ^ 4) with (eid * 2 ^ 20) by lia.
  rewrite Z.lor_comm. apply lor_disjoint; lia.
Qed.
End Words.

(** ** Mask and retarget *)

Section OperationsMore.
Context `{kconfig} `{iosapic_private} `{pdc} `{kernel}.

Lemma txn_store_vi w vip vi : txn (store_vi w vip vi) = txn w.
Proof. unfold store_vi. by destruct (isis w !! vip.1). Qed.

Lemma claimed_store_vi w vip vi : claimed (store_vi w vip vi) = claimed w.
Proof. unfold store_vi. by destruct (isis w !! vip.1). Qed.

Lemma run_iosapic_rd_irt_entry_words dev log w vi isp :
  deref_isi w (iosapic vi) = Returns isp ->
  exists d0 d1,
    run dev (iosapic_rd_irt_entry w vi) log =
    (Returns (d0, d1),
     log ++ [EvWritel (u32 (IOSAPIC_IRDT_ENTRY (irqline vi)))
                      (addr isp + IOSAPIC_REG_SELECT);
             EvReadl (addr isp + IOSAPIC_REG_WINDOW) d0;
             EvWritel (u32 (IOSAPIC_IRDT_ENTRY_HI (irqline vi)))
                      (addr isp + IOSAPIC_REG_SELECT);
             EvReadl (addr isp + IOSAPIC_REG_WINDOW) d1])
    /\ 0 <= d0 < 2 ^ 32 /\ 0 <= d1 < 2 ^ 32.
Proof.
  intros Hisp. unfold iosapic_rd_irt_entry.
  rewrite run_bind, Hisp, run_lift. cbv beta iota zeta.
  rewrite run_bind, run_iosapic_read. cbv beta iota zeta.
  rewrite run_bind, run_iosapic_read. cbv beta iota zeta. cbn [run mret mmio_mret].
  rewrite <-!app_assoc. cbn [app].
  eexists _, _. split; [reflexivity|].
  split; apply u32_range.
Qed.

(** X11: mask on a line of a registered controller, bound or not, reads
    both words of the line's redirection entry and writes them back with
    bit 16 (IOSAPIC_IRDT_ENABLE) set in the low word: every other bit of the
    low word and the whole high word go back as they were read. *)
Theorem iosapic_mask_irq_only_sets_enable (dev : device) (log : list mmio_event)
    (w : world) (d : irq_data) (vi : vector_info) (isp : iosapic_info) :
  deref_vi w (chip_data d) = Returns vi ->
  deref_isi w (iosapic vi) = Returns isp ->
  let win := addr isp + IOSAPIC_REG_WINDOW in
  let sel := addr isp + IOSAPIC_REG_SELECT in
  let lo := u32 (IOSAPIC_IRDT_ENTRY (irqline vi)) in
  let hi := u32 (IOSAPIC_IRDT_ENTRY_HI (irqline vi)) in
  exists d0 d1 d0' r0 r1,
    run dev (iosapic_mask_irq w d) log
    = (Returns tt,
       log ++ [EvWritel lo sel; EvReadl win d0;
               EvWritel hi sel; EvReadl win d1;
               EvWritel lo sel; EvWritel d0' win; EvReadl win r0;
               EvWritel hi sel; EvWritel d1 win; EvReadl win r1])
    /\ Z.testbit d0' 16 = true
    /\ (forall n, n <> 16 -> Z.testbit d0' n = Z.testbit d0 n)
    /\ 0 <= d0' < 2 ^ 32.
Proof.
  intros Hvi Hisp win sel lo hi.
  destruct (run_iosapic_rd_irt_entry_words dev log w vi isp Hisp)
    as (d0 & d1 & Hrd & Hd0 & _).
  destruct (run_iosapic_wr_irt_entry dev
              (log ++ [EvWritel lo sel; EvReadl win d0;
                       EvWritel hi sel; EvReadl win d1])
              w vi isp (Z.lor d0 IOSAPIC_IRDT_ENABLE) d1 Hisp) as (r0 & r1 & Hwr).
  exists d0, d1, (Z.lor d0 IOSAPIC_IRDT_ENABLE), r0, r1.
  split; [|split; [|split]].
  - unfold iosapic_mask_irq.
    rewrite run_bind, Hvi, run_lift, run_bind, Hrd. fold win sel lo hi in Hwr |- *.
    rewrite Hwr, <-app_assoc. reflexivity.
  - rewrite Z.lor_spec. change IOSAPIC_IRDT_ENABLE with (2 ^ 16).
    rewrite Z.pow2_bits_eqb by lia. apply orb_true_r.
  - intros n Hn. rewrite Z.lor_spec. change IOSAPIC_IRDT_ENABLE with (2 ^ 16).
    destruct (Z.lt_ge_cases n 0); [by rewrite !Z.testbit_neg_r by lia|].
    rewrite Z.pow2_bits_eqb by lia.
    assert ((16 =? n) = false) as -> by (apply Z.eqb_neq; lia).
    apply orb_false_r.
  - apply lor_range32; [done|]. change IOSAPIC_IRDT_ENABLE with (2 ^ 16). lia.
Qed.

Lemma run_iosapic_set_affinity_irq dev log w d dest vi isp p :
  0 <= s32 (cpu_check_affinity d dest) ->
  deref_vi w (chip_data d) = Returns vi ->
  deref_isi w (iosapic vi) = Returns isp ->
  deref_irte (irt w) (irte vi) = Returns p ->
  let dest_cpu := s32 (cpu_check_affinity d dest) in
  let vi' := set_txn_addr vi (ulong (txn_affinity_addr (d_irq d) dest_cpu)) in
  exists log',
    run dev (iosapic_set_affinity_irq w d dest) log
    = (Returns (0, {| d_irq := d_irq d; affinity := cpumask_of dest_cpu;
                      chip_data := chip_data d |},
                store_vi w (chip_data d) vi'), log').
Proof.
  intros Hcpu Hvi Hisp Hp dest_cpu vi'.
  set (w' := store_vi w (chip_data d) vi').
  destruct (deref_isi_store_vi w (chip_data d) vi' _ isp Hisp)
    as (isp' & Hisp' & _). fold w' in Hisp'.
  assert (Hisp'' : deref_isi w' (iosapic vi') = Returns isp') by done.
  destruct (iosapic_set_irt_data_Returns w vi' p Hp) as (dummy_d0 & d1' & Hdata).
  assert (Hdata' : iosapic_set_irt_data w' vi' = Returns (dummy_d0, d1')).
  { unfold w'. by rewrite iosapic_set_irt_data_store_vi. }
  destruct (run_iosapic_rd_irt_entry dev log w' vi' isp' Hisp'')
    as (d0 & d1 & Hrd).
  destruct (run_iosapic_wr_irt_entry dev
              (log ++ [EvWritel (u32 (IOSAPIC_IRDT_ENTRY (irqline vi')))
                         (addr isp' + IOSAPIC_REG_SELECT);
                       EvReadl (addr isp' + IOSAPIC_REG_WINDOW) d0;
                       EvWritel (u32 (IOSAPIC_IRDT_ENTRY_HI (irqline vi')))
                         (addr isp' + IOSAPIC_REG_SELECT);
                       EvReadl (addr isp' + IOSAPIC_REG_WINDOW) d1])
              w' vi' isp' d0 d1' Hisp'') as (r0 & r1 & Hwr).
  eexists. unfold iosapic_set_affinity_irq. fold dest_cpu.
  destruct (dest_cpu <? 0) eqn:Hneg; [apply Z.ltb_lt in Hneg; lia|].
  cbn [chip_data d_irq]. rewrite run_bind, Hvi, run_lift.
  fold vi' w'. rewrite run_bind, Hrd, run_bind, Hdata', run_lift, run_bind, Hwr.
  cbn [run mret mmio_mret]. reflexivity.
Qed.

(** X12: the retarget operation either refuses or retargets one line.
    When cpu_check_affinity returns a negative number it returns -1 and has
    touched nothing: no register, no vector_info, not the affinity mask.
    When it returns a processor, on a bound line, the call returns 0, sets
    the affinity mask to cpumask_of(processor) and replaces txn_addr of that
    line by txn_affinity_addr(irq, processor); routing entry, processor
    interrupt, message data and EOI address and data of the line, every
    other line, the routing table, the allocator and the claimed interrupts
    are as before. *)
Theorem iosapic_set_affinity_irq_effect (dev : device) (log : list mmio_event)
    (w : world) (d : irq_data) (dest : Z) :
  let dest_cpu := s32 (cpu_check_affinity d dest) in
  (dest_cpu < 0 ->
     run dev (iosapic_set_affinity_irq w d dest) log = (Returns (-1, d, w), log))
  /\ (0 <= dest_cpu ->
      forall vi isp p,
        deref_vi w (chip_data d) = Returns vi ->
        deref_isi w (iosapic vi) = Returns isp ->
        deref_irte (irt w) (irte vi) = Returns p ->
        exists d' w' vi' log',
          run dev (iosapic_set_affinity_irq w d dest) log
          = (Returns (0, d', w'), log')
          /\ affinity d' = cpumask_of dest_cpu
          /\ d_irq d' = d_irq d /\ chip_data d' = chip_data d
          /\ deref_vi w' (chip_data d) = Returns vi'
          /\ txn_addr vi' = ulong (txn_affinity_addr (d_irq d) dest_cpu)
          /\ irte vi' = irte vi /\ txn_irq vi' = txn_irq vi
          /\ txn_data vi' = txn_data vi /\ eoi_addr vi' = eoi_addr vi
          /\ eoi_data vi' = eoi_data vi /\ irqline vi' = irqline vi
          /\ iosapic vi' = iosapic vi
          /\ (forall vip, vip <> chip_data d -> deref_vi w' vip = deref_vi w vip)
          /\ irt w' = irt w /\ txn w' = txn w /\ claimed w' = claimed w).
Proof.
  intros dest_cpu. split.
  - intros Hneg. unfold iosapic_set_affinity_irq. fold dest_cpu.
    apply Z.ltb_lt in Hneg. by rewrite Hneg.
  - intros Hcpu vi isp p Hvi Hisp Hp.
    destruct (run_iosapic_set_affinity_irq dev log w d dest vi isp p
                Hcpu Hvi Hisp Hp) as (log' & Hrun).
    eexists _, _,
      (set_txn_addr vi (ulong (txn_affinity_addr (d_irq d) dest_cpu))), log'.
    split; [exact Hrun|].
    cbn [affinity d_irq chip_data].
    split_and!; try done.
    + by eapply deref_vi_store_vi_eq.
    + intros vip Hne. by apply deref_vi_store_vi_ne.
    + apply irt_store_vi.
    + apply txn_store_vi.
    + apply claimed_store_vi.
Qed.
End OperationsMore.

(** ** Binding: the ways out of iosapic_fixup_irq *)

Section BindingMore.
Context `{kconfig} `{iosapic_private} `{pdc} `{kernel}.

(** X13: iosapic_fixup_irq returns -1 and leaves the device and the whole
    driver state untouched when the controller handle is NULL, and, for a
    device that is not a SuperIO device, when the interrupt-pin byte of the
    device reads 0 or the routing table has no entry for its translated
    slot and pin. *)
Theorem iosapic_fixup_irq_not_connected (w : world) (pcidev : pci_dev) :
  iosapic_fixup_irq w None pcidev = Returns (-1, pcidev, w)
  /\ forall h isi,
       isis w !! h = Some isi ->
       CONFIG_SUPERIO && is_superio_device pcidev = false ->
       (u8 (cfg_interrupt_pin pcidev) = 0
        \/ iosapic_xlate_pin (irt w) isi pcidev = None) ->
       iosapic_fixup_irq w (Some h) pcidev = Returns (-1, pcidev, w).
Proof.
  split; [done|]. intros h isi Hisi Hsup Hnone.
  assert (Hx : iosapic_xlate_pin (irt w) isi pcidev = None).
  { destruct Hnone as [Hpin|]; [|done].
    unfold iosapic_xlate_pin. by rewrite Hpin. }
  unfold iosapic_fixup_irq. rewrite Hsup. cbn [andb].
  unfold deref_isi. rewrite Hisi. cbn [mbind outcome_mbind]. by rewrite Hx.
Qed.

(** X14: with CONFIG_SUPERIO, a SuperIO device whose function is not the
    USB function gets the interrupt superio_fixup_irq reports: the call
    looks neither at the controller handle nor at the routing table and
    changes no driver state.  For the USB function the routing table is
    consulted, and when it has no entry the call returns -1 although
    pcidev->irq has already been set to the SuperIO interrupt. *)
Theorem iosapic_fixup_irq_superio (w : world) (h : nat) (pcidev : pci_dev) :
  CONFIG_SUPERIO = true -> is_superio_device pcidev = true ->
  let sirq := u32 (superio_fixup_irq pcidev) in
  (PCI_FUNC (devfn pcidev) <> SUPERIO_USB_FN ->
     iosapic_fixup_irq w (Some h) pcidev
     = Returns (s32 sirq, set_irq pcidev sirq, w))
  /\ (PCI_FUNC (devfn pcidev) = SUPERIO_USB_FN ->
      forall isi, isis w !! h = Some isi ->
        iosapic_xlate_pin (irt w) isi pcidev = None ->
        iosapic_fixup_irq w (Some h) pcidev
        = Returns (-1, set_irq pcidev sirq, w)).
Proof.
  intros Hcfg Hsio sirq. unfold iosapic_fixup_irq. rewrite Hcfg, Hsio.
  cbn [andb]. cbn [devfn set_irq]. split.
  - intros Hfn. apply Z.eqb_neq in Hfn. rewrite Hfn. reflexivity.
  - intros Hfn isi Hisi Hx. rewrite Hfn, Z.eqb_refl. cbn [negb].
    unfold deref_isi. rewrite Hisi. cbn [mbind outcome_mbind].
    rewrite iosapic_xlate_pin_set_irq. by rewrite Hx.
Qed.

(** What a call that gets to a free line does. *)
Lemma iosapic_fixup_irq_free_line (w : world) (h p l : nat)
    (pcidev : pci_dev) (vi : vector_info) :
  resolves_to w h pcidev = Some (p, l) ->
  deref_vi w (h, l) = Returns vi -> irte vi = None ->
  let q := s32 (txn_alloc_irq (txn w) 8).1 in
  let t1 := (txn_alloc_irq (txn w) 8).2 in
  (q < 0 -> iosapic_fixup_irq w (Some h) pcidev = Halt PANIC)
  /\ (0 <= q ->
      exists isi w',
        isis w !! h = Some isi
        /\ iosapic_fixup_irq w (Some h) pcidev
           = Returns (q, set_irq pcidev q, w')
        /\ deref_vi w' (h, l)
           = Returns {| iosapic := iosapic vi; irte := Some p;
                        eoi_addr := addr isi + IOSAPIC_REG_EOI;
                        eoi_data := u32 (cpu_to_le32 (u32 (txn_alloc_data q)));
                        txn_irq := q;
                        txn_addr := ulong (txn_alloc_addr t1 q).1;
                        txn_data := u32 (txn_alloc_data q);
                        status := status vi; irqline := irqline vi |}
        /\ txn w' = (txn_alloc_addr t1 q).2
        /\ claimed w' = (q, (h, l)) :: claimed w
        /\ irt w' = irt w
        /\ forall vip, vip <> (h, l) -> deref_vi w' vip = deref_vi w vip).
Proof.
  intros Hres Hvi Hfree q t1.
  pose proof (iosapic_fixup_irq_cases w h pcidev) as Hc. rewrite Hres in Hc.
  destruct Hc as (isi & Hisi & ->). rewrite Hvi. cbn [mbind outcome_mbind].
  rewrite Hfree. unfold bind_vector. unfold q, t1.
  destruct (txn_alloc_irq (txn w) 8) as [q0 t] eqn:Halloc. cbn [fst snd].
  split.
  - intros Hneg. apply Z.ltb_lt in Hneg. by rewrite Hneg.
  - intros Hpos. pose proof (s32_range q0) as Hrange.
    assert (Hu : u32 (s32 q0) = s32 q0) by (apply u32_small; lia).
    apply Z.ltb_ge in Hpos. rewrite Hpos.
    destruct (txn_alloc_addr t (s32 q0)) as [a t2] eqn:Haddr. cbn [fst snd].
    cbn [mret outcome_mret mbind outcome_mbind txn_irq].
    rewrite Hu, (s32_small (s32 q0)) by lia.
    exists isi. eexists. split; [done|]. split; [reflexivity|].
    cbn [txn claimed irt].
    rewrite irt_store_vi, claimed_store_vi.
    split_and!; try done.
    + erewrite deref_vi_isis; [by eapply deref_vi_store_vi_eq|done].
    + intros vip Hne.
      erewrite deref_vi_isis; [by apply deref_vi_store_vi_ne|done].
Qed.

(** X15: a call that gets to a free line asks the allocator for one
    processor interrupt.  If the allocator returns a negative number the
    call panics.  Otherwise the call returns that interrupt and stores it
    in pcidev->irq; the line now holds the routing entry, the interrupt,
    the target address and message data the allocator gives for it, the
    address of its controller's EOI register and the byte-swapped message
    data; the interrupt is claimed for the line; and the routing table and
    every other line are as before. *)
Theorem iosapic_fixup_irq_binds_free_line (w : world) (h p l : nat)
    (pcidev : pci_dev) (vi : vector_info) :
  resolves_to w h pcidev = Some (p, l) ->
  deref_vi w (h, l) = Returns vi -> irte vi = None ->
  let q := s32 (txn_alloc_irq (txn w) 8).1 in
  let t1 := (txn_alloc_irq (txn w) 8).2 in
  (q < 0 -> iosapic_fixup_irq w (Some h) pcidev = Halt PANIC)
  /\ (0 <= q ->
      exists isi w',
        isis w !! h = Some isi
        /\ iosapic_fixup_irq w (Some h) pcidev
           = Returns (q, set_irq pcidev q, w')
        /\ deref_vi w' (h, l)
           = Returns {| iosapic := iosapic vi; irte := Some p;
                        eoi_addr := addr isi + IOSAPIC_REG_EOI;
                        eoi_data := u32 (cpu_to_le32 (u32 (txn_alloc_data q)));
                        txn_irq := q;
                        txn_addr := ulong (txn_alloc_addr t1 q).1;
                        txn_data := u32 (txn_alloc_data q);
                        status := status vi; irqline := irqline vi |}
        /\ txn w' = (txn_alloc_addr t1 q).2
        /\ claimed w' = (q, (h, l)) :: claimed w
        /\ irt w' = irt w
        /\ forall vip, vip <> (h, l) -> deref_vi w' vip = deref_vi w vip).
Proof. apply iosapic_fixup_irq_free_line. Qed.

(** C6: the call of iosapic_fixup_irq that gets to a line first, while
    the line is free, performs the binding: it stores the routing entry,
    takes the processor interrupt from txn_alloc_irq (and panics when there
    is none), the target address and message data from txn_alloc_addr and
    txn_alloc_data for that interrupt, sets the EOI address and data, and
    claims the interrupt for the line; nothing else changes.  A call that
    gets to a bound line binds nothing: it changes no driver state and
    returns the interrupt of the line.  After a call that returned,
    whatever the driver does (registrations, bindings, retargeting), the
    line keeps that routing entry and that processor interrupt, and every
    later call that gets to the line, for the same or for another device,
    changes nothing and returns that processor interrupt. *)
Theorem iosapic_fixup_irq_first_binding_wins (w : world) (h l p1 : nat)
    (dev1 : pci_dev) :
  resolves_to w h dev1 = Some (p1, l) ->
  let q := s32 (txn_alloc_irq (txn w) 8).1 in
  let t1 := (txn_alloc_irq (txn w) 8).2 in
  (forall vi0, deref_vi w (h, l) = Returns vi0 -> irte vi0 = None ->
     (q < 0 -> iosapic_fixup_irq w (Some h) dev1 = Halt PANIC)
     /\ (0 <= q ->
         exists isi w1,
           isis w !! h = Some isi
           /\ iosapic_fixup_irq w (Some h) dev1
              = Returns (q, set_irq dev1 q, w1)
           /\ deref_vi w1 (h, l)
              = Returns {| iosapic := iosapic vi0; irte := Some p1;
                           eoi_addr := addr isi + IOSAPIC_REG_EOI;
                           eoi_data := u32 (cpu_to_le32 (u32 (txn_alloc_data q)));
                           txn_irq := q;
                           txn_addr := ulong (txn_alloc_addr t1 q).1;
                           txn_data := u32 (txn_alloc_data q);
                           status := status vi0; irqline := irqline vi0 |}
           /\ txn w1 = (txn_alloc_addr t1 q).2
           /\ claimed w1 = (q, (h, l)) :: claimed w
           /\ irt w1 = irt w
           /\ forall vip, vip <> (h, l) -> deref_vi w1 vip = deref_vi w vip))
  /\ (forall vi0, deref_vi w (h, l) = Returns vi0 -> is_Some (irte vi0) ->
        iosapic_fixup_irq w (Some h) dev1
        = Returns (s32 (u32 (txn_irq vi0)), set_irq dev1 (u32 (txn_irq vi0)), w))
  /\ (forall (r1 : Z) (dev1' : pci_dev) (w1 w2 : world) (dev2 : pci_dev)
             (p2 : nat),
        iosapic_fixup_irq w (Some h) dev1 = Returns (r1, dev1', w1) ->
        rtc driver_step w1 w2 ->
        resolves_to w2 h dev2 = Some (p2, l) ->
        exists vi0 vi1 vi2,
          deref_vi w (h, l) = Returns vi0
          /\ deref_vi w1 (h, l) = Returns vi1
          /\ deref_vi w2 (h, l) = Returns vi2
          /\ (irte vi0 = None ->
               irte vi1 = Some p1 /\ 0 <= txn_irq vi1
               /\ txn_irq vi1 = q
               /\ txn_data vi1 = u32 (txn_alloc_data (txn_irq vi1))
               /\ eoi_data vi1 = u32 (cpu_to_le32 (txn_data vi1))
               /\ claimed w1 = (txn_irq vi1, (h, l)) :: claimed w)
          /\ (is_Some (irte vi0) -> vi1 = vi0 /\ w1 = w)
          /\ is_Some (irte vi1)
          /\ irte vi2 = irte vi1
          /\ txn_irq vi2 = txn_irq vi1
          /\ r1 = s32 (u32 (txn_irq vi1))
          /\ iosapic_fixup_irq w2 (Some h) dev2
              = Returns (r1, set_irq dev2 (u32 (txn_irq vi1)), w2)
          /\ iosapic_fixup_irq w2 (Some h) dev1 = Returns (r1, dev1', w2)).
Proof.
  intros Hres1 q t1. split; [|split].
  - intros vi0 Hvi0 Hfree. by apply (iosapic_fixup_irq_free_line w h p1 l dev1 vi0).
  - intros vi0 Hvi0 [p Hp]. by eapply iosapic_fixup_irq_bound.
  - intros r1 dev1' w1 w2 dev2 p2 Hfix1 Hsteps Hres2.
    destruct (iosapic_fixup_irq_binds _ _ _ _ _ _ _ _ Hres1 Hfix1)
      as (vi0 & vi1 & Hvi0 & Hvi1 & [p Hp] & -> & -> & Hbound & Hfree).
    destruct (driver_steps_keep_binding _ _ _ _ _ _ Hsteps Hvi1 Hp)
      as (vi2 & Hvi2 & Hp2 & Hirq2).
    assert (Hres1' : resolves_to w2 h dev1 = Some (p1, l)).
    { eapply driver_steps_keep_resolution; [|exact Hres1].
      eapply rtc_l; [|exact Hsteps]. by eapply step_fixup_irq. }
    exists vi0, vi1, vi2. split_and!; try done.
    + intros Hnone. destruct (Hfree Hnone) as (? & ? & ? & _ & _ & ? & ?).
      split_and!; try done.
      destruct (Z.lt_ge_cases q 0) as [Hneg|Hpos].
      * destruct (iosapic_fixup_irq_free_line w h p1 l dev1 vi0 Hres1 Hvi0 Hnone)
          as [Hpanic _]. fold q in Hpanic. rewrite (Hpanic Hneg) in Hfix1.
        discriminate.
      * destruct (iosapic_fixup_irq_free_line w h p1 l dev1 vi0 Hres1 Hvi0 Hnone)
          as [_ Hbind]. fold q t1 in Hbind.
        destruct (Hbind Hpos) as (isi & w1' & _ & Hfix & Hvi1' & _).
        rewrite Hfix in Hfix1.
        assert (w1' = w1) as ->.
        { apply (f_equal (fun o => match o with
                                   | Returns (_, _, x) => Some x
                                   | Halt _ => None
                                   end)) in Hfix1. by apply (inj Some) in Hfix1. }
        rewrite Hvi1 in Hvi1'.
        apply (f_equal (fun o => match o with
                                 | Returns v => txn_irq v
                                 | Halt _ => 0
                                 end)) in Hvi1'. exact Hvi1'.
    + congruence.
    + rewrite <-Hirq2. by eapply iosapic_fixup_irq_bound.
    + rewrite <-Hirq2. by eapply iosapic_fixup_irq_bound.
Qed.
End BindingMore.

(** [dev_a] is bound first and gets processor interrupt 64; [dev_b], which
    shares its line, is given the same interrupt and changes nothing. *)
Lemma iosapic_fixup_irq_first_binding_wins_witness :
  @iosapic_fixup_irq Platform.cfg64 Platform.hdr Platform.krn
    Platform.world_bound (Some 0%nat) Platform.dev_b
  = Returns (64, set_irq Platform.dev_b 64, Platform.world_bound).
Proof.
  destruct (@iosapic_fixup_irq_first_binding_wins Platform.cfg64 Platform.hdr
    Platform.pat Platform.krn Platform.world_free 0%nat 0%nat 0%nat
    Platform.dev_a eq_refl) as (_ & _ & Hlater).
  destruct (Hlater 64 (set_irq Platform.dev_a 64) Platform.world_bound
              Platform.world_bound Platform.dev_b 0%nat
              eq_refl (rtc_refl _ _) eq_refl)
    as (vi0 & vi1 & vi2 & _ & Hvi1 & _ & _ & _ & _ & _ & _ & _ & Hfix & _).
  injection Hvi1 as <-. exact Hfix.
Defined.


(** ** The state invariant *)

Section InvariantProofs.
Context `{kconfig} `{iosapic_private} `{pdc} `{kernel}.

Lemma iosapic_register_None_world dev log w hpa kz kc w' log' :
  run dev (iosapic_register w hpa kz kc) log = (Returns (None, w'), log') ->
  w' = w.
Proof.
  rewrite iosapic_register_run.
  destruct (iosapic_register_scan _ _ _); [|by intros [= <- _]].
  destruct kz; [|discriminate]. destruct kc; [discriminate|].
  cbv zeta. by intros [= <- _].
Qed.

Lemma isis_store_vi_lookup w h l v h2 isi2 :
  isis (store_vi w (h, l) v) !! h2 = Some isi2 ->
  exists isi, isis w !! h2 = Some isi
    /\ addr isi2 = addr isi /\ isi_hpa isi2 = isi_hpa isi
    /\ isi_num_vectors isi2 = isi_num_vectors isi
    /\ isi_vector isi2
       = if decide (h2 = h) then <[l := v]> (isi_vector isi) else isi_vector isi.
Proof.
  unfold store_vi. cbn [fst snd].
  destruct (isis w !! h) as [isi0|] eqn:Hh.
  - cbn [isis set_isis]. case_decide as Heq.
    + subst h2. rewrite list_lookup_insert_eq by (by eapply lookup_lt_Some).
      intros [= <-]. exists isi0. by split_and!.
    + rewrite list_lookup_insert_ne by done. intros Hl. exists isi2. by split_and!.
  - intros Hl. exists isi2. case_decide as Heq; [congruence|]. by split_and!.
Qed.

Lemma vector_ok_mono w w' h isi isi' l vi :
  irt w' = irt w -> isi_hpa isi' = isi_hpa isi -> addr isi' = addr isi ->
  (forall x, x ∈ claimed w -> x ∈ claimed w') ->
  vector_ok w h isi l vi -> vector_ok w' h isi' l vi.
Proof.
  intros Hirt Hhpa Haddr Hcl (Hh & Hl & Hb). split; [done|]. split; [done|].
  destruct (irte vi) as [p|]; [|done].
  destruct Hb as (e & ? & ? & ? & ? & [? ?] & ? & ?). exists e.
  rewrite Hirt, Hhpa, Haddr. split_and!; auto.
Qed.

Lemma iosapic_xlate_pin_entry g isi pcidev p :
  iosapic_xlate_pin g isi pcidev = Some p ->
  exists e, irt_table g !! p = Some e
            /\ irte_tags_ok e = true
            /\ COMPARE_IRTE_ADDR e (isi_hpa isi) = true.
Proof.
  unfold iosapic_xlate_pin. destruct (_ =? 0); [done|].
  assert (forall slot pin, irt_find_irqline g isi slot pin = Some p ->
            exists e, irt_table g !! p = Some e
                      /\ irte_tags_ok e = true
                      /\ COMPARE_IRTE_ADDR e (isi_hpa isi) = true) as Hfind.
  { intros slot pin (e & He & Hm)%irt_find_irqline_entry. exists e.
    split; [done|]. unfold irte_matches in Hm.
    by apply andb_true_iff in Hm as [[? ?]%andb_true_iff _]. }
  destruct (bus pcidev); apply Hfind.
Qed.

Lemma resolves_to_entry w h pcidev p l :
  resolves_to w h pcidev = Some (p, l) ->
  exists isi e,
    isis w !! h = Some isi /\ irt_table (irt w) !! p = Some e
    /\ Z.to_nat (u8 (dest_iosapic_intin e)) = l
    /\ irte_tags_ok e = true /\ COMPARE_IRTE_ADDR e (isi_hpa isi) = true.
Proof.
  unfold resolves_to. destruct (_ && _ && _); [done|].
  destruct (isis w !! h) as [isi|]; [|done]. cbn [mbind option_bind].
  destruct (iosapic_xlate_pin (irt w) isi pcidev) as [p'|] eqn:Hx; [|done].
  cbn [mbind option_bind].
  destruct (irt_table (irt w) !! p') as [e|] eqn:He; [|done].
  cbn [mbind option_bind]. intros [= <- <-].
  destruct (iosapic_xlate_pin_entry _ _ _ _ Hx) as (e' & He' & ? & ?).
  assert (e' = e) as -> by congruence. exists isi, e. by split_and!.
Qed.

(** Everything bind_vector stores. *)
Lemma bind_vector_inv w isi vip vi p vi' w' :
  bind_vector w isi vip vi p = Returns (vi', w') ->
  irte vi' = Some p /\ 0 <= txn_irq vi' < 2 ^ 31
  /\ irqline vi' = irqline vi /\ iosapic vi' = iosapic vi
  /\ eoi_addr vi' = addr isi + IOSAPIC_REG_EOI
  /\ irt w' = irt w
  /\ isis w' = isis (store_vi w vip vi')
  /\ claimed w' = (txn_irq vi', vip) :: claimed w.
Proof.
  intros Hb. destruct (bind_vector_Returns _ _ _ _ _ _ _ Hb)
    as (? & ? & ? & ? & (_ & ? & _) & ? & ? & ?).
  split_and!; try done.
  unfold bind_vector in Hb.
  destruct (txn_alloc_irq (txn w) 8) as [q t].
  destruct (s32 q <? 0); [discriminate|].
  destruct (txn_alloc_addr t (s32 q)) as [a t'].
  cbn [mret outcome_mret] in Hb.
  apply (f_equal (fun o => match o with
                           | Returns x => txn_irq x.1
                           | Halt _ => 0
                           end)) in Hb.
  cbn [fst txn_irq] in Hb. rewrite <-Hb. apply s32_range.
Qed.

(** One line of one controller is replaced. *)
Lemma controllers_ok_update w w' h l vi v' :
  (forall h isi, isis w !! h = Some isi -> controller_ok w h isi) ->
  irt w' = irt w -> isis w' = isis (store_vi w (h, l) v') ->
  (forall x, x ∈ claimed w -> x ∈ claimed w') ->
  deref_vi w (h, l) = Returns vi ->
  (forall isi, isis w !! h = Some isi -> vector_ok w' h isi l v') ->
  forall h2 isi2, isis w' !! h2 = Some isi2 -> controller_ok w' h2 isi2.
Proof.
  intros Hok Hirt Hisis Hcl Hvi Hnew h2 isi2 Hl2. rewrite Hisis in Hl2.
  destruct (isis_store_vi_lookup _ _ _ _ _ _ Hl2)
    as (isi & Hisi & Haddr & Hhpa & Hnum & Hvec).
  destruct (Hok h2 isi Hisi) as (Hrange & Hlen & Hvecs).
  split; [by rewrite Hnum|]. split.
  { rewrite Hvec, Hnum. case_decide; [by rewrite length_insert|done]. }
  intros l2 vi2 Hvi2. rewrite Hvec in Hvi2. case_decide as Heq.
  - subst h2. destruct (decide (l2 = l)) as [->|Hne].
    + apply list_lookup_insert_Some in Hvi2 as [(_ & <- & _)|[? _]]; [|done].
      apply (vector_ok_mono w' w' h isi isi2); auto.
    + rewrite list_lookup_insert_ne in Hvi2 by done.
      apply (vector_ok_mono w w' h isi isi2); auto.
  - apply (vector_ok_mono w w' h2 isi isi2); auto.
Qed.

Lemma deref_vi_app w w' l vip vi :
  isis w' = isis w ++ l -> deref_vi w vip = Returns vi ->
  deref_vi w' vip = Returns vi.
Proof.
  intros Hisis. rewrite !deref_vi_Returns. intros (isi & Hisi & Hvi).
  exists isi. split; [|done]. rewrite Hisis, lookup_app_l; [done|].
  by eapply lookup_lt_Some.
Qed.

Lemma world_ok_register w w' h isi :
  world_ok w ->
  isis w' = isis w ++ [isi] -> irt w' = irt w -> claimed w' = claimed w ->
  h = length (isis w) ->
  1 <= isi_num_vectors isi <= 256 ->
  length (isi_vector isi) = Z.to_nat (isi_num_vectors isi) ->
  (forall l vi, isi_vector isi !! l = Some vi ->
     irqline vi = Z.of_nat l /\ iosapic vi = h /\ irte vi = None) ->
  world_ok w'.
Proof.
  intros (Hctl & Hcl & Hnd) Hisis Hirt Hclaimed -> Hrange Hlen Hvecs.
  split; [|split].
  - intros h2 isi2. rewrite Hisis.
    intros [Hold|[Hge Hnew]]%lookup_app_Some.
    + destruct (Hctl h2 isi2 Hold) as (? & ? & Hv). split; [done|]. split; [done|].
      intros l vi Hl. apply (vector_ok_mono w w' h2 isi2 isi2); auto.
      intros x. by rewrite Hclaimed.
    + apply list_lookup_singleton_Some in Hnew as [Hz <-].
      assert (h2 = length (isis w)) as -> by lia.
      split; [done|]. split; [done|]. intros l vi Hl.
      destruct (Hvecs l vi Hl) as (? & ? & Hnone).
      split; [done|]. split; [done|]. by rewrite Hnone.
  - intros q vip. rewrite Hclaimed. intros (vi & Hvi & ? & ?)%Hcl.
    exists vi. split; [by eapply deref_vi_app|done].
  - by rewrite Hclaimed.
Qed.

Lemma world_ok_vector w vip vi :
  world_ok w -> deref_vi w vip = Returns vi ->
  exists isi, isis w !! vip.1 = Some isi /\ vector_ok w vip.1 isi vip.2 vi.
Proof.
  intros (Hctl & _) (isi & Hisi & Hvi)%deref_vi_Returns.
  exists isi. split; [done|]. by apply (Hctl _ _ Hisi).
Qed.

Lemma world_ok_bind w w' isi h l vi p e vi' :
  world_ok w ->
  isis w !! h = Some isi -> deref_vi w (h, l) = Returns vi -> irte vi = None ->
  irt_table (irt w) !! p = Some e ->
  Z.to_nat (u8 (dest_iosapic_intin e)) = l ->
  irte_tags_ok e = true -> COMPARE_IRTE_ADDR e (isi_hpa isi) = true ->
  bind_vector w isi (h, l) vi p = Returns (vi', w') ->
  world_ok w'.
Proof.
  intros Hok Hisi Hvi Hfree He Hline Htags Hcmp Hb.
  destruct (bind_vector_inv _ _ _ _ _ _ _ Hb)
    as (Hirte & Hirq & Hil & Hio & Heoi & Hirt & Hisis & Hclaimed).
  destruct (world_ok_vector w (h, l) vi Hok Hvi) as (isi0 & Hisi0 & Hv0 & Hl0 & _).
  cbn [fst snd] in *. assert (isi0 = isi) as -> by congruence.
  destruct Hok as (Hctl & Hcl & Hnd).
  assert (Hnotin : forall q, (q, (h, l)) ∉ claimed w).
  { intros q (vi0 & Hvi0 & [? Hsome] & _)%Hcl. congruence. }
  split; [|split].
  - apply (controllers_ok_update w w' h l vi vi'); auto.
    + intros x Hx. rewrite Hclaimed. by apply list_elem_of_further.
    + intros isi1 Hisi1. assert (isi1 = isi) as -> by congruence.
      split; [congruence|]. split; [congruence|]. rewrite Hirte.
      exists e. rewrite Hirt, Hclaimed. split_and!; try done; try lia.
      apply list_elem_of_here.
  - intros q vip. rewrite Hclaimed. intros [[= -> ->]|Hin]%elem_of_cons.
    + exists vi'. split; [|by rewrite Hirte].
      rewrite (deref_vi_isis _ _ _ Hisis). by eapply deref_vi_store_vi_eq.
    + destruct (Hcl _ _ Hin) as (vi0 & Hvi0 & Hb0 & Hq0).
      exists vi0. split; [|done].
      rewrite (deref_vi_isis _ _ _ Hisis), deref_vi_store_vi_ne; [done|].
      intros <-. by apply (Hnotin q).
  - rewrite Hclaimed, fmap_cons. cbn [snd]. apply NoDup_cons. split; [|done].
    intros (x & Hx & Hin)%list_elem_of_fmap. destruct x as [q vip].
    cbn [snd] in Hx. subst vip. by apply (Hnotin q).
Qed.

Lemma world_ok_retarget w h l vi a :
  world_ok w -> deref_vi w (h, l) = Returns vi ->
  world_ok (store_vi w (h, l) (set_txn_addr vi a)).
Proof.
  intros Hok Hvi.
  destruct (world_ok_vector w (h, l) vi Hok Hvi) as (isi & Hisi & Hv).
  cbn [fst snd] in *. destruct Hok as (Hctl & Hcl & Hnd).
  split; [|split].
  - apply (controllers_ok_update w _ h l vi (set_txn_addr vi a)); auto.
    + apply irt_store_vi.
    + intros x. by rewrite claimed_store_vi.
    + intros isi1 Hisi1. assert (isi1 = isi) as -> by congruence.
      apply (vector_ok_mono w _ h isi isi); auto.
      * apply irt_store_vi.
      * intros x. by rewrite claimed_store_vi.
  - intros q vip. rewrite claimed_store_vi. intros (vi0 & Hvi0 & Hb0 & Hq0)%Hcl.
    destruct (decide (vip = (h, l))) as [->|Hne].
    + assert (vi0 = vi) as -> by congruence.
      exists (set_txn_addr vi a). split; [by eapply deref_vi_store_vi_eq|done].
    + exists vi0. split; [|done]. by rewrite deref_vi_store_vi_ne.
  - by rewrite claimed_store_vi.
Qed.

(** Every call that changes the driver state keeps the invariant. *)
Lemma driver_step_world_ok w w' : world_ok w -> driver_step w w' -> world_ok w'.
Proof.
  intros Hok Hstep. destruct Hstep as
    [dev log w hpa kz kc r w' log' Hrun
    |w isi_obj pcidev r pcidev' w' Hfix
    |dev log w d dest r d' w' log' Hrun].
  - destruct r as [h|].
    + destruct (iosapic_register_inv _ _ _ _ _ _ _ _ _ Hrun)
        as (isi & ? & ? & ? & _ & ? & _ & _ & ? & ? & ? & _).
      by eapply world_ok_register.
    + by rewrite (iosapic_register_None_world _ _ _ _ _ _ _ _ Hrun).
  - destruct isi_obj as [h|]; [|injection Hfix as _ _ <-; done].
    pose proof (iosapic_fixup_irq_cases w h pcidev) as Hc.
    destruct (resolves_to w h pcidev) as [[p l]|] eqn:Hres.
    2:{ by rewrite (Hc _ _ _ Hfix). }
    destruct Hc as (isi & Hisi & Heq). rewrite Heq in Hfix.
    destruct (deref_vi w (h, l)) as [vi|] eqn:Hvi; [|discriminate].
    cbn [mbind outcome_mbind] in Hfix.
    destruct (irte vi) as [q|] eqn:Hq.
    { cbn [mbind outcome_mbind mret outcome_mret] in Hfix.
      injection Hfix as _ _ <-. done. }
    destruct (bind_vector w isi (h, l) vi p) as [[vi' w'']|] eqn:Hb;
      [|discriminate].
    cbn [mbind outcome_mbind mret outcome_mret] in Hfix.
    injection Hfix as _ _ <-.
    destruct (resolves_to_entry _ _ _ _ _ Hres)
      as (isi0 & e & Hisi0 & He & Hline & Htags & Hcmp).
    assert (isi0 = isi) as -> by congruence.
    by eapply world_ok_bind.
  - apply iosapic_set_affinity_irq_world in Hrun
      as [->|(vi0 & a & Hvi0 & ->)]; [done|].
    destruct (chip_data d) as [h l]. by apply world_ok_retarget.
Qed.

Lemma booted_world_ok w : booted w -> world_ok w.
Proof.
  intros [Hisis Hcl]. split; [|split].
  - intros h isi. by rewrite Hisis.
  - intros q vip. rewrite Hcl. by intros ?%elem_of_nil.
  - rewrite Hcl. apply NoDup_nil_2.
Qed.

Lemma grows_to_refl w : grows_to w w.
Proof.
  split; [done|]. split; [by exists []|].
  intros h isi Hh. exists isi. by split.
Qed.

Lemma grows_to_trans w1 w2 w3 : grows_to w1 w2 -> grows_to w2 w3 -> grows_to w1 w3.
Proof.
  intros (Hi1 & [m1 Hc1] & Hs1) (Hi2 & [m2 Hc2] & Hs2). split; [congruence|]. split.
  - exists (m2 ++ m1). by rewrite Hc2, Hc1, app_assoc.
  - intros h isi Hh. destruct (Hs1 h isi Hh) as (isi1 & Hh1 & ? & ? & ? & ? & ?).
    destruct (Hs2 h isi1 Hh1) as (isi2 & Hh2 & ? & ? & ? & ? & ?).
    exists isi2. split; [done|]. unfold same_controller. split_and!; congruence.
Qed.

Lemma store_vi_same_controller w vip v h isi :
  isis w !! h = Some isi ->
  exists isi', isis (store_vi w vip v) !! h = Some isi' /\ same_controller isi isi'.
Proof.
  intros Hh. unfold store_vi.
  destruct (isis w !! vip.1) as [isi0|] eqn:Hisi.
  2:{ exists isi. by split. }
  cbn [isis set_isis]. destruct (decide (vip.1 = h)) as [<-|Hne].
  - assert (isi0 = isi) as -> by congruence.
    exists (set_isi_vector isi (<[vip.2:=v]> (isi_vector isi))). split.
    + apply list_lookup_insert_eq. by eapply lookup_lt_Some.
    + unfold same_controller. cbn [set_isi_vector isi_hpa addr isi_version
        isi_num_vectors isi_vector]. split_and!; try done. apply length_insert.
  - exists isi. split; [|done]. by rewrite list_lookup_insert_ne.
Qed.

Lemma driver_step_grows w w' : driver_step w w' -> grows_to w w'.
Proof.
  intros Hstep. destruct Hstep as
    [dev log w hpa kz kc r w' log' Hrun
    |w isi_obj pcidev r pcidev' w' Hfix
    |dev log w d dest r d' w' log' Hrun].
  - apply iosapic_register_world in Hrun as [->|[isi ->]]; [apply grows_to_refl|].
    split; [done|]. split; [by exists []|]. intros h isi0 Hh. exists isi0.
    split; [|done]. cbn [isis set_isis].
    rewrite lookup_app_l; [done|]. by eapply lookup_lt_Some.
  - destruct isi_obj as [h'|]; [|injection Hfix as _ _ <-; apply grows_to_refl].
    pose proof (iosapic_fixup_irq_cases w h' pcidev) as Hc.
    destruct (resolves_to w h' pcidev) as [[p' l']|] eqn:Hres.
    2:{ rewrite (Hc _ _ _ Hfix). apply grows_to_refl. }
    destruct (iosapic_fixup_irq_binds _ _ _ _ _ _ _ _ Hres Hfix)
      as (vi0 & vi0' & Hvi0 & _ & _ & _ & _ & Hbound & Hfree).
    destruct (irte vi0) as [q|] eqn:Hq.
    { destruct Hbound as [_ ->]; [eauto|apply grows_to_refl]. }
    destruct (Hfree eq_refl) as (_ & _ & Hcl & Hirt & Hisis & _).
    split; [done|]. split; [by exists [(txn_irq vi0', (h', l'))]|].
    intros h isi Hh. rewrite Hisis. by apply store_vi_same_controller.
  - apply iosapic_set_affinity_irq_world in Hrun
      as [->|(vi0 & a & Hvi0 & ->)]; [apply grows_to_refl|].
    split; [apply irt_store_vi|]. split.
    + exists []. apply claimed_store_vi.
    + intros h isi Hh. by apply store_vi_same_controller.
Qed.

Lemma lines_in_range_grows w1 w :
  grows_to w1 w -> lines_in_range w -> lines_in_range w1.
Proof.
  intros (Hirt & _ & Hctl) Hrange h isi e Hisi He Htags Hcmp.
  destruct (Hctl h isi Hisi) as (isi' & Hisi' & Hhpa & _ & _ & Hnum & _).
  rewrite <-Hnum. apply (Hrange h isi' e Hisi'); [by rewrite Hirt|done|].
  by rewrite Hhpa.
Qed.

Lemma driver_steps_grow w w' : rtc driver_step w w' -> grows_to w w'.
Proof.
  intros Hsteps. induction Hsteps as [w|w w1 w' Hstep _ IH];
    [apply grows_to_refl|].
  eapply grows_to_trans; [|exact IH]. by apply driver_step_grows.
Qed.

Lemma driver_steps_world_ok w0 w : booted w0 -> rtc driver_step w0 w -> world_ok w.
Proof.
  intros Hboot%booted_world_ok Hsteps.
  induction Hsteps as [w|w w1 w' Hstep _ IH]; [done|].
  apply IH. by eapply driver_step_world_ok.
Qed.

(** X16: take a run of registrations, bindings and retargetings that
    starts with an empty registry and ends in a state whose routing table
    names only lines the controllers have (the driver never checks this).
    Then every state on the way, the last one included, has that property
    too, so that no call of the run indexed past a vector array, and is
    well formed: every controller has between 1 and 256 lines and as many
    vector_info; every line points back to its controller and carries its
    own index; every bound line holds a routing entry that lies in the
    table, has valid tags, names this controller and this line, a processor
    interrupt that is a non-negative int claimed for this line, and its
    controller's EOI register; every claimed interrupt belongs to a bound
    line, and no line is claimed twice. *)
Theorem driver_keeps_world_ok (w0 w1 w : world) :
  booted w0 -> rtc driver_step w0 w1 -> rtc driver_step w1 w ->
  lines_in_range w ->
  world_ok w1 /\ lines_in_range w1.
Proof.
  intros Hboot Hsteps1 Hsteps2 Hrange. split.
  - by eapply driver_steps_world_ok.
  - eapply lines_in_range_grows; [|exact Hrange]. by apply driver_steps_grow.
Qed.

(** X17: in a well-formed state the four irq_chip operations return on
    every bound line, following no NULL or dangling pointer: mask and
    unmask return, the retarget operation returns -1 or 0 and leaves the
    state well formed, and end-of-interrupt is one raw write of the line's
    eoi_data to the EOI register of the line's own controller. *)
Theorem irq_chip_operations_return (dev : device) (log : list mmio_event)
    (w : world) (d : irq_data) (vi : vector_info) :
  world_ok w -> deref_vi w (chip_data d) = Returns vi -> is_Some (irte vi) ->
  exists isi,
    isis w !! (chip_data d).1 = Some isi
    /\ (exists log', run dev (iosapic_mask_irq w d) log = (Returns tt, log'))
    /\ (exists log', run dev (iosapic_unmask_irq w d) log = (Returns tt, log'))
    /\ run dev (iosapic_eoi_irq w d) log
       = (Returns tt,
          log ++ [EvRawWritel (eoi_data vi) (addr isi + IOSAPIC_REG_EOI)])
    /\ forall dest, exists r d' w' log',
         run dev (iosapic_set_affinity_irq w d dest) log
         = (Returns (r, d', w'), log')
         /\ (r = -1 \/ r = 0) /\ world_ok w'.
Proof.
  intros Hok Hvi [p Hp].
  destruct (world_ok_vector w _ vi Hok Hvi) as (isi & Hisi & Hio & Hil & Hb).
  assert (Hisp : deref_isi w (iosapic vi) = Returns isi).
  { rewrite Hio. by apply deref_isi_Returns. }
  rewrite Hp in Hb. destruct Hb as (e & He & _ & _ & _ & _ & Heoi & _).
  assert (Hirte : deref_irte (irt w) (irte vi) = Returns e).
  { unfold deref_irte. rewrite Hp. cbn [mbind option_bind]. by rewrite He. }
  exists isi. split; [done|]. split; [|split; [|split]].
  - destruct (iosapic_mask_irq_sets_enable dev log w d vi isi Hvi Hisp)
      as (? & ? & ? & ? & ?). eauto.
  - destruct (iosapic_set_irt_data_Returns w vi e Hirte) as (d0 & d1 & Hdata).
    destruct (run_iosapic_wr_irt_entry dev log w vi isi d0 d1 Hisp)
      as (r0 & r1 & Hwr).
    eexists. unfold iosapic_unmask_irq.
    rewrite run_bind, Hvi, run_lift, run_bind, Hdata, run_lift.
    rewrite run_bind, Hwr. reflexivity.
  - unfold iosapic_eoi_irq. by rewrite run_bind, Hvi, run_lift, Heoi.
  - intros dest.
    destruct (Z.lt_ge_cases (s32 (cpu_check_affinity d dest)) 0) as [Hneg|Hpos].
    + exists (-1), d, w, log. split; [|auto].
      unfold iosapic_set_affinity_irq. apply Z.ltb_lt in Hneg. by rewrite Hneg.
    + destruct (run_iosapic_set_affinity_irq dev log w d dest vi isi e
                  Hpos Hvi Hisp Hirte) as (log' & Hrun).
      eexists 0, _, _, log'. split; [exact Hrun|]. split; [auto|].
      destruct (chip_data d) as [h l]. by apply world_ok_retarget.
Qed.

Lemma fixup_line_exists w h isi p e :
  world_ok w -> lines_in_range w ->
  isis w !! h = Some isi -> irt_table (irt w) !! p = Some e ->
  irte_tags_ok e = true -> COMPARE_IRTE_ADDR e (isi_hpa isi) = true ->
  exists vi, deref_vi w (h, Z.to_nat (u8 (dest_iosapic_intin e))) = Returns vi.
Proof.
  intros (Hctl & _) Hrange Hisi He Htags Hcmp.
  destruct (Hctl h isi Hisi) as (Hnum & Hlen & _).
  pose proof (Hrange h isi e Hisi (list_elem_of_lookup_2 _ _ _ He) Htags Hcmp)
    as Hline.
  pose proof (u8_range (dest_iosapic_intin e)) as Hu8.
  destruct (lookup_lt_is_Some_2 (isi_vector isi)
              (Z.to_nat (u8 (dest_iosapic_intin e)))) as [vi Hvi].
  { rewrite Hlen. apply Z2Nat.inj_lt; lia. }
  exists vi. apply deref_vi_Returns. exists isi. by split.
Qed.

(** X18: in a well-formed state whose routing table names only lines the
    controllers have, a call of iosapic_fixup_irq for a device that is not
    a SuperIO device, with a NULL handle or the handle of a registered
    controller, has one of three outcomes and never indexes past a vector
    array.  It panics, and then the allocator had no processor interrupt
    left; or it returns -1 and has changed neither the device nor the
    driver state; or it returns a non-negative int (txn_irq is not
    truncated) that it has stored in pcidev->irq and that is the processor
    interrupt of a bound line of the controller, claimed for that line,
    and the state is again well formed. *)
Theorem iosapic_fixup_irq_result (w : world) (isi_obj : option nat)
    (pcidev : pci_dev) :
  world_ok w -> lines_in_range w ->
  CONFIG_SUPERIO && is_superio_device pcidev = false ->
  (forall h, isi_obj = Some h -> is_Some (isis w !! h)) ->
  (iosapic_fixup_irq w isi_obj pcidev = Halt PANIC
   /\ s32 (txn_alloc_irq (txn w) 8).1 < 0)
  \/ iosapic_fixup_irq w isi_obj pcidev = Returns (-1, pcidev, w)
  \/ exists r w' h l vi,
       iosapic_fixup_irq w isi_obj pcidev = Returns (r, set_irq pcidev r, w')
       /\ 0 <= r < 2 ^ 31
       /\ isi_obj = Some h /\ deref_vi w' (h, l) = Returns vi
       /\ is_Some (irte vi) /\ txn_irq vi = r
       /\ (r, (h, l)) ∈ claimed w'
       /\ world_ok w'.
Proof.
  intros Hok Hrange Hsup Hreg.
  destruct isi_obj as [h|]; [|right; left; done].
  destruct (Hreg h eq_refl) as [isi Hisi].
  destruct (iosapic_xlate_pin (irt w) isi pcidev) as [p|] eqn:Hx.
  2:{ right; left. unfold iosapic_fixup_irq. rewrite Hsup. cbn [andb].
      unfold deref_isi. rewrite Hisi. cbn [mbind outcome_mbind]. by rewrite Hx. }
  destruct (iosapic_xlate_pin_entry _ _ _ _ Hx) as (e & He & Htags & Hcmp).
  destruct (fixup_line_exists w h isi p e Hok Hrange Hisi He Htags Hcmp)
    as [vi Hvi].
  assert (Hres : resolves_to w h pcidev
                 = Some (p, Z.to_nat (u8 (dest_iosapic_intin e)))).
  { unfold resolves_to. rewrite Hsup. cbn [andb]. rewrite Hisi.
    cbn [mbind option_bind]. rewrite Hx. cbn [mbind option_bind].
    by rewrite He. }
  set (l := Z.to_nat (u8 (dest_iosapic_intin e))) in *.
  destruct (irte vi) as [p0|] eqn:Hp0.
  - right; right.
    destruct (world_ok_vector w (h, l) vi Hok Hvi) as (isi0 & _ & _ & _ & Hb).
    rewrite Hp0 in Hb. destruct Hb as (e0 & _ & _ & _ & _ & Hirq & _ & Hcl).
    cbn [fst snd] in Hcl.
    pose proof (iosapic_fixup_irq_bound w h pcidev p l vi p0 Hres Hvi Hp0) as Hfix.
    rewrite (u32_small (txn_irq vi)), (s32_small (txn_irq vi)) in Hfix by lia.
    exists (txn_irq vi), w, h, l, vi. split; [exact Hfix|]. split; [lia|].
    split_and!; done.
  - destruct (iosapic_fixup_irq_free_line w h p l pcidev vi Hres Hvi Hp0)
      as [Hpanic Hbind].
    destruct (Z.lt_ge_cases (s32 (txn_alloc_irq (txn w) 8).1) 0) as [Hneg|Hpos].
    { left. split; [by apply Hpanic|done]. }
    right; right.
    destruct (Hbind Hpos) as (isi1 & w' & _ & Hfix & Hvi' & _ & Hcl & _).
    pose proof (s32_range (txn_alloc_irq (txn w) 8).1) as Hq.
    eexists _, w', h, l, _. split; [exact Hfix|]. split; [lia|].
    split; [done|]. split; [exact Hvi'|]. split; [by eexists|].
    split; [done|]. split.
    + rewrite Hcl. apply elem_of_cons. by left.
    + eapply driver_step_world_ok; [exact Hok|]. by eapply step_fixup_irq.
Qed.

(** X19: no sequence of driver operations takes anything back.  The
    routing table is never changed; a registered controller is never
    removed or moved to another handle, and its hpa, mapped address,
    version, number of lines and the length of its vector array stay as
    registered; a processor interrupt once claimed for a line stays
    claimed. *)
Theorem driver_steps_keep_controllers (w w' : world) :
  rtc driver_step w w' ->
  irt w' = irt w
  /\ (exists more, claimed w' = more ++ claimed w)
  /\ forall h isi, isis w !! h = Some isi ->
       exists isi', isis w' !! h = Some isi'
         /\ isi_hpa isi' = isi_hpa isi /\ addr isi' = addr isi
         /\ isi_version isi' = isi_version isi
         /\ isi_num_vectors isi' = isi_num_vectors isi
         /\ length (isi_vector isi') = length (isi_vector isi).
Proof.
  intros Hsteps. change (grows_to w w').
  induction Hsteps as [w|w w1 w' Hstep _ IH]; [apply grows_to_refl|].
  eapply grows_to_trans; [|exact IH]. by apply driver_step_grows.
Qed.
End InvariantProofs.

(** * The properties at work on the example platform *)

(** Registering the controller at 0x1000 and binding [Platform.dev_a]. *)
Lemma boot_registers :
  driver_step (H := Platform.cfg64) (H0 := Platform.hdr) (H1 := Platform.pat)
    Scenario.boot Platform.world_free.
Proof.
  apply (step_register (H := Platform.cfg64) (H0 := Platform.hdr)
           (H1 := Platform.pat) Scenario.chip [] Scenario.boot 0x1000 true true
           (Some 0%nat) Platform.world_free
           [EvWritel 1 0x1000; EvReadl 0x1010 0]).
  reflexivity.
Qed.

Lemma world_free_binds :
  driver_step (H := Platform.cfg64) (H0 := Platform.hdr) (H1 := Platform.pat)
    Platform.world_free Platform.world_bound.
Proof.
  apply (step_fixup_irq (H := Platform.cfg64) (H0 := Platform.hdr)
           (H1 := Platform.pat) Platform.world_free (Some 0%nat) Platform.dev_a
           64 (set_irq Platform.dev_a 64) Platform.world_bound).
  reflexivity.
Qed.

Lemma boot_booted : booted Scenario.boot.
Proof. by split. Qed.

Lemma world_free_ok :
  world_ok (H := Platform.cfg64) (H0 := Platform.hdr) Platform.world_free.
Proof.
  eapply (driver_step_world_ok (H1 := Platform.pat)); [|exact boot_registers].
  apply booted_world_ok, boot_booted.
Qed.

Lemma world_bound_ok :
  world_ok (H := Platform.cfg64) (H0 := Platform.hdr) Platform.world_bound.
Proof.
  eapply (driver_step_world_ok (H1 := Platform.pat)); [|exact world_free_binds].
  exact world_free_ok.
Qed.

(** kmalloc returns 0x10003: the table starts at 0x10008. *)
Lemma iosapic_alloc_irt_aligned_witness :
  @iosapic_alloc_irt Platform.cfg64 Scenario.krn_odd 3 = 0x10008.
Proof.
  pose proof (@iosapic_alloc_irt_aligned Platform.cfg64 Scenario.krn_odd 3
                ltac:(vm_compute; discriminate) eq_refl) as (Hm & Hr & _).
  change (0x10003 <= @iosapic_alloc_irt Platform.cfg64 Scenario.krn_odd 3
          < 0x10003 + 8) in Hr.
  revert Hm Hr.
  generalize (@iosapic_alloc_irt Platform.cfg64 Scenario.krn_odd 3).
  intros x Hm Hr. Z.to_euclidean_division_equations. lia.
Defined.

Lemma iosapic_init_table_or_nothing_witness :
  @iosapic_init Platform.cfg64 Platform.hdr Platform.legacy Platform.krn
    Platform.no_table
  = Returns {| irt_cell := 0x10000; irt_num_entry := 1; irt_mem := [] |}
  /\ ((0x10000 = 0 /\ 1 = 0
       /\ irt_table {| irt_cell := 0x10000; irt_num_entry := 1; irt_mem := [] |}
          = [])
      \/ (0x10000 <> 0 /\ 1 <> 0)).
Proof.
  split; [reflexivity|].
  exact (@iosapic_init_table_or_nothing Platform.cfg64 Platform.hdr
           Platform.legacy Platform.krn Platform.no_table
           {| irt_cell := 0x10000; irt_num_entry := 1; irt_mem := [] |} eq_refl).
Defined.

(** PAT firmware that delivers two entries. *)
Lemma iosapic_init_loads_table_witness :
  exists g',
    @iosapic_init Platform.cfg64 Platform.hdr
      (Platform.firmware true 0 2 0
         [Platform.entry 0x1000 3 2 0; Platform.entry 0x1000 3 1 1])
      Platform.krn Platform.no_table = Returns g'
    /\ irt_cell g' = 0x10000 /\ irt_num_entry g' = 2
    /\ irt_table g' = [Platform.entry 0x1000 3 2 0; Platform.entry 0x1000 3 1 1].
Proof.
  destruct (proj1 (@iosapic_init_loads_table Platform.cfg64 Platform.hdr
    (Platform.firmware true 0 2 0
       [Platform.entry 0x1000 3 2 0; Platform.entry 0x1000 3 1 1])
    Platform.krn Platform.no_table 2 (conj eq_refl eq_refl)
    ltac:(vm_compute; discriminate)) eq_refl (fun _ => eq_refl))
    as (g' & cell & Hinit & Hcell & Hn & _ & Htable).
  exists g'. split; [exact Hinit|]. split; [exact Hcell|]. split; [exact Hn|].
  exact Htable.
Defined.

Lemma iosapic_load_irt_alloc_failure_witness :
  @iosapic_load_irt Platform.cfg64 Platform.hdr
    (Platform.firmware true 0 2 0 [Platform.stale; Platform.stale])
    Scenario.krn_oom Platform.no_table 0 = Returns (0, 0, [])
  /\ @iosapic_init Platform.cfg64 Platform.hdr
       (Platform.firmware true 0 2 0 [Platform.stale; Platform.stale])
       Scenario.krn_oom Platform.no_table
     = Returns {| irt_cell := 0; irt_num_entry := 0; irt_mem := [] |}.
Proof.
  exact (proj1 (@iosapic_load_irt_alloc_failure Platform.cfg64 Platform.hdr
    (Platform.firmware true 0 2 0 [Platform.stale; Platform.stale])
    Scenario.krn_oom Platform.no_table 0 2 ltac:(discriminate) eq_refl)
    eq_refl (fun _ => eq_refl)).
Defined.

Lemma irt_find_irqline_one_controller_witness :
  isi_hpa (Platform.controller 0x1000 [])
  = isi_hpa (Platform.controller 0x1000 [Platform.bound_vi]).
Proof.
  apply (@irt_find_irqline_one_controller Platform.cfg64 Platform.hdr
           (Platform.table [Platform.entry 0x1000 3 2 5])
           (Platform.controller 0x1000 [])
           (Platform.controller 0x1000 [Platform.bound_vi]) 3 2 3 2 0%nat);
    try reflexivity; (split; [discriminate | reflexivity]).
Defined.

Lemma iosapic_register_new_controller_witness :
  exists isi,
    isis Platform.world_free = isis Scenario.boot ++ [isi]
    /\ isi_hpa isi = 0x1000 /\ 1 <= isi_num_vectors isi <= 256.
Proof.
  destruct (@iosapic_register_new_controller Platform.cfg64 Platform.krn
    Scenario.chip [] [EvWritel 1 0x1000; EvReadl 0x1010 0]
    Scenario.boot Platform.world_free 0x1000 true true 0%nat eq_refl)
    as (isi & _ & Hisis & _ & _ & _ & Hhpa & _ & Hn & _).
  exists isi. split; [exact Hisis|]. split; [exact Hhpa | exact Hn].
Defined.

Lemma iosapic_set_irt_data_words_witness :
  0 <= 0xa001 < 2 ^ 32 /\ 0 <= 0xa0ff0000 < 2 ^ 32
  /\ (forall n, n <> 13 -> n <> 15 -> Z.testbit 0xa001 n = Z.testbit (u32 1) n)
  /\ Z.testbit 0xa001 16 = Z.testbit (u32 1) 16.
Proof.
  exact (@iosapic_set_irt_data_words Platform.hdr Platform.legacy Platform.krn
    (Platform.world0 (Platform.table [Platform.entry 0x1000 3 2 5]) [])
    {| iosapic := 0; irte := Some 0%nat; eoi_addr := 0x1040; eoi_data := 1;
       txn_irq := 65; txn_addr := 0xfffa0000; txn_data := 1; status := 0;
       irqline := 5 |} 0xa001 0xa0ff0000 eq_refl).
Defined.

Lemma iosapic_set_irt_data_legacy_fields_witness :
  Z.land 0xa0ff0000 0x00ff0000 = Z.shiftr (Z.land 0xfffa0000 0x0ff00000) 4
  /\ Z.land 0xa0ff0000 0xff000000 = Z.shiftl (Z.land 0xfffa0000 0x000ff000) 12.
Proof.
  destruct (@iosapic_set_irt_data_legacy_fields Platform.hdr Platform.legacy
    Platform.krn
    (Platform.world0 (Platform.table [Platform.entry 0x1000 3 2 5]) [])
    {| iosapic := 0; irte := Some 0%nat; eoi_addr := 0x1040; eoi_data := 1;
       txn_irq := 65; txn_addr := 0xfffa0000; txn_data := 1; status := 0;
       irqline := 5 |} 0xa001 0xa0ff0000 eq_refl eq_refl)
    as (Hid & Heid & _).
  split; [exact Hid | exact Heid].
Defined.

(** Masking line 0 of a controller whose entry reads 0xa001, 0xa0ff0000. *)
Lemma iosapic_mask_irq_only_sets_enable_witness :
  exists d0 d1 d0' r0 r1,
    run (Platform.regfile 0x1000
           (fun i => if i =? 0x10 then 0xa001
                     else if i =? 0x11 then 0xa0ff0000 else 0))
      (@iosapic_mask_irq Platform.krn Platform.world1 Platform.irq65) []
    = (Returns tt,
       [EvWritel 0x10 0x1000; EvReadl 0x1010 d0;
        EvWritel 0x11 0x1000; EvReadl 0x1010 d1;
        EvWritel 0x10 0x1000; EvWritel d0' 0x1010; EvReadl 0x1010 r0;
        EvWritel 0x11 0x1000; EvWritel d1 0x1010; EvReadl 0x1010 r1])
    /\ Z.testbit d0' 16 = true
    /\ (forall n, n <> 16 -> Z.testbit d0' n = Z.testbit d0 n)
    /\ 0 <= d0' < 2 ^ 32.
Proof.
  exact (@iosapic_mask_irq_only_sets_enable Platform.krn
    (Platform.regfile 0x1000
       (fun i => if i =? 0x10 then 0xa001
                 else if i =? 0x11 then 0xa0ff0000 else 0)) []
    Platform.world1 Platform.irq65 Platform.bound_vi
    (Platform.controller 0x1000 [Platform.bound_vi]) eq_refl eq_refl).
Defined.

Lemma iosapic_fixup_irq_superio_witness :
  @iosapic_fixup_irq Scenario.cfg_superio Platform.hdr Platform.krn
    Platform.world_free (Some 0%nat) Scenario.dev_serial
  = Returns (3, set_irq Scenario.dev_serial 3, Platform.world_free).
Proof.
  apply (proj1 (@iosapic_fixup_irq_superio Scenario.cfg_superio Platform.hdr
    Platform.krn Platform.world_free 0%nat Scenario.dev_serial
    eq_refl eq_refl)).
  vm_compute. discriminate.
Defined.

Lemma iosapic_fixup_irq_binds_free_line_witness :
  exists w',
    @iosapic_fixup_irq Platform.cfg64 Platform.hdr Platform.krn
      Platform.world_free (Some 0%nat) Platform.dev_a
    = Returns (64, set_irq Platform.dev_a 64, w')
    /\ deref_vi w' (0%nat, 0%nat) = Returns Scenario.bound64
    /\ claimed w' = [(64, (0%nat, 0%nat))].
Proof.
  destruct (proj2 (@iosapic_fixup_irq_binds_free_line Platform.cfg64
    Platform.hdr Platform.krn Platform.world_free 0%nat 0%nat 0%nat
    Platform.dev_a (init_vector 0 0) eq_refl eq_refl eq_refl)
    ltac:(vm_compute; discriminate))
    as (isi & w' & Hisi & Hfix & Hvi & _ & Hcl & _).
  injection Hisi as <-.
  exists w'. split; [exact Hfix|]. split; [exact Hvi | exact Hcl].
Defined.

Lemma world_bound_in_range :
  lines_in_range (H := Platform.cfg64) (H0 := Platform.hdr) Platform.world_bound.
Proof.
  intros h isi e Hisi He _ _.
  destruct h as [|h]; [|destruct h; discriminate].
  injection Hisi as <-.
  apply list_elem_of_singleton in He as ->. reflexivity.
Qed.

Lemma world_free_in_range :
  lines_in_range (H := Platform.cfg64) (H0 := Platform.hdr) Platform.world_free.
Proof.
  eapply lines_in_range_grows; [|exact world_bound_in_range].
  exact (driver_step_grows (H1 := Platform.pat) _ _ world_free_binds).
Qed.

(** The run that registers the controller and binds [Platform.dev_a], and
    its state after the registration. *)
Lemma driver_keeps_world_ok_witness :
  world_ok (H := Platform.cfg64) (H0 := Platform.hdr) Platform.world_free
  /\ lines_in_range (H := Platform.cfg64) (H0 := Platform.hdr)
       Platform.world_free.
Proof.
  apply (@driver_keeps_world_ok Platform.cfg64 Platform.hdr Platform.pat
           Platform.krn Scenario.boot Platform.world_free Platform.world_bound
           boot_booted).
  - eapply rtc_l; [exact boot_registers|]. apply rtc_refl.
  - eapply rtc_l; [exact world_free_binds|]. apply rtc_refl.
  - exact world_bound_in_range.
Defined.

Lemma irq_chip_operations_return_witness :
  run Scenario.chip
    (@iosapic_eoi_irq Platform.krn Platform.world_bound Scenario.irq64) []
  = (Returns tt, [EvRawWritel 0 0x1040])
  /\ exists log',
       run Scenario.chip
         (@iosapic_unmask_irq Platform.hdr Platform.pat Platform.krn
            Platform.world_bound Scenario.irq64) []
       = (Returns tt, log').
Proof.
  destruct (@irq_chip_operations_return Platform.cfg64 Platform.hdr
    Platform.pat Platform.krn Scenario.chip [] Platform.world_bound
    Scenario.irq64 Scenario.bound64 world_bound_ok eq_refl
    (ex_intro _ 0%nat eq_refl))
    as (isi & Hisi & _ & Hunmask & Heoi & _).
  injection Hisi as <-.
  split; [exact Heoi | exact Hunmask].
Defined.

(** Binding [Platform.dev_a] to the free line of [Platform.world_free]. *)
Lemma iosapic_fixup_irq_result_witness :
  (@iosapic_fixup_irq Platform.cfg64 Platform.hdr Platform.krn
     Platform.world_free (Some 0%nat) Platform.dev_a = Halt PANIC
   /\ s32 (@txn_alloc_irq Platform.krn (txn Platform.world_free) 8).1 < 0)
  \/ @iosapic_fixup_irq Platform.cfg64 Platform.hdr Platform.krn
       Platform.world_free (Some 0%nat) Platform.dev_a
     = Returns (-1, Platform.dev_a, Platform.world_free)
  \/ exists r w' h l vi,
       @iosapic_fixup_irq Platform.cfg64 Platform.hdr Platform.krn
         Platform.world_free (Some 0%nat) Platform.dev_a
       = Returns (r, set_irq Platform.dev_a r, w')
       /\ 0 <= r < 2 ^ 31
       /\ Some 0%nat = Some h /\ deref_vi w' (h, l) = Returns vi
       /\ is_Some (irte vi) /\ txn_irq vi = r
       /\ (r, (h, l)) ∈ claimed w'
       /\ world_ok (H := Platform.cfg64) (H0 := Platform.hdr) w'.
Proof.
  apply (@iosapic_fixup_irq_result Platform.cfg64 Platform.hdr Platform.pat
    Platform.krn Platform.world_free (Some 0%nat) Platform.dev_a
    world_free_ok world_free_in_range eq_refl).
  intros h Hh. injection Hh as <-. eexists. reflexivity.
Defined.

Lemma driver_steps_keep_controllers_witness :
  irt Platform.world_bound = irt Scenario.boot
  /\ exists more, claimed Platform.world_bound = more ++ claimed Scenario.boot.
Proof.
  destruct (@driver_steps_keep_controllers Platform.cfg64 Platform.hdr
    Platform.pat Platform.krn Scenario.boot Platform.world_bound
    (rtc_l _ _ _ _ boot_registers (rtc_once _ _ world_free_binds)))
    as (Hirt & Hcl & _).
  split; [exact Hirt | exact Hcl].
Defined.

